(* ===== verification/_CoqProject ===== *)
-Q . S2P
Prelude.v
PyInt.v
Sample.v
Device.v
Discovery.v
Channel.v
Fakes.v
Args.v
WaitAlert.v
SelfTest.v
Stream.v
Cli.v
Tests.v
