(* ===== verification/Prelude.v ===== *)
(** * nxp_simtemp command line tool: a verification development

    The program ([src/user/cli/main.py]) is the user-space companion of a
    simulated temperature sensor.  It talks to the driver through two
    surfaces: a directory of text attributes ([sampling_us], [sampling_ms],
    [threshold_mC], [mode]) and a character device that delivers 16-byte
    little-endian records [(timestamp_ns : u64, temp_mC : i32, flags : u32)].
    Two commands exist: [stream] configures the device and prints samples,
    [test] lowers the threshold, waits for an alert within a deadline and
    puts the configuration back on every exit path.  [main] parses the
    command line, runs the command and maps exceptions to exit codes.

    ** Files of the development, in dependency order

    - [Prelude] (this file): Python's exceptions as the type [exn], the
      outcome of a run ([Ok], [Raise], [OutOfFuel]), the state-and-exception
      monad [M] in which every stateful function of the program is written,
      [try_except] and [try_finally] with Python's semantics, the bounded
      loop combinator [iter] that models [while] loops, and the generic
      lemmas about them: inversion, fuel monotonicity, the invariant rules
      [iter_inv] and [iter_always], the variant rule [iter_terminates], the
      frame predicate [preserves] with its tactic [preserve], and [total]
      with its tactic [totality].
    - [PyInt]: the two conversions the attribute protocol rests on,
      [str(int)] ([py_str]) and [int(text)] ([py_int]) together with
      [str.strip] ([strip]), and their round trip.
    - [Sample]: [SIMTEMP_SAMPLE_STRUCT = struct.Struct("<QiI")]: [pack],
      [unpack], the record size, [SIMTEMP_FLAG_ALERT], with the round trips
      and the bounds of the three fields.
    - [Device]: [SimtempConfig]; the interface [Device] that the commands
      use ([write], [snapshot], [char_device]); the abstract attribute store
      ([store], [store_write], [store_snapshot], [store_write_sampling]) and
      the contract [DeviceLaws] that a device implements it; the
      implementation [SimtempDevice] over a directory of attribute files
      ([read_int], [read_str], [write], [snapshot]) with the proof that it
      meets the contract; [write_sampling] with its fallback from
      microseconds to milliseconds, proved against the contract.
    - [Discovery]: [SimtempDevice.__init__]: the sysfs root as a list of
      entries, the pattern [simtemp*], the sort by name, the selection by
      index and the three errors.
    - [Channel]: the interface [Channel] of the operating-system calls of
      the polling loops ([os.open], [select.poll], [os.read], [os.close],
      [time.monotonic]); the contract [ClockLaws] of a clock that advances;
      the contract [Quiet] of a channel on which nothing arrives; the
      wrapper [Traced] that records every call with its outcome.
    - [Fakes]: the test doubles of [src/tests/test_cli.py] as instances of
      [Channel] and [Device], with the contracts they satisfy.
    - [Args]: the [argparse.Namespace] the commands read, the lines they
      print as structured values, the state [St] of a command (device,
      world, output) and the frame lemmas of its three components.
    - [WaitAlert]: [wait_for_alert], the bounded polling loop of the
      self-test: its deadline and poll time-out, soundness of its three
      results, termination under [ClockLaws], the order of its calls
      ([wait_trace]), the count it returns, the result in a [Quiet] world.
    - [SelfTest]: [test_command]: snapshot, configuration, polling, verdict
      and the [finally] block; the frame of the command and the restoration
      of the threshold and of the snapshot, for every device that meets
      [DeviceLaws] and every world.
    - [Stream]: [stream_command]: configuration, deadline, the loop with its
      count and duration limits, [KeyboardInterrupt] as a normal end; what
      it prints, the bound of [--count], termination with [--duration], the
      order of its calls ([session_trace]), and the stream without a bound.
    - [Cli]: [positive_int], [non_negative_int], and [main] from the result
      of [parse_args] on: [dispatch] is [args.func(args)], [main] the [try]
      statement that maps exceptions to exit codes.
    - [Tests]: every test of the test-suite as a theorem on the doubles of
      [Fakes], and further runs that exhibit behaviour the suite does not
      exercise.

    ** How the components interact

    [main] constructs the device ([Discovery.init]) and runs a command on a
    state [St D W].  The commands reach the device only through the class
    [Device] and the operating system only through the class [Channel], so
    their theorems are proved for every instance: [SimtempDevice] and the
    fake device of the tests for [Device]; the two fake worlds of the
    tests, and any world wrapped in [Traced], for [Channel].  Properties of
    the device's state are stated on the abstract [store] through [dev_abs]
    and transported by [DeviceLaws]; properties of the order of calls are
    stated on the trace [Traced] records.

    ** Modelling choices

    - Time.  [time.monotonic()] returns float seconds; the model counts
      integer nanoseconds ([Z]), the resolution of [CLOCK_MONOTONIC], and
      does the arithmetic exactly.  Rounding of floats is not modelled.
      [max(timeout_s, 0.5)] becomes [Z.max (max_periods * sampling_us * 1000)
      500000000] and [int((deadline - now) * 1000)] becomes a quotient by
      [1000000] truncated toward zero ([Z.quot]).  [--duration] is a number
      of nanoseconds.
    - Loops.  A [while] loop is [iter fuel body]: [fuel] bounds the number of
      iterations and a run that exhausts it yields [OutOfFuel], which is
      neither a value nor an exception.  The termination theorems give the
      fuel that is enough: the span of the deadline divided by the tick of
      the clock, plus one, because every iteration reads the clock and two
      readings differ by at least a tick.  For [wait_for_alert] more fuel
      gives the same run.  The safety theorems hold for every fuel.  The
      stream without [--count] and without a deadline has no bound: in a
      quiet world it exhausts every fuel, which is how the model says that
      it runs until interrupted.
    - Exceptions.  [exn] lists the exception classes the program raises or
      catches; messages are not modelled.  [is_OSError] is the subclass test
      of [except OSError].  An interrupt ([KeyboardInterrupt]) is an
      exception that a call of the channel raises; interrupts between calls
      are not modelled.
    - Attribute files hold [string]s; a directory is a [gmap string string].
      What the driver does with a value (validation, the link between
      [sampling_us] and [sampling_ms]) is outside the repository and is not
      modelled: the store behaves like the directory of plain files the
      test-suite uses, with a flag that says whether writing an absent
      attribute creates it (a temporary directory) or fails with
      [FileNotFoundError] (the driver's directory, as the source expects).
    - Bytes are [Init.Byte.byte]; integers of the record are [Z] with their
      ranges stated; the little-endian conversions are coqutil's
      [le_combine] and [le_split].
    - The sysfs root is the list of its entries in the order the directory
      yields them; [sorted] on the paths of one directory is [String.leb] on
      the names.

    ** Not modelled

    [build_parser] and [argparse]: the model starts from the subcommand and
    the [Namespace] that [parse_args] returns.  [iso8601_from_ns] and the
    text of the printed lines: a printed line is a structured value
    ([Args.line]) that carries the numbers the text is formatted from.  The
    messages of exceptions and the standard error stream. *)

From stdpp Require Import base option list.
From Stdlib Require Import ZArith Lia.

#[local] Open Scope Z_scope.

(** ** Exceptions *)

(** The exception classes that occur in [main.py], and [AssertionError] for
    the assertions of the test doubles.  [OSError] stands for an
    operating-system error that is none of its three named subclasses. *)
Inductive exn : Type :=
| FileNotFoundError
| PermissionError
| BlockingIOError
| OSError
| IndexError
| ValueError
| StructError
| ArgumentTypeError
| AssertionError
| AttributeError
| KeyboardInterrupt.

#[export] Instance exn_eq_dec : EqDecision exn.
Proof. solve_decision. Defined.

(** [isinstance(e, OSError)]. *)
Definition is_OSError (e : exn) : bool :=
  match e with
  | FileNotFoundError | PermissionError | BlockingIOError | OSError => true
  | _ => false
  end.

(** ** Outcomes and the monad *)

Inductive outcome (A : Type) : Type :=
| Ok (a : A)
| Raise (e : exn)
| OutOfFuel.

Arguments Ok {A} a.
Arguments Raise {A} e.
Arguments OutOfFuel {A}.

#[export] Instance outcome_eq_dec {A} `{EqDecision A} : EqDecision (outcome A).
Proof. solve_decision. Defined.

(** A run terminated: it returned or raised. *)
Definition terminated {A} (r : outcome A) : Prop :=
  match r with OutOfFuel => False | _ => True end.

#[export] Instance terminated_dec {A} (r : outcome A) : Decision (terminated r).
Proof. destruct r; simpl; apply _. Defined.

Definition M (St A : Type) : Type := St -> outcome A * St.

Definition ret {St A} (a : A) : M St A := fun s => (Ok a, s).

Definition raise {St A} (e : exn) : M St A := fun s => (Raise e, s).

Definition bind {St A B} (m : M St A) (k : A -> M St B) : M St B :=
  fun s =>
    match m s with
    | (Ok a, s') => k a s'
    | (Raise e, s') => (Raise e, s')
    | (OutOfFuel, s') => (OutOfFuel, s')
    end.

Definition get {St} : M St St := fun s => (Ok s, s).

Definition put {St} (s : St) : M St unit := fun _ => (Ok tt, s).

Definition modify {St} (f : St -> St) : M St unit := fun s => (Ok tt, f s).

Declare Scope py_scope.
Delimit Scope py_scope with py.

Notation "x <- m ;; k" := (bind m (fun x => k))
  (at level 100, m at next level, right associativity) : py_scope.
Notation "m ;; k" := (bind m (fun _ => k))
  (at level 100, k at level 200, right associativity) : py_scope.

#[global] Open Scope py_scope.

(** [try: body except <classes>: handler]: [handles] is the test the
    [except] clause makes on the exception's class. *)
Definition try_except {St A} (body : M St A) (handles : exn -> bool)
    (handler : exn -> M St A) : M St A :=
  fun s =>
    match body s with
    | (Raise e, s') => if handles e then handler e s' else (Raise e, s')
    | r => r
    end.

(** [try: body finally: cleanup].  The cleanup runs after the body whether it
    returned or raised; an exception of the cleanup replaces the body's
    outcome.  A body that does not terminate never reaches the cleanup. *)
Definition try_finally {St A} (body : M St A) (cleanup : M St unit) : M St A :=
  fun s =>
    match body s with
    | (OutOfFuel, s') => (OutOfFuel, s')
    | (r, s') =>
        match cleanup s' with
        | (Ok _, s'') => (r, s'')
        | (Raise e, s'') => (Raise e, s'')
        | (OutOfFuel, s'') => (OutOfFuel, s'')
        end
    end.

(** Run a computation on a component [T] of the state [St]. *)
Definition lift {St T A} (proj : St -> T) (upd : T -> St -> St) (m : M T A) : M St A :=
  fun s => let (r, t) := m (proj s) in (r, upd t s).

(** ** Loops *)

(** What one iteration of a loop body decides: go round again with new
    values of the loop's variables ([continue], or the end of the body), or
    leave the loop with a result ([break], [return], a false condition). *)
Inductive ctl (L R : Type) : Type :=
| Continue (l : L)
| Done (r : R).

Arguments Continue {L R} l.
Arguments Done {L R} r.

Fixpoint iter {St L R} (fuel : nat) (body : L -> M St (ctl L R)) (l : L) : M St R :=
  match fuel with
  | O => fun s => (OutOfFuel, s)
  | S n =>
      fun s =>
        match body l s with
        | (Ok (Continue l'), s') => iter n body l' s'
        | (Ok (Done r), s') => (Ok r, s')
        | (Raise e, s') => (Raise e, s')
        | (OutOfFuel, s') => (OutOfFuel, s')
        end
  end.

(** ** Properties of computations *)

(** Whatever [m] does and however it ends, the state it leaves is related
    by [R] to the state it started from. *)
Definition preserves {St A} (R : St -> St -> Prop) (m : M St A) : Prop :=
  forall s, R s (m s).2.

(** From every state [m] returns or raises. *)
Definition total {St A} (m : M St A) : Prop := forall s, terminated (m s).1.

(** ** Tactics and hints *)

Create HintDb py discriminated.
Create Rewrite HintDb pyrw.

(** Unfold the monad's combinators in the goal and in the hypotheses. *)
Ltac munfold :=
  unfold bind, ret, raise, get, put, modify, lift, try_except, try_finally in *.

(** Case analysis on the outcome of the first computation a goal or a
    hypothesis scrutinises. *)
Ltac mcase :=
  match goal with
  | |- context [match ?m ?s with pair _ _ => _ end] =>
      let r := fresh "r" in let s' := fresh "s" in let E := fresh "E" in
      destruct (m s) as [r s'] eqn:E; try destruct r as [?|?|]
  | H : context [match ?m ?s with pair _ _ => _ end] |- _ =>
      let r := fresh "r" in let s' := fresh "s" in let E := fresh "E" in
      destruct (m s) as [r s'] eqn:E; try destruct r as [?|?|]
  end.

Ltac msimpl := munfold; simpl in *; repeat (mcase; simpl in *); simplify_eq; try done.

(** ** Monad laws, pointwise *)

Section Laws.
Context {St A B C : Type}.

Lemma bind_ret_l (a : A) (k : A -> M St B) s : bind (ret a) k s = k a s.
Proof. reflexivity. Qed.

Lemma bind_ret_r (m : M St A) s : bind m ret s = m s.
Proof. unfold bind, ret. by destruct (m s) as [[?|?|] ?]. Qed.

Lemma bind_assoc (m : M St A) (k : A -> M St B) (h : B -> M St C) s :
  bind (bind m k) h s = bind m (fun a => bind (k a) h) s.
Proof. unfold bind. by destruct (m s) as [[?|?|] ?]. Qed.

Lemma bind_raise (e : exn) (k : A -> M St B) s : bind (raise e) k s = (Raise e, s).
Proof. reflexivity. Qed.

Lemma bind_Ok (m : M St A) (k : A -> M St B) s a s' :
  m s = (Ok a, s') -> bind m k s = k a s'.
Proof. unfold bind. by intros ->. Qed.

Lemma bind_Raise (m : M St A) (k : A -> M St B) s e s' :
  m s = (Raise e, s') -> bind m k s = (Raise e, s').
Proof. unfold bind. by intros ->. Qed.

Lemma bind_OutOfFuel (m : M St A) (k : A -> M St B) s s' :
  m s = (OutOfFuel, s') -> bind m k s = (OutOfFuel, s').
Proof. unfold bind. by intros ->. Qed.

(** [bind] after its first computation has run. *)
Lemma bind_run (m : M St A) (k : A -> M St B) s r s' :
  m s = (r, s') ->
  bind m k s =
    match r with
    | Ok a => k a s'
    | Raise e => (Raise e, s')
    | OutOfFuel => (OutOfFuel, s')
    end.
Proof. unfold bind. by intros ->. Qed.

(** What a terminated [bind] went through. *)
Lemma bind_inv (m : M St A) (k : A -> M St B) s r s' :
  bind m k s = (r, s') ->
  (exists a s1, m s = (Ok a, s1) /\ k a s1 = (r, s')) \/
  (exists e, m s = (Raise e, s') /\ r = Raise e) \/
  (m s = (OutOfFuel, s') /\ r = OutOfFuel).
Proof. unfold bind. destruct (m s) as [[a|e|] s1]; naive_solver. Qed.

End Laws.

#[export] Hint Rewrite @bind_ret_l @bind_raise : pyrw.

(** Run the first computation of the outermost [bind] of the goal and split
    on its outcome. *)
Ltac mstep :=
  match goal with
  | |- context [bind ?m ?k ?s] =>
      let r := fresh "r" in
      let s' := fresh "s" in
      let E := fresh "E" in
      destruct (m s) as [r s'] eqn:E;
      rewrite (bind_run m k s r s' E);
      destruct r as [?|?|]; simpl
  end.

(** ** try/finally and try/except *)

Section Handlers.
Context {St A : Type}.
Implicit Types (body : M St A) (cleanup : M St unit).

(** The cleanup ran, from the state the body left, whenever the whole
    statement terminated. *)
Lemma try_finally_inv body cleanup s r s' :
  try_finally body cleanup s = (r, s') -> terminated r ->
  exists rb sb rc,
    body s = (rb, sb) /\ terminated rb /\ cleanup sb = (rc, s') /\ terminated rc /\
    r = match rc with Raise e => Raise e | _ => rb end.
Proof.
  unfold try_finally. intros H Hr.
  destruct (body s) as [[a|e|] sb] eqn:Hb; [| |naive_solver];
    destruct (cleanup sb) as [[[]|e'|] sc] eqn:Hc; simplify_eq; try done;
    eexists _, _, _; repeat split; eauto.
Qed.

Lemma try_finally_Ok body cleanup s a sb sc :
  body s = (Ok a, sb) -> cleanup sb = (Ok tt, sc) ->
  try_finally body cleanup s = (Ok a, sc).
Proof. unfold try_finally. by intros -> ->. Qed.

Lemma try_finally_Raise body cleanup s e sb sc :
  body s = (Raise e, sb) -> cleanup sb = (Ok tt, sc) ->
  try_finally body cleanup s = (Raise e, sc).
Proof. unfold try_finally. by intros -> ->. Qed.

(** An exception of the cleanup is the outcome, whatever the body did. *)
Lemma try_finally_cleanup_raises body cleanup s rb sb e sc :
  body s = (rb, sb) -> terminated rb -> cleanup sb = (Raise e, sc) ->
  try_finally body cleanup s = (Raise e, sc).
Proof. unfold try_finally. intros -> Hrb ->. by destruct rb. Qed.

(** The statement terminates when the body and the cleanup do. *)
Lemma try_finally_terminated body cleanup s :
  terminated (body s).1 -> (forall s', terminated (cleanup s').1) ->
  terminated (try_finally body cleanup s).1.
Proof.
  unfold try_finally. intros Hb Hc. destruct (body s) as [[a|e|] sb]; [| |done];
    specialize (Hc sb); by destruct (cleanup sb) as [[[]|e'|] sc].
Qed.

(** Two bodies with the same run from [s] give the same statement; it is
    enough that they agree when the first terminates. *)
Lemma try_finally_fuel body body' cleanup s :
  (terminated (body s).1 -> body' s = body s) ->
  terminated (try_finally body cleanup s).1 ->
  try_finally body' cleanup s = try_finally body cleanup s.
Proof.
  unfold try_finally. intros Hb Ht.
  destruct (body s) as [[a|e|] sb] eqn:E; [| |done]; by rewrite Hb.
Qed.

Lemma try_except_run body handles handler s r s' :
  body s = (r, s') ->
  try_except body handles handler s =
    match r with
    | Raise e => if handles e then handler e s' else (Raise e, s')
    | _ => (r, s')
    end.
Proof. unfold try_except. intros ->. by destruct r. Qed.

Lemma try_except_Ok body handles handler s a s' :
  body s = (Ok a, s') -> try_except body handles handler s = (Ok a, s').
Proof. unfold try_except. by intros ->. Qed.

Lemma try_except_caught body handles handler s e s' :
  body s = (Raise e, s') -> handles e = true ->
  try_except body handles handler s = handler e s'.
Proof. unfold try_except. by intros -> ->. Qed.

Lemma try_except_passed body handles handler s e s' :
  body s = (Raise e, s') -> handles e = false ->
  try_except body handles handler s = (Raise e, s').
Proof. unfold try_except. by intros -> ->. Qed.

(** An exception that leaves [try: body except handled: pass] is not one of
    the handled ones. *)
Lemma try_except_pass_escapes body handles (a : A) s e :
  (try_except body handles (fun _ => ret a) s).1 = Raise e -> handles e = false.
Proof.
  unfold try_except. destruct (body s) as [[?|e'|] s']; try done.
  destruct (handles e') eqn:He; [done|]. by intros [= <-].
Qed.

End Handlers.

(** ** Frame: a lifted computation only touches its component *)

Section Lift.
Context {St T A : Type} (proj : St -> T) (upd : T -> St -> St).

Lemma lift_run (m : M T A) s :
  lift proj upd m s = ((m (proj s)).1, upd (m (proj s)).2 s).
Proof. unfold lift. by destruct (m (proj s)). Qed.

(** A property of the state that no update of the component changes is
    preserved by every lifted computation. *)
Lemma lift_frame {V} (obs : St -> V) (m : M T A) s :
  (forall t s0, obs (upd t s0) = obs s0) ->
  obs (lift proj upd m s).2 = obs s.
Proof. intros Hf. rewrite lift_run. apply Hf. Qed.

End Lift.

(** ** Loops: fuel, invariants, variants *)

Section Iter.
Context {St L R : Type} (body : L -> M St (ctl L R)).

Lemma iter_S n l s :
  iter (S n) body l s =
    match body l s with
    | (Ok (Continue l'), s') => iter n body l' s'
    | (Ok (Done r), s') => (Ok r, s')
    | (Raise e, s') => (Raise e, s')
    | (OutOfFuel, s') => (OutOfFuel, s')
    end.
Proof. reflexivity. Qed.

(** More fuel does not change a run that terminated. *)
Lemma iter_fuel_mono n m l s :
  (n <= m)%nat -> terminated (iter n body l s).1 ->
  iter m body l s = iter n body l s.
Proof.
  revert m l s. induction n as [|n IH]; intros m l s Hle Ht; [done|].
  destruct m as [|m]; [lia|]. rewrite !iter_S in *.
  destruct (body l s) as [[[l'|r]|e|] s']; try done.
  apply IH; [lia|done].
Qed.

(** The invariant rule.  [I] holds of the loop variables and the state
    before every iteration; [Q] is what a terminated run establishes. *)
Lemma iter_inv (I : L -> St -> Prop) (Q : outcome R -> St -> Prop) :
  (forall l s, I l s ->
     match body l s with
     | (Ok (Continue l'), s') => I l' s'
     | (Ok (Done r), s') => Q (Ok r) s'
     | (Raise e, s') => Q (Raise e) s'
     | (OutOfFuel, s') => True
     end) ->
  forall n l s, I l s -> terminated (iter n body l s).1 ->
    Q (iter n body l s).1 (iter n body l s).2.
Proof.
  intros Hbody n. induction n as [|n IH]; intros l s HI Ht; [done|].
  rewrite iter_S in *. specialize (Hbody l s HI).
  destruct (body l s) as [[[l'|r]|e|] s']; try done. by apply IH.
Qed.

(** A property of the state at every exit of the loop, the exhaustion of
    the fuel included: it follows from the invariant and holds after an
    iteration that leaves the loop. *)
Lemma iter_always (I : L -> St -> Prop) (J : St -> Prop) :
  (forall l s, I l s -> J s) ->
  (forall l s, I l s ->
     match body l s with
     | (Ok (Continue l'), s') => I l' s'
     | (_, s') => J s'
     end) ->
  forall n l s, I l s -> J (iter n body l s).2.
Proof.
  intros HJ Hbody n. induction n as [|n IH]; intros l s HI; [by eapply HJ|].
  rewrite iter_S. specialize (Hbody l s HI).
  destruct (body l s) as [[[l'|r]|e|] s']; try done. by apply IH.
Qed.

(** The variant rule.  When the body itself terminates and every
    [Continue] decreases the measure [mu], [mu] iterations and one are
    enough. *)
Lemma iter_terminates (I : L -> St -> Prop) (mu : L -> St -> nat) :
  (forall l s, I l s ->
     match body l s with
     | (Ok (Continue l'), s') => I l' s' /\ (mu l' s' < mu l s)%nat
     | (OutOfFuel, _) => False
     | _ => True
     end) ->
  forall n l s, I l s -> (mu l s < n)%nat -> terminated (iter n body l s).1.
Proof.
  intros Hbody n. induction n as [|n IH]; intros l s HI Hlt; [lia|].
  rewrite iter_S. specialize (Hbody l s HI).
  destruct (body l s) as [[[l'|r]|e|] s']; try done.
  destruct Hbody as [HI' Hmu]. apply IH; [done|lia].
Qed.

End Iter.

(** ** Relations every step of a computation respects

    [preserves R m]: whatever [m] does and however it ends, the state it
    leaves is related by [R] to the state it started from.  For a preorder
    [R] the property is closed under every combinator of the monad, so it
    is proved of a whole command from its primitive calls. *)

Section Preserves.
Context {St : Type} (R : St -> St -> Prop) `{!PreOrder R}.

Lemma preserves_ret {A} (a : A) : preserves R (ret a).
Proof. intros s. reflexivity. Qed.

Lemma preserves_raise {A} (e : exn) : preserves R (raise (A := A) e).
Proof. intros s. reflexivity. Qed.

Lemma preserves_get : preserves R get.
Proof. intros s. reflexivity. Qed.

Lemma preserves_bind {A B} (m : M St A) (k : A -> M St B) :
  preserves R m -> (forall a, preserves R (k a)) -> preserves R (bind m k).
Proof.
  intros Hm Hk s. specialize (Hm s). unfold bind.
  destruct (m s) as [[a|e|] s']; simpl in *; try done.
  etrans; [done|]. apply Hk.
Qed.

Lemma preserves_try_except {A} (body : M St A) handles handler :
  preserves R body -> (forall e, preserves R (handler e)) ->
  preserves R (try_except body handles handler).
Proof.
  intros Hb Hh s. specialize (Hb s). unfold try_except.
  destruct (body s) as [[a|e|] s']; simpl in *; try done.
  destruct (handles e); [|done]. etrans; [done|]. apply Hh.
Qed.

Lemma preserves_try_finally {A} (body : M St A) cleanup :
  preserves R body -> preserves R cleanup -> preserves R (try_finally body cleanup).
Proof.
  intros Hb Hc s. specialize (Hb s). unfold try_finally.
  destruct (body s) as [[a|e|] s']; simpl in *; try done;
    specialize (Hc s'); destruct (cleanup s') as [[?|?|] s'']; simpl in *; by etrans.
Qed.

Lemma preserves_iter {L B} (body : L -> M St (ctl L B)) fuel l :
  (forall l, preserves R (body l)) -> preserves R (iter fuel body l).
Proof.
  intros Hb. revert l. induction fuel as [|n IH]; intros l s; [reflexivity|].
  rewrite iter_S. specialize (Hb l s).
  destruct (body l s) as [[[l'|r]|e|] s']; simpl in *; try done.
  etrans; [done|]. apply IH.
Qed.

Lemma preserves_if {A} (b : bool) (m1 m2 : M St A) :
  preserves R m1 -> preserves R m2 -> preserves R (if b then m1 else m2).
Proof. by destruct b. Qed.

End Preserves.

(** A lifted computation respects a relation on the whole state as soon as
    the computation respects it on the component. *)
Lemma preserves_lift {St T A} (proj : St -> T) (upd : T -> St -> St)
    (R : St -> St -> Prop) (RT : T -> T -> Prop) (m : M T A) :
  (forall s t, RT (proj s) t -> R s (upd t s)) ->
  preserves RT m -> preserves R (lift proj upd m).
Proof. intros Hupd Hm s. rewrite lift_run. simpl. apply Hupd, Hm. Qed.

(** Reduce [preserves R m] to the same statement about the primitive calls
    of [m], following the structure of [m]; the hints of the database [py]
    are tried on what remains. *)
Ltac preserve :=
  lazymatch goal with
  | |- preserves _ (bind _ _) =>
      apply preserves_bind; [apply _|preserve|intros ?; preserve]
  | |- preserves _ (ret _) => apply preserves_ret; apply _
  | |- preserves _ (raise _) => apply preserves_raise; apply _
  | |- preserves _ get => apply preserves_get; apply _
  | |- preserves _ (try_finally _ _) =>
      apply preserves_try_finally; [apply _|preserve|preserve]
  | |- preserves _ (try_except _ _ _) =>
      apply preserves_try_except; [apply _|preserve|intros ?; preserve]
  | |- preserves _ (iter _ _ _) => apply preserves_iter; [apply _|intros ?; preserve]
  | |- preserves _ (match ?x with _ => _ end) => destruct x eqn:?; preserve
  | |- _ => try solve [eauto with py]
  end.

(** ** Computations that always return or raise

    [total m]: from every state [m] returns or raises; it does not run out
    of fuel.  It is closed under the combinators of the monad, loops
    excepted, whose termination is proved by [iter_terminates]. *)

Section Total.
Context {St : Type}.

Lemma total_ret {A} (a : A) : total (ret (St := St) a).
Proof. by intros s. Qed.

Lemma total_raise {A} (e : exn) : total (raise (St := St) (A := A) e).
Proof. by intros s. Qed.

Lemma total_get : total (get (St := St)).
Proof. by intros s. Qed.

Lemma total_bind {A B} (m : M St A) (k : A -> M St B) :
  total m -> (forall a, total (k a)) -> total (bind m k).
Proof.
  intros Hm Hk s. specialize (Hm s). unfold bind.
  destruct (m s) as [[a|e|] s']; simpl in *; try done. apply Hk.
Qed.

Lemma total_try_except {A} (body : M St A) handles handler :
  total body -> (forall e, total (handler e)) -> total (try_except body handles handler).
Proof.
  intros Hb Hh s. specialize (Hb s). unfold try_except.
  destruct (body s) as [[a|e|] s']; simpl in *; try done.
  destruct (handles e); [apply Hh|done].
Qed.

Lemma total_try_finally {A} (body : M St A) cleanup :
  total body -> total cleanup -> total (try_finally body cleanup).
Proof. intros Hb Hc s. by apply try_finally_terminated. Qed.

Lemma total_lift {T A} (proj : St -> T) (upd : T -> St -> St) (m : M T A) :
  total m -> total (lift proj upd m).
Proof. intros Hm s. rewrite lift_run. apply Hm. Qed.

(** The same from one state, for a first computation that is not total. *)
Lemma bind_terminated {A B} (m : M St A) (k : A -> M St B) s :
  terminated (m s).1 -> (forall a, total (k a)) -> terminated (bind m k s).1.
Proof.
  intros Hm Hk. unfold bind. destruct (m s) as [[a|e|] s']; simpl in *; try done. apply Hk.
Qed.

Lemma try_except_terminated {A} (body : M St A) handles handler s :
  terminated (body s).1 -> (forall e, total (handler e)) ->
  terminated (try_except body handles handler s).1.
Proof.
  intros Hb Hh. unfold try_except. destruct (body s) as [[a|e|] s']; simpl in *; try done.
  destruct (handles e); [apply Hh|done].
Qed.

End Total.

(** Reduce [total m] to the totality of the primitive calls of [m]. *)
Ltac totality :=
  lazymatch goal with
  | |- total (bind _ _) => apply total_bind; [totality|intros ?; totality]
  | |- total (ret _) => apply total_ret
  | |- total (raise _) => apply total_raise
  | |- total get => apply total_get
  | |- total (try_finally _ _) => apply total_try_finally; [totality|totality]
  | |- total (try_except _ _ _) => apply total_try_except; [totality|intros ?; totality]
  | |- total (lift _ _ _) => apply total_lift; totality
  | |- total (match ?x with _ => _ end) => destruct x eqn:?; totality
  | |- _ => try solve [eauto with py]
  end.
