(* ===== verification/PyInt.v ===== *)
(** * PyInt: the text protocol of the attributes

    An attribute is a text file.  [SimtempDevice.read_int] parses it with
    [int(text.strip())], and every value is written as [f"{value}\n"] after
    [str(value)].  This file models the three built-ins on ASCII text:

    - [strip]: [str.strip()], which removes the white space of Python
      ([is_space]) at both ends;
    - [py_int]: [int(text)] in base ten: white space at both ends, an
      optional sign, digits, a single underscore allowed between two digits;
      [None] stands for [ValueError];
    - [py_str]: [str(n)], the decimal numeral of an integer.

    Digits other than ASCII digits and white space other than ASCII white
    space are not modelled.  The numerals are those of the Standard
    Library's [Decimal]; the round trip [py_int (py_str z) = Some z] and the
    fact that a written integer survives [strip] carry the theorems about
    snapshots and restoration in [Device] and [SelfTest]. *)

From stdpp Require Import base strings list.
From Stdlib Require Import ZArith Lia Ascii String Decimal DecimalString DecimalZ.
From S2P Require Import Prelude.

#[local] Open Scope string_scope.

(** ** Definitions *)

(** [c.isspace()] for an ASCII character: tab, line feed, vertical tab,
    form feed, carriage return, the four separators 28-31, and space. *)
Definition is_space (c : ascii) : bool :=
  let n := N_of_ascii c in
  ((9 <=? n) && (n <=? 13) || (28 <=? n) && (n <=? 31) || (n =? 32))%N.

Fixpoint lstrip (s : string) : string :=
  match s with
  | String c rest => if is_space c then lstrip rest else s
  | EmptyString => EmptyString
  end.

Fixpoint rstrip (s : string) : string :=
  match s with
  | String c rest =>
      match rstrip rest with
      | EmptyString => if is_space c then EmptyString else String c EmptyString
      | r => String c r
      end
  | EmptyString => EmptyString
  end.

Definition strip (s : string) : string := rstrip (lstrip s).

(** A decimal digit, as the constructor of [Decimal.uint] that prepends it. *)
Definition digit (c : ascii) : option (uint -> uint) :=
  match c with
  | "0" => Some D0
  | "1" => Some D1
  | "2" => Some D2
  | "3" => Some D3
  | "4" => Some D4
  | "5" => Some D5
  | "6" => Some D6
  | "7" => Some D7
  | "8" => Some D8
  | "9" => Some D9
  | _ => None
  end%char.

(** The digits of an integer literal: at least one digit, and an underscore
    only between two digits. *)
Fixpoint parse_digits (s : string) : option uint :=
  match s with
  | String c rest =>
      match digit c with
      | Some d =>
          match rest with
          | EmptyString => Some (d Nil)
          | String "_"%char rest' => d <$> parse_digits rest'
          | _ => d <$> parse_digits rest
          end
      | None => None
      end
  | EmptyString => None
  end.

Definition py_int (text : string) : option Z :=
  match strip text with
  | String "-"%char ds => (fun u => Z.of_int (Neg u)) <$> parse_digits ds
  | String "+"%char ds => (fun u => Z.of_int (Pos u)) <$> parse_digits ds
  | ds => (fun u => Z.of_int (Pos u)) <$> parse_digits ds
  end.

Definition py_str (z : Z) : string := NilZero.string_of_int (Z.to_int z).

(** Every character of [s] passes the test [p]. *)
Fixpoint string_forall (p : ascii -> bool) (s : string) : bool :=
  match s with
  | String c rest => p c && string_forall p rest
  | EmptyString => true
  end.

(** The line feed that [write] appends to every value. *)
Definition newline : string := String "010"%char EmptyString.

Definition no_space (s : string) : bool := string_forall (fun c => negb (is_space c)) s.

Definition all_space (s : string) : bool := string_forall is_space s.

#[export] Instance uint_eq_dec : EqDecision uint.
Proof. solve_decision. Defined.

(** ** Examples: the accepted and the refused literals *)

Example py_int_examples :
  py_int "45000" = Some 45000%Z /\ py_int (" -12 " +:+ newline) = Some (-12)%Z /\
  py_int "+7" = Some 7%Z /\ py_int "1_000" = Some 1000%Z /\
  py_int "007" = Some 7%Z /\ py_int "-0" = Some 0%Z.
Proof. vm_compute. by repeat split. Qed.

Example py_int_refused :
  py_int "" = None /\ py_int "4 2" = None /\ py_int "1__0" = None /\
  py_int "_1" = None /\ py_int "1_" = None /\ py_int "- 5" = None /\
  py_int "12a" = None /\ py_int "-" = None.
Proof. vm_compute. by repeat split. Qed.

Example py_str_examples :
  py_str 0 = "0" /\ py_str 20000 = "20000" /\ py_str (-45000) = "-45000".
Proof. vm_compute. by repeat split. Qed.

(** ** White space *)

Lemma lstrip_no_space s : no_space s = true -> lstrip s = s.
Proof. unfold no_space. destruct s as [|c s]; [done|]. simpl. by destruct (is_space c). Qed.

Lemma rstrip_no_space s : no_space s = true -> rstrip s = s.
Proof.
  unfold no_space. induction s as [|c s IH]; [done|]. simpl. intros [Hc Hs]%andb_prop.
  rewrite (IH Hs). destruct s; [|done]. by destruct (is_space c).
Qed.

Lemma rstrip_all_space s : all_space s = true -> rstrip s = "".
Proof.
  unfold all_space. induction s as [|c s IH]; [done|]. simpl. intros [Hc Hs]%andb_prop.
  by rewrite (IH Hs), Hc.
Qed.

Lemma rstrip_app s t : all_space t = true -> rstrip (s +:+ t) = rstrip s.
Proof.
  intros Ht. induction s as [|c s IH]; simpl; [by apply rstrip_all_space|].
  by rewrite IH.
Qed.

Lemma strip_no_space s : no_space s = true -> strip s = s.
Proof. intros H. unfold strip. by rewrite lstrip_no_space, rstrip_no_space. Qed.

(** What [write] appends, [strip] removes. *)
Lemma strip_app_space s t :
  no_space s = true -> s <> "" -> all_space t = true -> strip (s +:+ t) = s.
Proof.
  intros Hs Hne Ht. unfold strip.
  destruct s as [|c s]; [done|]. unfold no_space in *. simpl in Hs.
  apply andb_prop in Hs as [Hc Hs].
  assert (is_space c = false) as Hc' by by destruct (is_space c).
  change (lstrip (String c s +:+ t)) with
    (if is_space c then lstrip (s +:+ t) else String c s +:+ t).
  rewrite Hc', rstrip_app by done. apply rstrip_no_space.
  unfold no_space. simpl. by rewrite Hc.
Qed.

Lemma lstrip_idemp s : lstrip (lstrip s) = lstrip s.
Proof.
  induction s as [|c s IH]; [done|]. simpl.
  destruct (is_space c) eqn:Hc; [done|]. simpl. by rewrite Hc.
Qed.

Lemma rstrip_cons c s :
  rstrip (String c s) =
    match rstrip s with
    | "" => if is_space c then "" else String c ""
    | r => String c r
    end.
Proof. reflexivity. Qed.

Lemma rstrip_idemp s : rstrip (rstrip s) = rstrip s.
Proof.
  induction s as [|c s IH]; [done|]. rewrite rstrip_cons.
  destruct (rstrip s) as [|c' r] eqn:Hr.
  - destruct (is_space c) eqn:Hc; [done|]. simpl. by rewrite Hc.
  - by rewrite rstrip_cons, IH.
Qed.

Lemma lstrip_rstrip s : lstrip (rstrip s) = rstrip (lstrip s).
Proof.
  induction s as [|c s IH]; [done|]. rewrite rstrip_cons. simpl.
  destruct (is_space c) eqn:Hc.
  - rewrite <- IH. destruct (rstrip s) eqn:Hr; simpl; [done|]. by rewrite Hc.
  - rewrite rstrip_cons. destruct (rstrip s) eqn:Hr; simpl; by rewrite Hc.
Qed.

Lemma strip_idemp s : strip (strip s) = strip s.
Proof. unfold strip. by rewrite lstrip_rstrip, lstrip_idemp, rstrip_idemp. Qed.

Lemma lstrip_all_space s : all_space s = true -> lstrip s = "".
Proof.
  unfold all_space. induction s as [|c s IH]; [done|]. simpl.
  intros [Hc Hs]%andb_prop. rewrite Hc. by apply IH.
Qed.

Lemma lstrip_head s c r : lstrip s = String c r -> is_space c = false.
Proof.
  induction s as [|c' s IH]; [done|]. simpl.
  destruct (is_space c') eqn:Hc; [done|]. by intros [= <- _].
Qed.

Lemma rstrip_head s c r : rstrip s = String c r -> exists r', s = String c r'.
Proof.
  destruct s as [|c' s]; [done|]. rewrite rstrip_cons.
  destruct (rstrip s); [destruct (is_space c')|]; intros [= <- _]; eauto.
Qed.

(** A stripped text is empty or starts with a character that is no white
    space. *)
Lemma strip_head s c r : strip s = String c r -> is_space c = false.
Proof. unfold strip. intros [r' H]%rstrip_head. by eapply lstrip_head. Qed.

(** Writing a stripped text and reading it back: [strip] removes the line
    feed and nothing else. *)
Lemma strip_strip_app s t : all_space t = true -> strip (strip s +:+ t) = strip s.
Proof.
  intros Ht. destruct (strip s) as [|c r] eqn:E.
  - unfold strip. simpl. by rewrite lstrip_all_space.
  - pose proof (strip_head _ _ _ E) as Hc. rewrite <- E.
    unfold strip at 1. rewrite E. simpl. rewrite Hc.
    change (String c (r +:+ t)) with (String c r +:+ t).
    rewrite rstrip_app by done. rewrite <- E. unfold strip. apply rstrip_idemp.
Qed.

(** ** Numerals *)

Lemma digit_string_of_uint_head d :
  d <> Nil -> exists c f rest,
    NilEmpty.string_of_uint d = String c rest /\ digit c = Some f /\
    c <> "_"%char /\ c <> "-"%char /\ c <> "+"%char /\ is_space c = false.
Proof. destruct d; [done|..]; intros _; do 3 eexists; by repeat split. Qed.

(** The three tests [py_int] and [parse_digits] make on a character that is
    neither an underscore nor a sign. *)
Lemma match_underscore {A} (c : ascii) (x y : A) :
  c <> "_"%char -> match c with "_"%char => x | _ => y end = y.
Proof. intros Hc. by destruct c as [[] [] [] [] [] [] [] []]. Qed.

Lemma py_int_unsigned s c rest :
  strip s = String c rest -> c <> "-"%char -> c <> "+"%char ->
  py_int s = (fun u => Z.of_int (Pos u)) <$> parse_digits (String c rest).
Proof.
  unfold py_int. intros -> Hm Hp. by destruct c as [[] [] [] [] [] [] [] []].
Qed.

Lemma parse_digits_cons c f d :
  digit c = Some f -> d <> Nil ->
  parse_digits (String c (NilEmpty.string_of_uint d)) =
    f <$> parse_digits (NilEmpty.string_of_uint d).
Proof.
  intros Hc Hd. simpl. rewrite Hc.
  destruct (digit_string_of_uint_head d Hd) as (c' & f' & rest & E & _ & Hu & _).
  rewrite E. by apply match_underscore.
Qed.

Lemma parse_digits_string_of_uint d :
  d <> Nil -> parse_digits (NilEmpty.string_of_uint d) = Some d.
Proof.
  induction d as [|d IH|d IH|d IH|d IH|d IH|d IH|d IH|d IH|d IH|d IH];
    [done|..]; intros _;
    (destruct (decide (d = Nil)) as [->|Hd]; [done|]);
    cbn [NilEmpty.string_of_uint];
    (erewrite parse_digits_cons by done); by rewrite (IH Hd).
Qed.

Lemma no_space_string_of_uint d : no_space (NilEmpty.string_of_uint d) = true.
Proof. unfold no_space. induction d; simpl; try done. Qed.

(** The numeral of a positive number: [Pos.to_uint] never yields the empty
    numeral, so the two printers of the Standard Library agree on it. *)
Lemma string_of_pos p :
  NilZero.string_of_uint (Pos.to_uint p) = NilEmpty.string_of_uint (Pos.to_uint p) /\
  Pos.to_uint p <> Nil.
Proof.
  pose proof (DecimalPos.Unsigned.to_uint_nonnil p) as Hn.
  split; [|done]. by destruct (Pos.to_uint p).
Qed.

Lemma no_space_py_str z : no_space (py_str z) = true.
Proof.
  unfold py_str. destruct z as [|p|p]; simpl; [done|..];
    destruct (string_of_pos p) as [-> _]; apply no_space_string_of_uint.
Qed.

Lemma py_str_nonempty z : py_str z <> "".
Proof.
  unfold py_str. destruct z as [|p|p]; simpl; [done| |done].
  destruct (string_of_pos p) as [-> Hn]. by destruct (Pos.to_uint p).
Qed.

(** [int(str(n)) == n]. *)
Lemma py_int_py_str z : py_int (py_str z) = Some z.
Proof.
  pose proof (strip_no_space _ (no_space_py_str z)) as Hs.
  pose proof (of_to z) as Hz. unfold py_str in *.
  destruct z as [|p|p]; [done|..]; simpl in *;
    destruct (string_of_pos p) as [Hq Hn]; rewrite Hq in *;
    pose proof (parse_digits_string_of_uint _ Hn) as Hp.
  - destruct (digit_string_of_uint_head _ Hn) as (c & f & rest & E & _ & _ & Hm & Hpl & _).
    rewrite E in *. rewrite (py_int_unsigned _ c rest) by done.
    rewrite Hp. simpl. by rewrite Hz.
  - unfold py_int. rewrite Hs, Hp. simpl. by rewrite Hz.
Qed.

(** [int(f"{n}\n".strip()) == n]: an integer written to an attribute is
    read back. *)
Lemma py_int_written z : py_int (strip (py_str z +:+ newline)) = Some z.
Proof.
  rewrite strip_app_space; [apply py_int_py_str|apply no_space_py_str
                           |apply py_str_nonempty|done].
Qed.

Lemma py_str_inj z1 z2 : py_str z1 = py_str z2 -> z1 = z2.
Proof.
  intros H. apply (f_equal py_int) in H. rewrite !py_int_py_str in H. by simplify_eq.
Qed.

(** [int] strips by itself: stripping first changes nothing. *)
Lemma py_int_strip s : py_int (strip s) = py_int s.
Proof. unfold py_int. by rewrite strip_idemp. Qed.
