(* ===== verification/Sample.v ===== *)
(** * Sample: the binary record of the character device

    [SIMTEMP_SAMPLE_STRUCT = struct.Struct("<QiI")] describes one record of
    the data channel: an unsigned 64-bit time stamp, a signed 32-bit
    temperature and an unsigned 32-bit flag word, little-endian, without
    padding, 16 bytes in all.  [unpack] is what both polling loops apply to
    a full record, [pack] is what the test-suite builds records with, and
    [has_alert] is the test [flags & SIMTEMP_FLAG_ALERT] of the self-test.

    The bytes of an integer are coqutil's [le_split] and [le_combine];
    [struct.error] (a wrong length for [unpack], a field out of range for
    [pack]) is [None]. *)

From stdpp Require Import base list.
From Stdlib Require Import ZArith Lia.
From coqutil Require Import Byte Word.LittleEndianList.
From S2P Require Import Prelude.

#[local] Open Scope Z_scope.

(** ** Definitions *)

(** The tuple [(timestamp_ns, temp_mc, flags)] that [unpack] returns. *)
Record sample : Type := Sample {
  timestamp_ns : Z;
  temp_mc : Z;
  flags : Z
}.

#[export] Instance sample_eq_dec : EqDecision sample.
Proof. solve_decision. Defined.

Definition SIMTEMP_FLAG_ALERT : Z := Z.shiftl 1 1.

(** [SIMTEMP_SAMPLE_STRUCT.size]: the sizes of [Q], [i] and [I]. *)
Definition SAMPLE_SIZE : nat := 8 + 4 + 4.

(** The value of an [n]-byte two's complement integer given as the unsigned
    value of its bytes. *)
Definition to_signed (n : nat) (u : Z) : Z :=
  if u <? 2 ^ (8 * Z.of_nat n - 1) then u else u - 2 ^ (8 * Z.of_nat n).

(** The [n]-byte little-endian field at offset [off]. *)
Definition field (off n : nat) (data : list byte) : Z :=
  le_combine (take n (drop off data)).

Definition unpack (data : list byte) : option sample :=
  if decide (length data = SAMPLE_SIZE) then
    Some {| timestamp_ns := field 0 8 data;
            temp_mc := to_signed 4 (field 8 4 data);
            flags := field 12 4 data |}
  else None.

(** The ranges of the three formats. *)
Definition in_range (s : sample) : Prop :=
  0 <= timestamp_ns s < 2 ^ 64 /\
  - 2 ^ 31 <= temp_mc s < 2 ^ 31 /\
  0 <= flags s < 2 ^ 32.

#[export] Instance in_range_dec s : Decision (in_range s).
Proof. unfold in_range. apply _. Defined.

Definition pack (s : sample) : option (list byte) :=
  if decide (in_range s) then
    Some (le_split 8 (timestamp_ns s) ++ le_split 4 (temp_mc s) ++ le_split 4 (flags s))
  else None.

(** [flags & SIMTEMP_FLAG_ALERT], as the truth value Python gives it. *)
Definition has_alert (fl : Z) : bool := negb (Z.land fl SIMTEMP_FLAG_ALERT =? 0).

(** ** The record of the test-suite *)

Example pack_example :
  pack (Sample 1234567890 42000 SIMTEMP_FLAG_ALERT) =
    Some [Byte.xd2; Byte.x02; Byte.x96; Byte.x49; Byte.x00; Byte.x00; Byte.x00; Byte.x00;
          Byte.x10; Byte.xa4; Byte.x00; Byte.x00; Byte.x02; Byte.x00; Byte.x00; Byte.x00].
Proof. by vm_compute. Qed.

Example unpack_negative :
  unpack [Byte.x00; Byte.x00; Byte.x00; Byte.x00; Byte.x00; Byte.x00; Byte.x00; Byte.x00;
          Byte.xff; Byte.xff; Byte.xff; Byte.xff; Byte.x03; Byte.x00; Byte.x00; Byte.x00]
    = Some (Sample 0 (-1) 3).
Proof. by vm_compute. Qed.

(** ** Two's complement *)

Lemma to_signed_mod (n : nat) (z : Z) :
  (0 < n)%nat ->
  - 2 ^ (8 * Z.of_nat n - 1) <= z < 2 ^ (8 * Z.of_nat n - 1) ->
  to_signed n (z mod 2 ^ (8 * Z.of_nat n)) = z.
Proof.
  intros Hn Hz. unfold to_signed.
  assert (2 ^ (8 * Z.of_nat n) = 2 * 2 ^ (8 * Z.of_nat n - 1)) as Hp.
  { rewrite <- Z.pow_succ_r by lia. f_equal. lia. }
  assert (0 < 2 ^ (8 * Z.of_nat n - 1)) by (apply Z.pow_pos_nonneg; lia).
  destruct (Z_lt_le_dec z 0).
  - replace (z mod 2 ^ (8 * Z.of_nat n)) with (z + 2 ^ (8 * Z.of_nat n)).
    + case_match; lia.
    + apply Z.mod_unique with (-1); lia.
  - rewrite Z.mod_small by lia. case_match; lia.
Qed.

Lemma to_signed_range (n : nat) (u : Z) :
  (0 < n)%nat -> 0 <= u < 2 ^ (8 * Z.of_nat n) ->
  - 2 ^ (8 * Z.of_nat n - 1) <= to_signed n u < 2 ^ (8 * Z.of_nat n - 1).
Proof.
  intros Hn Hu. unfold to_signed.
  assert (2 ^ (8 * Z.of_nat n) = 2 * 2 ^ (8 * Z.of_nat n - 1)) as Hp.
  { rewrite <- Z.pow_succ_r by lia. f_equal. lia. }
  case_match; lia.
Qed.

(** The bytes of a two's complement value. *)
Lemma to_signed_wrap (n : nat) (u : Z) :
  (0 < n)%nat -> 0 <= u < 2 ^ (8 * Z.of_nat n) ->
  to_signed n u mod 2 ^ (8 * Z.of_nat n) = u.
Proof.
  intros Hn Hu. unfold to_signed. case_match.
  - apply Z.mod_small. lia.
  - symmetry. apply Z.mod_unique with (-1); lia.
Qed.

(** ** Fields *)

Lemma field_range off n data : 0 <= field off n data < 2 ^ (8 * Z.of_nat n).
Proof.
  unfold field. pose proof (le_combine_bound (take n (drop off data))) as H.
  rewrite length_take in H.
  assert (2 ^ (8 * Z.of_nat (n `min` length (drop off data))) <= 2 ^ (8 * Z.of_nat n))
    by (apply Z.pow_le_mono_r; lia).
  lia.
Qed.

(** The field that [le_split] wrote between a prefix and a suffix. *)
Lemma field_app (pre post : list byte) (off n : nat) (z : Z) :
  off = length pre ->
  field off n (pre ++ le_split n z ++ post) = z mod 2 ^ (Z.of_nat n * 8).
Proof.
  intros ->. unfold field. rewrite drop_app_length.
  rewrite take_app_length' by (by rewrite length_le_split).
  apply le_combine_split.
Qed.

(** A record is the concatenation of its three fields. *)
Lemma split_fields (data : list byte) :
  length data = SAMPLE_SIZE ->
  data = le_split 8 (field 0 8 data) ++ le_split 4 (field 8 4 data)
           ++ le_split 4 (field 12 4 data).
Proof.
  intros Hlen. unfold field.
  rewrite <- (take_drop 8 data) at 1. rewrite <- (take_drop 4 (drop 8 data)) at 1.
  rewrite drop_drop. change (8 + 4)%nat with 12%nat.
  rewrite <- (take_ge (drop 12 data) 4) at 1
    by (rewrite length_drop; unfold SAMPLE_SIZE in Hlen; lia).
  unfold SAMPLE_SIZE in Hlen.
  f_equal; [|f_equal]; symmetry; apply split_le_combine';
    rewrite length_take, ?length_drop; lia.
Qed.

(** ** The alert bit *)

(** C32. The alert test [flags & SIMTEMP_FLAG_ALERT] is the test of bit 1 of
    the flags, whatever the other bits are. *)
Theorem has_alert_testbit fl : has_alert fl = Z.testbit fl 1.
Proof.
  unfold has_alert, SIMTEMP_FLAG_ALERT. change (Z.shiftl 1 1) with (2 ^ 1).
  destruct (Z.testbit fl 1) eqn:Hb.
  - apply negb_true_iff, Z.eqb_neq. intros H0.
    apply (f_equal (fun x => Z.testbit x 1)) in H0.
    rewrite Z.land_spec, Hb, Z.pow2_bits_true in H0 by lia. done.
  - apply negb_false_iff, Z.eqb_eq. apply Z.bits_inj'. intros k Hk.
    rewrite Z.land_spec, Z.bits_0, Z.pow2_bits_eqb by lia.
    destruct (Z.eqb_spec 1 k) as [<-|]; [by rewrite Hb|by rewrite andb_false_r].
Qed.

(** ** Correctness of the codec *)

Lemma pack_length s data : pack s = Some data -> length data = SAMPLE_SIZE.
Proof.
  unfold pack. destruct (decide (in_range s)); [|done]. intros <-%(inj Some).
  by rewrite !length_app, !length_le_split.
Qed.

(** The three fields of a packed record. *)
Lemma pack_fields s :
  let data := le_split 8 (timestamp_ns s) ++ le_split 4 (temp_mc s) ++ le_split 4 (flags s) in
  field 0 8 data = timestamp_ns s mod 2 ^ 64 /\
  field 8 4 data = temp_mc s mod 2 ^ 32 /\
  field 12 4 data = flags s mod 2 ^ 32.
Proof.
  cbv zeta. split; [|split].
  - by apply (field_app []).
  - apply field_app. by rewrite length_le_split.
  - rewrite (app_assoc _ _ (le_split 4 (flags s))).
    rewrite <- (app_nil_r (le_split 4 (flags s))).
    apply field_app. by rewrite length_app, !length_le_split.
Qed.

(** C8. Decoding a record built from a time stamp, a temperature and a flag
    word that fit their formats gives back exactly these three values, and
    the record has the size of the format. *)
Theorem unpack_pack s :
  in_range s ->
  exists data, pack s = Some data /\ length data = SAMPLE_SIZE /\ unpack data = Some s.
Proof.
  intros Hr. pose proof Hr as (Ht & Hc & Hf). unfold pack.
  rewrite decide_True by done. eexists. split; [done|].
  split; [by rewrite !length_app, !length_le_split|].
  unfold unpack. rewrite decide_True by (by rewrite !length_app, !length_le_split).
  destruct (pack_fields s) as (-> & -> & ->). destruct s as [t c f]; simpl in *.
  f_equal. f_equal.
  - by apply Z.mod_small.
  - by apply (to_signed_mod 4); [lia|].
  - by apply Z.mod_small.
Qed.

Lemma unpack_pack_witness :
  exists data, pack (Sample 1234567890 (-42000) 2) = Some data /\
    length data = SAMPLE_SIZE /\ unpack data = Some (Sample 1234567890 (-42000) 2).
Proof. apply unpack_pack. unfold in_range. simpl. lia. Defined.

(** Every 16-byte record decodes to values within the ranges of the
    format: the time stamp and the flags are unsigned, the temperature is a
    signed 32-bit integer. *)
Lemma unpack_in_range data s : unpack data = Some s -> in_range s.
Proof.
  unfold unpack. case_decide; [|done]. intros <-%(inj Some). unfold in_range. simpl.
  pose proof (field_range 0 8 data). pose proof (field_range 12 4 data).
  pose proof (to_signed_range 4 _ ltac:(lia) (field_range 8 4 data)).
  simpl in *. lia.
Qed.

(** Packing what a record decodes to gives the record back: [unpack]
    loses no byte of a 16-byte record. *)
Lemma pack_unpack data s : unpack data = Some s -> pack s = Some data.
Proof.
  intros Hu. pose proof (unpack_in_range _ _ Hu) as Hr.
  unfold pack. rewrite decide_True by done. f_equal.
  unfold unpack in Hu. case_decide as Hlen; [|done]. apply (inj Some) in Hu as <-.
  cbn [timestamp_ns temp_mc flags].
  rewrite (le_split_mod (to_signed 4 _)).
  rewrite (Z.mul_comm (Z.of_nat 4) 8), to_signed_wrap by (lia || apply field_range).
  symmetry. by apply split_fields.
Qed.

(** [unpack] fails exactly on the byte strings that are not one whole
    record: shorter (a partial read) or longer than 16 bytes. *)
Lemma unpack_None_iff data : unpack data = None <-> length data <> SAMPLE_SIZE.
Proof. unfold unpack. case_decide; naive_solver. Qed.

(** Two records with the same fields are the same bytes. *)
Lemma unpack_inj d1 d2 s : unpack d1 = Some s -> unpack d2 = Some s -> d1 = d2.
Proof.
  intros H1%pack_unpack H2%pack_unpack. congruence.
Qed.

(** C16. [unpack] decodes exactly the byte strings of 16 bytes.  What it
    returns is within the ranges of the format (unsigned 64-bit time stamp,
    signed 32-bit temperature, unsigned 32-bit flags) and determines the
    record: packing it gives the same bytes.  Strings of any other length,
    a partial read among them, are refused. *)
Theorem unpack_spec data :
  match unpack data with
  | Some s => length data = SAMPLE_SIZE /\ in_range s /\ pack s = Some data
  | None => length data <> SAMPLE_SIZE
  end.
Proof.
  destruct (unpack data) as [s|] eqn:Hu; [|by apply unpack_None_iff].
  split; [|by eauto using unpack_in_range, pack_unpack].
  destruct (decide (length data = SAMPLE_SIZE)) as [|Hn]; [done|].
  apply unpack_None_iff in Hn. congruence.
Qed.
