(* ===== verification/Device.v ===== *)
(** * Device: the attribute store and the sampling period

    [SimtempDevice] (main.py, lines 43-81) gives access to the text
    attributes of one device instance; [write_sampling] (lines 89-99) sets
    the sampling period through the microsecond attribute and falls back to
    the millisecond attribute when the first is absent.

    - [Device] is the interface the two commands use: [device.write],
      [device.snapshot()] and [device.char_device].  The commands are
      written against it, so that the doubles of the test-suite are
      instances too.
    - [store], [store_write] and [store_snapshot] are the abstract
      specification: a key/value store of texts in which writing appends a
      line feed, an absent attribute is [FileNotFoundError], and the
      sampling period is read in microseconds from whichever of its two
      attributes exists.
    - [DeviceLaws] states that a device implements the store: [dev_abs] maps
      its state to a [store] and both operations commute with it.
    - [SimtempDevice] is the implementation over a directory of files, with
      [read_int], [read_str], [write] and [snapshot] as in the source; it
      satisfies [DeviceLaws].
    - The theorems about [write_sampling] are proved from [DeviceLaws]
      alone. *)

From stdpp Require Import base strings gmap.
From Stdlib Require Import ZArith Lia.
From S2P Require Import Prelude PyInt.

#[local] Open Scope Z_scope.
#[local] Open Scope string_scope.

(** ** Data *)

Record SimtempConfig : Type := Config {
  sampling_us : Z;
  threshold_mc : Z;
  mode : string
}.

#[export] Instance SimtempConfig_eq_dec : EqDecision SimtempConfig.
Proof. solve_decision. Defined.

(** ** The interface of a device *)

Class Device (D : Type) : Type := {
  dev_write : string -> string -> M D unit;
  dev_snapshot : M D SimtempConfig;
  dev_char_device : D -> string
}.

(** [except FileNotFoundError]. *)
Definition is_FileNotFoundError (e : exn) : bool := bool_decide (e = FileNotFoundError).

(** The value [write_sampling] writes to the millisecond attribute. *)
Definition fallback_ms (sampling_us : Z) : Z := Z.max 1 (sampling_us / 1000).

Definition write_sampling {D} `{Device D} (sampling_us sampling_ms : option Z) : M D unit :=
  next <- match sampling_us with
          | Some us =>
              try_except
                (dev_write "sampling_us" (py_str us) ;; ret (Done tt))
                is_FileNotFoundError
                (fun _ => ret (Continue (Some (fallback_ms us))))
          | None => ret (Continue sampling_ms)
          end ;;
  match next with
  | Done _ => ret tt
  | Continue (Some ms) => dev_write "sampling_ms" (py_str ms)
  | Continue None => ret tt
  end.

(** ** The abstract store *)

Record store : Type := Store {
  st_attrs : gmap string string;
  st_creates : bool
}.

(** Writing [name] succeeds: the attribute exists, or the directory lets a
    write create it. *)
Definition writable (st : store) (name : string) : bool :=
  bool_decide (is_Some (st_attrs st !! name)) || st_creates st.

Definition store_put (name text : string) (st : store) : store :=
  Store (<[name := text]> (st_attrs st)) (st_creates st).

Definition store_write (name value : string) (st : store) : outcome unit * store :=
  if writable st name then (Ok tt, store_put name (value +:+ newline) st)
  else (Raise FileNotFoundError, st).

Definition store_int (name : string) (st : store) : outcome Z :=
  match st_attrs st !! name with
  | Some text => match py_int text with Some z => Ok z | None => Raise ValueError end
  | None => Raise FileNotFoundError
  end.

Definition store_str (name : string) (st : store) : outcome string :=
  match st_attrs st !! name with
  | Some text => Ok (strip text)
  | None => Raise FileNotFoundError
  end.

(** The sampling period in microseconds: the microsecond attribute when it
    exists, the millisecond attribute times 1000 otherwise. *)
Definition store_sampling_us (st : store) : outcome Z :=
  match st_attrs st !! "sampling_us" with
  | Some _ => store_int "sampling_us" st
  | None =>
      match store_int "sampling_ms" st with
      | Ok ms => Ok (ms * 1000)
      | r => r
      end
  end.

Definition store_snapshot (st : store) : outcome SimtempConfig :=
  match store_sampling_us st with
  | Ok us =>
      match store_int "threshold_mC" st with
      | Ok th =>
          match store_str "mode" st with
          | Ok m => Ok (Config us th m)
          | Raise e => Raise e
          | OutOfFuel => OutOfFuel
          end
      | Raise e => Raise e
      | OutOfFuel => OutOfFuel
      end
  | Raise e => Raise e
  | OutOfFuel => OutOfFuel
  end.

(** What [write_sampling] does to a store, as a decision table. *)
Definition store_write_sampling (sampling_us sampling_ms : option Z) (st : store)
    : outcome unit * store :=
  match sampling_us, sampling_ms with
  | Some us, _ =>
      if writable st "sampling_us" then store_write "sampling_us" (py_str us) st
      else store_write "sampling_ms" (py_str (fallback_ms us)) st
  | None, Some ms => store_write "sampling_ms" (py_str ms) st
  | None, None => (Ok tt, st)
  end.

(** [agree keep st st']: [st'] has every attribute of [st], the same
    directory kind, and the same text in every attribute [keep] names.  It
    is the frame of a sequence of writes to the attributes outside [keep]. *)
Definition agree (keep : string -> Prop) (st st' : store) : Prop :=
  st_creates st' = st_creates st /\
  (forall n, is_Some (st_attrs st !! n) -> is_Some (st_attrs st' !! n)) /\
  (forall n, keep n -> st_attrs st' !! n = st_attrs st !! n).

(** A device implements the store. *)
Class DeviceLaws (D : Type) `{Device D} : Type := {
  dev_abs : D -> store;
  dev_write_abs : forall name value d,
    ((dev_write name value d).1, dev_abs (dev_write name value d).2) =
      store_write name value (dev_abs d);
  dev_write_char : forall name value d,
    dev_char_device (dev_write name value d).2 = dev_char_device d;
  dev_snapshot_abs : forall d, dev_snapshot d = (store_snapshot (dev_abs d), d)
}.

(** The frame of a sequence of calls on a device: its store agrees on
    [keep] and its data channel is the same. *)
Definition dev_agree {D} `{DeviceLaws D} (keep : string -> Prop) (d d' : D) : Prop :=
  agree keep (dev_abs d) (dev_abs d') /\ dev_char_device d' = dev_char_device d.

(** ** The implementation over a directory of files *)

Record SimtempDevice : Type := Dev {
  sysfs_dir : string;
  char_device : string;
  attrs : gmap string string;
  creates : bool
}.

(** [self._attr_path(name).read_text()]. *)
Definition read_text (name : string) : M SimtempDevice string :=
  fun d =>
    match attrs d !! name with
    | Some text => (Ok text, d)
    | None => (Raise FileNotFoundError, d)
    end.

(** [self._attr_path(name).write_text(data)]. *)
Definition write_text (name data : string) : M SimtempDevice unit :=
  fun d =>
    if bool_decide (is_Some (attrs d !! name)) || creates d then
      (Ok tt, Dev (sysfs_dir d) (char_device d) (<[name := data]> (attrs d)) (creates d))
    else (Raise FileNotFoundError, d).

(** [int(text)], which raises [ValueError] on a text that is no integer. *)
Definition int_of {St} (text : string) : M St Z :=
  match py_int text with
  | Some z => ret z
  | None => raise ValueError
  end.

Definition read_int (name : string) : M SimtempDevice Z :=
  text <- read_text name ;; int_of (strip text).

Definition read_str (name : string) : M SimtempDevice string :=
  text <- read_text name ;; ret (strip text).

Definition write (name value : string) : M SimtempDevice unit :=
  write_text name (value +:+ newline).

Definition snapshot : M SimtempDevice SimtempConfig :=
  us <- try_except (read_int "sampling_us") is_FileNotFoundError
          (fun _ => ms <- read_int "sampling_ms" ;; ret (ms * 1000)) ;;
  th <- read_int "threshold_mC" ;;
  m <- read_str "mode" ;;
  ret (Config us th m).

#[export] Instance SimtempDevice_Device : Device SimtempDevice := {
  dev_write := write;
  dev_snapshot := snapshot;
  dev_char_device := char_device
}.

Definition SimtempDevice_abs (d : SimtempDevice) : store := Store (attrs d) (creates d).

(** ** Three directories used as examples

    [dev_both] has both sampling attributes, as the test-suite's
    [_write_attrs] creates them; [dev_ms_only] is the older interface
    revision without [sampling_us]; [dev_bare] has no sampling attribute at
    all.  None of them lets a write create a file. *)
Definition dev_files (names : list (string * string)) : gmap string string :=
  list_to_map ((fun '(n, v) => (n, v +:+ newline)) <$> names).

Definition dev_both : SimtempDevice :=
  Dev "simtemp0" "/dev/nxp_simtemp"
    (dev_files [("sampling_ms", "100"); ("sampling_us", "100000");
                ("threshold_mC", "45000"); ("mode", "normal")]) false.

Definition dev_ms_only : SimtempDevice :=
  Dev "simtemp0" "/dev/nxp_simtemp"
    (dev_files [("sampling_ms", "100"); ("threshold_mC", "45000"); ("mode", "normal")]) false.

Definition dev_bare : SimtempDevice :=
  Dev "simtemp0" "/dev/nxp_simtemp"
    (dev_files [("threshold_mC", "45000"); ("mode", "normal")]) false.

(** ** The fallback value *)

Lemma fallback_ms_pos us : 1 <= fallback_ms us.
Proof. unfold fallback_ms. lia. Qed.

(** The millisecond value is the period rounded down, and never more than
    a millisecond below it. *)
Lemma fallback_ms_floor us :
  1000 <= us -> fallback_ms us * 1000 <= us < fallback_ms us * 1000 + 1000.
Proof.
  intros Hus. unfold fallback_ms.
  assert (1 <= us / 1000) by (apply Z.div_le_lower_bound; lia).
  rewrite Z.max_r by lia. pose proof (Z.mul_div_le us 1000 ltac:(lia)).
  pose proof (Z.mul_succ_div_gt us 1000 ltac:(lia)). lia.
Qed.

(** A period below one millisecond is written as one millisecond. *)
Lemma fallback_ms_small us : us < 2000 -> fallback_ms us = 1.
Proof.
  intros Hus. unfold fallback_ms.
  assert (us / 1000 <= 1); [|lia].
  apply Z.lt_succ_r, Z.div_lt_upper_bound; lia.
Qed.

(** A period read from the millisecond attribute is written back as it was. *)
Lemma fallback_ms_exact ms : 1 <= ms -> fallback_ms (ms * 1000) = ms.
Proof. intros Hms. unfold fallback_ms. rewrite Z.div_mul by done. lia. Qed.

(** ** The store *)

Section Store.
Implicit Types (st : store) (name : string).

Lemma writable_put st name n text : writable st n = true -> writable (store_put name text st) n = true.
Proof.
  unfold writable, store_put. simpl. intros [Hn| ->]%orb_prop; [|by rewrite orb_true_r].
  apply bool_decide_eq_true in Hn. apply orb_true_intro. left.
  apply bool_decide_eq_true. destruct (decide (name = n)) as [->|Hne].
  - by rewrite lookup_insert_eq.
  - by rewrite lookup_insert_ne.
Qed.

Lemma writable_present st name text : st_attrs st !! name = Some text -> writable st name = true.
Proof. unfold writable. intros ->. by rewrite bool_decide_eq_true_2. Qed.

Lemma store_write_Ok st name value :
  writable st name = true ->
  store_write name value st = (Ok tt, store_put name (value +:+ newline) st).
Proof. unfold store_write. by intros ->. Qed.

Lemma store_write_Ok_inv name value st st' :
  (Ok tt, st') = store_write name value st -> st' = store_put name (value +:+ newline) st.
Proof. unfold store_write. case_match; by intros [=]. Qed.

Lemma store_write_Raise st name value :
  writable st name = false -> store_write name value st = (Raise FileNotFoundError, st).
Proof. unfold store_write. by intros ->. Qed.

(** Writing never un-creates: what could be written can be written again. *)
Lemma store_write_writable st name value n :
  writable st n = true -> writable (store_write name value st).2 n = true.
Proof.
  intros Hn. unfold store_write. destruct (writable st name); [|done].
  by apply writable_put.
Qed.

Lemma store_write_creates st name value :
  st_creates (store_write name value st).2 = st_creates st.
Proof. unfold store_write. by destruct (writable st name). Qed.

(** A write changes the attribute it names and no other. *)
Lemma store_write_other st name value n :
  name <> n -> st_attrs (store_write name value st).2 !! n = st_attrs st !! n.
Proof.
  intros Hne. unfold store_write. destruct (writable st name); [|done].
  simpl. by rewrite lookup_insert_ne.
Qed.

Lemma store_int_put_eq st name z : store_int name (store_put name (py_str z +:+ newline) st) = Ok z.
Proof.
  unfold store_int, store_put. simpl. rewrite lookup_insert_eq.
  by rewrite <- py_int_strip, py_int_written.
Qed.

Lemma store_int_put_ne st name n text :
  name <> n -> store_int n (store_put name text st) = store_int n st.
Proof. intros Hne. unfold store_int, store_put. simpl. by rewrite lookup_insert_ne. Qed.

Lemma store_str_put_eq st name text :
  store_str name (store_put name (strip text +:+ newline) st) = Ok (strip text).
Proof.
  unfold store_str, store_put. simpl. rewrite lookup_insert_eq.
  by rewrite strip_strip_app.
Qed.

Lemma store_str_put_ne st name n text :
  name <> n -> store_str n (store_put name text st) = store_str n st.
Proof. intros Hne. unfold store_str, store_put. simpl. by rewrite lookup_insert_ne. Qed.

#[export] Instance agree_preorder keep : PreOrder (agree keep).
Proof.
  split.
  - by intros st.
  - intros st1 st2 st3 (Hc1 & Hp1 & Hk1) (Hc2 & Hp2 & Hk2). split; [congruence|].
    split; [by auto|]. intros n Hn. by rewrite Hk2, Hk1.
Qed.

Lemma agree_weaken (keep keep' : string -> Prop) st st' :
  (forall n, keep' n -> keep n) -> agree keep st st' -> agree keep' st st'.
Proof. intros Hk (Hc & Hp & Hs). split; [done|]. split; [done|]. auto. Qed.

Lemma agree_put (keep : string -> Prop) st name text :
  ~ keep name -> agree keep st (store_put name text st).
Proof.
  intros Hk. split; [done|]. split; simpl.
  - intros n Hn. destruct (decide (name = n)) as [->|Hne].
    + by rewrite lookup_insert_eq.
    + by rewrite lookup_insert_ne.
  - intros n Hn. rewrite lookup_insert_ne; [done|]. by intros ->.
Qed.

(** A write, successful or not, respects every frame that does not name
    its attribute. *)
Lemma store_write_agree (keep : string -> Prop) st name value :
  ~ keep name -> agree keep st (store_write name value st).2.
Proof.
  intros Hk. unfold store_write. destruct (writable st name); [|reflexivity].
  by apply agree_put.
Qed.

Lemma store_write_sampling_agree (keep : string -> Prop) us ms st :
  ~ keep "sampling_us" -> ~ keep "sampling_ms" ->
  agree keep st (store_write_sampling us ms st).2.
Proof.
  intros Hus Hms. unfold store_write_sampling.
  repeat case_match; (reflexivity || by apply store_write_agree).
Qed.

Lemma agree_writable keep st st' n :
  agree keep st st' -> writable st n = true -> writable st' n = true.
Proof.
  intros (Hc & Hp & _). unfold writable. rewrite Hc.
  intros [Hn| ->]%orb_prop; [|by rewrite orb_true_r].
  apply bool_decide_eq_true in Hn. by rewrite bool_decide_eq_true_2 by auto.
Qed.

(** An attribute that cannot be written now did not exist before. *)
Lemma agree_not_writable keep st st' n :
  agree keep st st' -> writable st' n = false -> st_attrs st !! n = None.
Proof.
  intros Ha Hw. destruct (st_attrs st !! n) as [text|] eqn:Hn; [|done].
  by rewrite (agree_writable keep st st' n Ha (writable_present _ _ _ Hn)) in Hw.
Qed.

Lemma store_int_present st name z : store_int name st = Ok z -> is_Some (st_attrs st !! name).
Proof. unfold store_int. by destruct (st_attrs st !! name). Qed.

Lemma store_str_present st name v : store_str name st = Ok v -> is_Some (st_attrs st !! name).
Proof. unfold store_str. by destruct (st_attrs st !! name). Qed.

(** What a snapshot could read can still be written after any sequence of
    writes. *)
Lemma store_int_writable keep st st' name z :
  store_int name st = Ok z -> agree keep st st' -> writable st' name = true.
Proof.
  intros [text Hn]%store_int_present Ha.
  eapply agree_writable; [done|]. by eapply writable_present.
Qed.

Lemma store_str_writable keep st st' name v :
  store_str name st = Ok v -> agree keep st st' -> writable st' name = true.
Proof.
  intros [text Hn]%store_str_present Ha.
  eapply agree_writable; [done|]. by eapply writable_present.
Qed.

Lemma store_int_same st st' name :
  st_attrs st' !! name = st_attrs st !! name -> store_int name st' = store_int name st.
Proof. unfold store_int. by intros ->. Qed.

Lemma store_str_same st st' name :
  st_attrs st' !! name = st_attrs st !! name -> store_str name st' = store_str name st.
Proof. unfold store_str. by intros ->. Qed.

Lemma store_sampling_us_same st st' :
  st_attrs st' !! "sampling_us" = st_attrs st !! "sampling_us" ->
  st_attrs st' !! "sampling_ms" = st_attrs st !! "sampling_ms" ->
  store_sampling_us st' = store_sampling_us st.
Proof.
  intros Hus Hms. unfold store_sampling_us.
  by rewrite Hus, (store_int_same st st' "sampling_us"), (store_int_same st st' "sampling_ms").
Qed.

Lemma store_sampling_us_put_ne st name text :
  name <> "sampling_us" -> name <> "sampling_ms" ->
  store_sampling_us (store_put name text st) = store_sampling_us st.
Proof.
  intros Hus Hms. apply store_sampling_us_same; simpl; by rewrite lookup_insert_ne.
Qed.

(** Writing back the period a snapshot gave restores it, through whichever
    attribute can be written: exactly through [sampling_us], and through
    [sampling_ms] because a period read from it is a positive multiple of
    1000. *)
Lemma store_write_sampling_restores keep st0 st us :
  agree keep st0 st -> store_sampling_us st0 = Ok us -> 0 < us ->
  exists st', store_write_sampling (Some us) None st = (Ok tt, st') /\
    store_sampling_us st' = Ok us /\
    agree (fun n => n <> "sampling_us" /\ n <> "sampling_ms") st st'.
Proof.
  intros Ha H0 Hpos. unfold store_write_sampling.
  destruct (writable st "sampling_us") eqn:Hw.
  - rewrite store_write_Ok by done. eexists. split; [done|]. split.
    + unfold store_sampling_us. simpl. rewrite lookup_insert_eq. apply store_int_put_eq.
    + apply agree_put. tauto.
  - pose proof (agree_not_writable _ _ _ _ Ha Hw) as Hnone.
    unfold store_sampling_us in H0. rewrite Hnone in H0.
    destruct (store_int "sampling_ms" st0) as [ms|?|] eqn:Hms; simplify_eq.
    assert (fallback_ms (ms * 1000) = ms) as Hfb by (apply fallback_ms_exact; lia).
    rewrite store_write_Ok by by eapply store_int_writable.
    eexists. split; [done|]. split; [|apply agree_put; tauto].
    unfold store_sampling_us. simpl. rewrite lookup_insert_ne by done.
    assert (st_attrs st !! "sampling_us" = None) as ->.
    { unfold writable in Hw. apply orb_false_elim in Hw as [Hw _].
      apply bool_decide_eq_false in Hw. by apply eq_None_not_Some. }
    by rewrite store_int_put_eq, Hfb.
Qed.

(** The three readings a snapshot is made of. *)
Lemma store_snapshot_Ok st c :
  store_snapshot st = Ok c <->
  store_sampling_us st = Ok (sampling_us c) /\
  store_int "threshold_mC" st = Ok (threshold_mc c) /\
  store_str "mode" st = Ok (mode c).
Proof.
  unfold store_snapshot. destruct c as [us th m]. simpl.
  destruct (store_sampling_us st) as [?|?|], (store_int "threshold_mC" st) as [?|?|],
    (store_str "mode" st) as [?|?|];
    (split; [intros ?; by simplify_eq|intros (? & ? & ?); by simplify_eq]).
Qed.

End Store.

(** ** [SimtempDevice] implements the store *)

Lemma read_int_abs name d : read_int name d = (store_int name (SimtempDevice_abs d), d).
Proof.
  unfold read_int, read_text, store_int, int_of, bind. simpl.
  destruct (attrs d !! name) as [text|]; [|done].
  rewrite py_int_strip. by destruct (py_int text).
Qed.

Lemma read_str_abs name d : read_str name d = (store_str name (SimtempDevice_abs d), d).
Proof.
  unfold read_str, read_text, store_str, bind. simpl.
  by destruct (attrs d !! name) as [text|].
Qed.

Lemma write_abs name value d :
  ((write name value d).1, SimtempDevice_abs (write name value d).2) =
    store_write name value (SimtempDevice_abs d).
Proof.
  unfold write, write_text, store_write, writable, SimtempDevice_abs. simpl.
  by destruct (bool_decide (is_Some (attrs d !! name)) || creates d).
Qed.

Lemma write_char name value d : char_device (write name value d).2 = char_device d.
Proof. unfold write, write_text. by case_match. Qed.

Lemma read_sampling_abs d :
  try_except (read_int "sampling_us") is_FileNotFoundError
    (fun _ => ms <- read_int "sampling_ms" ;; ret (ms * 1000)) d =
  (store_sampling_us (SimtempDevice_abs d), d).
Proof.
  erewrite try_except_run by apply read_int_abs.
  unfold store_sampling_us. simpl.
  destruct (attrs d !! "sampling_us") as [text|] eqn:Hus.
  - unfold store_int. simpl. rewrite Hus. by destruct (py_int text).
  - unfold store_int at 1. simpl. rewrite Hus. simpl.
    erewrite bind_run by apply read_int_abs.
    by destruct (store_int "sampling_ms" _) as [?|?|].
Qed.

Lemma snapshot_abs d : snapshot d = (store_snapshot (SimtempDevice_abs d), d).
Proof.
  unfold snapshot, store_snapshot.
  erewrite bind_run by apply read_sampling_abs.
  destruct (store_sampling_us _) as [?|?|]; try done.
  erewrite bind_run by apply read_int_abs.
  destruct (store_int "threshold_mC" _) as [?|?|]; try done.
  erewrite bind_run by apply read_str_abs.
  by destruct (store_str "mode" _) as [?|?|].
Qed.

#[export] Instance SimtempDevice_DeviceLaws : DeviceLaws SimtempDevice := {
  dev_abs := SimtempDevice_abs;
  dev_write_abs := write_abs;
  dev_write_char := write_char;
  dev_snapshot_abs := snapshot_abs
}.

(** C10. The device over a directory of attribute files implements the
    store: [write], [snapshot], [read_int] and [read_str] have the outcome
    and the effect of the store's operations on the files of the
    directory, and the reads change nothing. *)
Theorem SimtempDevice_refines name value d :
  ((write name value d).1, SimtempDevice_abs (write name value d).2) =
    store_write name value (SimtempDevice_abs d) /\
  snapshot d = (store_snapshot (SimtempDevice_abs d), d) /\
  read_int name d = (store_int name (SimtempDevice_abs d), d) /\
  read_str name d = (store_str name (SimtempDevice_abs d), d).
Proof. auto using write_abs, snapshot_abs, read_int_abs, read_str_abs. Qed.

(** C27. An integer written to an attribute with [write(name, str(z))] is
    the integer [read_int(name)] returns afterwards: [str], the newline
    [write] appends, [strip] and [int] compose to the identity. *)
Theorem read_int_write name z d :
  (write name (py_str z) d).1 = Ok tt ->
  (read_int name (write name (py_str z) d).2).1 = Ok z.
Proof.
  intros Hw. rewrite read_int_abs. simpl.
  pose proof (write_abs name (py_str z) d) as Ha. rewrite Hw in Ha.
  apply store_write_Ok_inv in Ha. rewrite Ha. apply store_int_put_eq.
Qed.

Lemma read_int_write_witness :
  (read_int "threshold_mC" (write "threshold_mC" (py_str (-20000)) dev_both).2).1 = Ok (-20000).
Proof. by apply read_int_write. Defined.

(** ** Consequences of the laws *)

Section Laws.
Context {D : Type} `{DeviceLaws D}.
Implicit Types (d : D) (name value : string).

Lemma dev_write_Ok d name value :
  writable (dev_abs d) name = true ->
  exists d', dev_write name value d = (Ok tt, d') /\
    dev_abs d' = store_put name (value +:+ newline) (dev_abs d) /\
    dev_char_device d' = dev_char_device d.
Proof.
  intros Hw. pose proof (dev_write_abs name value d) as Ha.
  pose proof (dev_write_char name value d) as Hc.
  rewrite store_write_Ok in Ha by done.
  destruct (dev_write name value d) as [r d']. simpl in *.
  injection Ha as -> Ha. by exists d'.
Qed.

Lemma dev_write_Raise d name value :
  writable (dev_abs d) name = false ->
  exists d', dev_write name value d = (Raise FileNotFoundError, d') /\
    dev_abs d' = dev_abs d /\ dev_char_device d' = dev_char_device d.
Proof.
  intros Hw. pose proof (dev_write_abs name value d) as Ha.
  pose proof (dev_write_char name value d) as Hc.
  rewrite store_write_Raise in Ha by done.
  destruct (dev_write name value d) as [r d']. simpl in *.
  injection Ha as -> Ha. by exists d'.
Qed.

(** A write terminates, and it raises nothing but [FileNotFoundError]. *)
Lemma dev_write_outcome d name value :
  (dev_write name value d).1 = Ok tt \/ (dev_write name value d).1 = Raise FileNotFoundError.
Proof.
  destruct (writable (dev_abs d) name) eqn:Hw.
  - destruct (dev_write_Ok d name value Hw) as (d' & -> & _). by left.
  - destruct (dev_write_Raise d name value Hw) as (d' & -> & _). by right.
Qed.

(** The outcome and the store after [write_sampling] are those of
    [store_write_sampling]. *)
Lemma write_sampling_abs (us ms : option Z) d :
  ((write_sampling us ms d).1, dev_abs (write_sampling us ms d).2) =
    store_write_sampling us ms (dev_abs d).
Proof.
  unfold write_sampling, store_write_sampling.
  destruct us as [us|]; [|destruct ms as [ms|]; [apply dev_write_abs|done]].
  destruct (writable (dev_abs d) "sampling_us") eqn:Hw.
  - destruct (dev_write_Ok d "sampling_us" (py_str us) Hw) as (d' & Hd & Ha & _).
    erewrite bind_run; [|erewrite try_except_run; [|by erewrite bind_run by apply Hd]; done].
    simpl. by rewrite store_write_Ok, Ha.
  - destruct (dev_write_Raise d "sampling_us" (py_str us) Hw) as (d' & Hd & Ha & _).
    erewrite bind_run; [|erewrite try_except_run; [|by erewrite bind_run by apply Hd]; done].
    simpl. rewrite <- Ha. apply dev_write_abs.
Qed.

Lemma write_sampling_char (us ms : option Z) d :
  dev_char_device (write_sampling us ms d).2 = dev_char_device d.
Proof.
  unfold write_sampling.
  destruct us as [us|]; [|destruct ms as [ms|]; [apply dev_write_char|done]].
  destruct (writable (dev_abs d) "sampling_us") eqn:Hw.
  - destruct (dev_write_Ok d "sampling_us" (py_str us) Hw) as (d' & Hd & _ & Hc).
    erewrite bind_run; [|erewrite try_except_run; [|by erewrite bind_run by apply Hd]; done].
    done.
  - destruct (dev_write_Raise d "sampling_us" (py_str us) Hw) as (d' & Hd & _ & Hc).
    erewrite bind_run; [|erewrite try_except_run; [|by erewrite bind_run by apply Hd]; done].
    simpl. by rewrite dev_write_char.
Qed.

(** C18. On a device without the microsecond attribute, a sampling period
    given in microseconds is written to the millisecond attribute as
    [max(1, us // 1000)], read back as that integer, and no other attribute
    changes. *)
Theorem write_sampling_fallback (us : Z) (ms : option Z) d :
  writable (dev_abs d) "sampling_us" = false ->
  writable (dev_abs d) "sampling_ms" = true ->
  (write_sampling (Some us) ms d).1 = Ok tt /\
  store_int "sampling_ms" (dev_abs (write_sampling (Some us) ms d).2) = Ok (Z.max 1 (us / 1000)) /\
  forall n, n <> "sampling_ms" ->
    st_attrs (dev_abs (write_sampling (Some us) ms d).2) !! n = st_attrs (dev_abs d) !! n.
Proof.
  intros Hus Hms. pose proof (write_sampling_abs (Some us) ms d) as Ha.
  unfold store_write_sampling in Ha. rewrite Hus, store_write_Ok in Ha by done.
  injection Ha as -> ->. split; [done|]. split; [apply store_int_put_eq|].
  intros n Hn. simpl. by rewrite lookup_insert_ne.
Qed.

(** C30. When the microsecond attribute can be written it is the only one
    written, whatever millisecond value was passed along. *)
Theorem write_sampling_prefers_us (us : Z) (ms : option Z) d :
  writable (dev_abs d) "sampling_us" = true ->
  (write_sampling (Some us) ms d).1 = Ok tt /\
  store_int "sampling_us" (dev_abs (write_sampling (Some us) ms d).2) = Ok us /\
  forall n, n <> "sampling_us" ->
    st_attrs (dev_abs (write_sampling (Some us) ms d).2) !! n = st_attrs (dev_abs d) !! n.
Proof.
  intros Hus. pose proof (write_sampling_abs (Some us) ms d) as Ha.
  unfold store_write_sampling in Ha. rewrite Hus, store_write_Ok in Ha by done.
  injection Ha as -> ->. split; [done|]. split; [apply store_int_put_eq|].
  intros n Hn. simpl. by rewrite lookup_insert_ne.
Qed.

(** C31. When neither attribute can be written, the fallback is tried once
    and its [FileNotFoundError] is the outcome; the store is unchanged. *)
Theorem write_sampling_not_found (us : Z) (ms : option Z) d :
  writable (dev_abs d) "sampling_us" = false ->
  writable (dev_abs d) "sampling_ms" = false ->
  (write_sampling (Some us) ms d).1 = Raise FileNotFoundError /\
  dev_abs (write_sampling (Some us) ms d).2 = dev_abs d.
Proof.
  intros Hus Hms. pose proof (write_sampling_abs (Some us) ms d) as Ha.
  unfold store_write_sampling in Ha. rewrite Hus, store_write_Raise in Ha by done.
  by injection Ha as -> ->.
Qed.

Lemma dev_write_abs1 d name value :
  (dev_write name value d).1 = (store_write name value (dev_abs d)).1.
Proof. by rewrite <- dev_write_abs. Qed.

Lemma dev_write_abs2 d name value :
  dev_abs (dev_write name value d).2 = (store_write name value (dev_abs d)).2.
Proof. by rewrite <- dev_write_abs. Qed.

Lemma write_sampling_abs1 us ms d :
  (write_sampling us ms d).1 = (store_write_sampling us ms (dev_abs d)).1.
Proof. by rewrite <- write_sampling_abs. Qed.

Lemma write_sampling_abs2 us ms d :
  dev_abs (write_sampling us ms d).2 = (store_write_sampling us ms (dev_abs d)).2.
Proof. by rewrite <- write_sampling_abs. Qed.

#[export] Instance dev_agree_preorder keep : PreOrder (dev_agree keep).
Proof.
  split.
  - by intros d.
  - intros d1 d2 d3 [Ha1 Hc1] [Ha2 Hc2]. split; [by etrans|congruence].
Qed.

Lemma dev_write_preserves (keep : string -> Prop) name value :
  ~ keep name -> preserves (dev_agree keep) (dev_write name value).
Proof.
  intros Hk d. split; [|apply dev_write_char].
  rewrite dev_write_abs2. by apply store_write_agree.
Qed.

Lemma write_sampling_preserves (keep : string -> Prop) us ms :
  ~ keep "sampling_us" -> ~ keep "sampling_ms" ->
  preserves (dev_agree keep) (write_sampling us ms).
Proof.
  intros Hus Hms d. split; [|apply write_sampling_char].
  rewrite write_sampling_abs2. by apply store_write_sampling_agree.
Qed.

Lemma write_sampling_skip d : write_sampling None None d = (Ok tt, d).
Proof. reflexivity. Qed.

Lemma dev_snapshot_preserves (R : D -> D -> Prop) `{!Reflexive R} : preserves R dev_snapshot.
Proof. intros d. by rewrite dev_snapshot_abs. Qed.

(** [write_sampling] terminates and raises nothing but [FileNotFoundError]. *)
Lemma write_sampling_outcome (us ms : option Z) d :
  (write_sampling us ms d).1 = Ok tt \/ (write_sampling us ms d).1 = Raise FileNotFoundError.
Proof.
  pose proof (write_sampling_abs us ms d) as Ha. unfold store_write_sampling, store_write in Ha.
  repeat case_match; simplify_eq; auto.
Qed.

Lemma dev_write_total name value : total (dev_write name value).
Proof. intros d. by destruct (dev_write_outcome d name value) as [-> | ->]. Qed.

Lemma write_sampling_total us ms : total (write_sampling us ms).
Proof. intros d. by destruct (write_sampling_outcome us ms d) as [-> | ->]. Qed.

Lemma dev_snapshot_total : total dev_snapshot.
Proof.
  intros d. rewrite dev_snapshot_abs. simpl. unfold store_snapshot, store_sampling_us, store_int,
    store_str. by repeat case_match.
Qed.

(** C9. [write_sampling] implements the decision table
    [store_write_sampling] on every device that implements the store: the
    microsecond attribute when it can be written, else the millisecond
    attribute with the value [max(1, us // 1000)], the millisecond argument
    only when no microsecond value is given, and no write at all when
    neither is given.  Its only exception is [FileNotFoundError], and the
    path of the data channel is left as it was. *)
Theorem write_sampling_refines (us ms : option Z) d :
  ((write_sampling us ms d).1, dev_abs (write_sampling us ms d).2) =
    store_write_sampling us ms (dev_abs d) /\
  ((write_sampling us ms d).1 = Ok tt \/ (write_sampling us ms d).1 = Raise FileNotFoundError) /\
  dev_char_device (write_sampling us ms d).2 = dev_char_device d.
Proof.
  auto using write_sampling_abs, write_sampling_outcome, write_sampling_char.
Qed.

End Laws.

Lemma write_sampling_fallback_witness :
  (write_sampling (Some 500) None dev_ms_only).1 = Ok tt /\
  store_int "sampling_ms" (dev_abs (write_sampling (Some 500) None dev_ms_only).2)
    = Ok (Z.max 1 (500 / 1000)) /\
  forall n, n <> "sampling_ms" ->
    st_attrs (dev_abs (write_sampling (Some 500) None dev_ms_only).2) !! n =
      st_attrs (dev_abs dev_ms_only) !! n.
Proof. by apply (write_sampling_fallback 500 None dev_ms_only). Defined.

Lemma write_sampling_prefers_us_witness :
  (write_sampling (Some 500) (Some 7) dev_both).1 = Ok tt /\
  store_int "sampling_us" (dev_abs (write_sampling (Some 500) (Some 7) dev_both).2) = Ok 500 /\
  forall n, n <> "sampling_us" ->
    st_attrs (dev_abs (write_sampling (Some 500) (Some 7) dev_both).2) !! n =
      st_attrs (dev_abs dev_both) !! n.
Proof. by apply (write_sampling_prefers_us 500 (Some 7) dev_both). Defined.

Lemma write_sampling_not_found_witness :
  (write_sampling (Some 500) (Some 7) dev_bare).1 = Raise FileNotFoundError /\
  dev_abs (write_sampling (Some 500) (Some 7) dev_bare).2 = dev_abs dev_bare.
Proof. by apply (write_sampling_not_found 500 (Some 7) dev_bare). Defined.

#[export] Hint Resolve dev_write_total write_sampling_total dev_snapshot_total : py.
