(* ===== verification/Discovery.v ===== *)
(** * Discovery: the constructor of [SimtempDevice]

    [SimtempDevice.__init__] (main.py, lines 46-57) lists the entries of the
    sysfs root whose names match [simtemp*], keeps the directories, sorts
    them, and selects one by index.  A missing root and a root without a
    matching directory raise [FileNotFoundError]; an index outside the list
    raises [IndexError].

    The root is a list of entries in the order the directory yields them
    (creation order in the tests).  [sorted] on paths of one directory is
    the order of the names as strings, [String.leb].  The theorems: the
    selected directory is the one of rank [index] among the matching
    directories; the errors, each with its cause; and the result does not
    depend on the order in which the directory lists its entries. *)

From stdpp Require Import base strings list sorting gmap.
From Stdlib Require Import ZArith Lia.
From S2P Require Import Prelude PyInt Device.

#[local] Open Scope string_scope.
#[local] Open Scope Z_scope.

(** ** Definitions *)

Definition DEFAULT_CHAR_DEVICE : string := "/dev/nxp_simtemp".
Definition DEFAULT_SYSFS_ROOT : string := "/sys/class/simtemp".

(** An entry of the root: its name, whether it is a directory, and the
    attribute files in it when it is one. *)
Record dirent : Type := Dirent {
  d_name : string;
  d_is_dir : bool;
  d_attrs : gmap string string
}.

(** The sysfs root: [None] when the path does not exist; [fs_creates] says
    whether a write may create a file (a temporary directory) or not
    (sysfs). *)
Record sysfs : Type := Sysfs {
  fs_entries : option (list dirent);
  fs_creates : bool
}.

(** The pattern [simtemp*]: the names that start with [simtemp]. *)
Fixpoint starts_with (p s : string) : bool :=
  match p, s with
  | EmptyString, _ => true
  | String a p', String b s' => bool_decide (a = b) && starts_with p' s'
  | String _ _, EmptyString => false
  end.

(** [p for p in sysfs_root.glob("simtemp*") if p.is_dir()]. *)
Definition is_device (e : dirent) : bool := starts_with "simtemp" (d_name e) && d_is_dir e.

Definition glob_simtemp (entries : list dirent) : list dirent :=
  filter (fun e => Is_true (is_device e)) entries.

(** The order of [sorted] on the paths of one directory. *)
Definition name_le (e1 e2 : dirent) : Prop := String.leb (d_name e1) (d_name e2) = true.

#[export] Instance name_le_dec e1 e2 : Decision (name_le e1 e2).
Proof. unfold name_le. apply _. Defined.

Definition devices (entries : list dirent) : list dirent :=
  merge_sort name_le (glob_simtemp entries).

(** [SimtempDevice(sysfs_root, index, device_path)]. *)
Definition init (root : sysfs) (index : Z) (device_path : option string)
    : outcome SimtempDevice :=
  match fs_entries root with
  | None => Raise FileNotFoundError
  | Some entries =>
      match devices entries with
      | [] => Raise FileNotFoundError
      | _ :: _ =>
          if (index <? 0) || (Z.of_nat (length (devices entries)) <=? index)
          then Raise IndexError
          else
            match devices entries !! Z.to_nat index with
            | Some e =>
                Ok (Dev (d_name e) (default DEFAULT_CHAR_DEVICE device_path) (d_attrs e)
                      (fs_creates root))
            | None => Raise IndexError
            end
      end
  end.

(** The directory [_write_attrs] fills, as an entry. *)
Definition simtemp_dir (name : string) (sampling threshold : Z) (mode : string) : dirent :=
  Dirent name true
    (dev_files [("sampling_ms", py_str sampling); ("sampling_us", py_str (sampling * 1000));
                ("threshold_mC", py_str threshold); ("mode", mode)]).

(** The name of [e1] is strictly before the name of [e2]. *)
Definition name_lt (e1 e2 : dirent) : Prop := String.ltb (d_name e1) (d_name e2) = true.

#[export] Instance name_lt_dec e1 e2 : Decision (name_lt e1 e2).
Proof. unfold name_lt. apply _. Defined.

(** The number of devices of the root whose name is strictly before the
    name of [e]. *)
Definition rank (entries : list dirent) (e : dirent) : Z :=
  Z.of_nat (length (filter (fun e' => name_lt e' e) (glob_simtemp entries))).

(** The root of [test_simtemp_device_chooses_sorted_entry]: [simtemp10]
    created before [simtemp0]. *)
Definition two_devices : list dirent :=
  [simtemp_dir "simtemp10" 75 41000 "noisy"; simtemp_dir "simtemp0" 50 40000 "normal"].

(** The device constructed from [simtemp_dir] in a temporary directory. *)
Definition tmp_dev (name : string) (sampling threshold : Z) (mode : string) : SimtempDevice :=
  Dev name DEFAULT_CHAR_DEVICE (d_attrs (simtemp_dir name sampling threshold mode)) true.

(** ** The order of names *)

Lemma string_leb_trans s1 s2 s3 :
  String.leb s1 s2 = true -> String.leb s2 s3 = true -> String.leb s1 s3 = true.
Proof.
  unfold String.leb. revert s2 s3.
  induction s1 as [|a s1 IH]; intros [|b s2] [|c s3]; simpl; try done.
  unfold Ascii.compare.
  destruct (N.compare_spec (Ascii.N_of_ascii a) (Ascii.N_of_ascii b)) as [Hab|Hab|Hab];
    destruct (N.compare_spec (Ascii.N_of_ascii b) (Ascii.N_of_ascii c)) as [Hbc|Hbc|Hbc]; try done;
    destruct (N.compare_spec (Ascii.N_of_ascii a) (Ascii.N_of_ascii c)) as [Hac|Hac|Hac];
    try done; try lia.
  apply IH.
Qed.

#[export] Instance name_le_trans : Transitive name_le.
Proof. intros e1 e2 e3. apply string_leb_trans. Qed.

#[export] Instance name_le_total : Total name_le.
Proof. intros e1 e2. apply String.leb_total. Qed.

#[export] Instance name_le_refl : Reflexive name_le.
Proof. intros e. by destruct (String.leb_total (d_name e) (d_name e)). Qed.

#[export] Instance string_leb_antisym : AntiSymm (=) (fun s1 s2 => String.leb s1 s2 = true).
Proof. intros s1 s2. apply String.leb_antisym. Qed.

Lemma string_compare_refl s : String.compare s s = Eq.
Proof.
  induction s as [|a s IH]; [done|]. simpl. unfold Ascii.compare.
  by rewrite N.compare_refl.
Qed.

Lemma name_lt_le e1 e2 : name_lt e1 e2 <-> name_le e1 e2 /\ d_name e1 <> d_name e2.
Proof.
  unfold name_lt, name_le, String.ltb, String.leb. split.
  - intros Hlt. destruct (String.compare _ _) eqn:Hc; try done. split; [done|].
    intros Heq. by rewrite Heq, string_compare_refl in Hc.
  - intros [Hle Hne]. destruct (String.compare _ _) eqn:Hc; try done.
    by apply String.compare_eq_iff in Hc.
Qed.

Lemma name_lt_not_le e1 e2 : name_le e1 e2 -> ~ name_lt e2 e1.
Proof.
  intros Hle [Hle' Hne]%name_lt_le. destruct Hne. by apply String.leb_antisym.
Qed.

(** ** Sorted lists *)

Section Sorted.
Context {A : Type} (R : relation A) `{!Reflexive R}.

(** In a sorted list an element is below the ones at later positions. *)
Lemma StronglySorted_lookup_le l i j x y :
  StronglySorted R l -> l !! i = Some x -> l !! j = Some y -> (i <= j)%nat -> R x y.
Proof.
  intros Hs. revert i j. induction Hs as [|z l Hs IH Hz]; intros i j Hi Hj Hij; [done|].
  destruct i as [|i], j as [|j]; simplify_eq/=; try lia.
  - reflexivity.
  - eapply Forall_forall; [done|]. by eapply list_elem_of_lookup_2.
  - eapply IH; [done..|lia].
Qed.

End Sorted.

(** Two sorted lists with the same elements, whose keys are all different,
    are the same list. *)
Lemma same_keys_same_list {A K} (key : A -> K) (l1 l2 : list A) :
  key <$> l1 = key <$> l2 -> NoDup (key <$> l1) -> l1 ≡ₚ l2 -> l1 = l2.
Proof.
  revert l2. induction l1 as [|x l1 IH]; intros [|y l2] Hk Hn Hp; simplify_eq/=; [done|].
  apply NoDup_cons in Hn as [Hx Hn].
  assert (x = y) as ->.
  { assert (x ∈ y :: l2) as [->|Hin]%elem_of_cons by (rewrite <- Hp; left); [done|].
    destruct Hx. rewrite H0. by apply list_elem_of_fmap_2. }
  f_equal. apply IH; [done..|]. by apply (inj (cons y)).
Qed.

(** ** The list of devices *)

Lemma devices_Permutation entries : devices entries ≡ₚ glob_simtemp entries.
Proof. apply merge_sort_Permutation. Qed.

Lemma devices_sorted entries : StronglySorted name_le (devices entries).
Proof. apply StronglySorted_merge_sort; apply _. Qed.

Lemma devices_length entries : length (devices entries) = length (glob_simtemp entries).
Proof. by rewrite devices_Permutation. Qed.

Lemma devices_elem_of entries e :
  e ∈ devices entries <-> e ∈ entries /\ starts_with "simtemp" (d_name e) = true /\ d_is_dir e = true.
Proof.
  rewrite devices_Permutation. unfold glob_simtemp, is_device.
  rewrite list_elem_of_filter, andb_True, !Is_true_true. tauto.
Qed.

Lemma devices_nil entries : devices entries = [] <-> glob_simtemp entries = [].
Proof.
  split; intros Hd; apply length_zero_iff_nil;
    [rewrite <- devices_length|rewrite devices_length]; by rewrite Hd.
Qed.

Lemma devices_names_NoDup entries :
  NoDup (d_name <$> entries) -> NoDup (d_name <$> devices entries).
Proof.
  intros Hn. rewrite devices_Permutation.
  eapply sublist_NoDup; [done|]. apply fmap_sublist, sublist_filter.
Qed.

(** The sorted list does not depend on the order of the entries. *)
Lemma devices_order entries entries' :
  entries ≡ₚ entries' -> NoDup (d_name <$> entries) -> devices entries = devices entries'.
Proof.
  intros Hp Hn.
  assert (devices entries ≡ₚ devices entries') as Hd
    by (rewrite !devices_Permutation; unfold glob_simtemp; by rewrite Hp).
  apply (same_keys_same_list d_name); [| |done].
  - apply (StronglySorted_unique (fun s1 s2 => String.leb s1 s2 = true));
      [by apply (StronglySorted_fmap _ name_le), devices_sorted..|by rewrite Hd].
  - by apply devices_names_NoDup.
Qed.

Lemma filter_none {A} (P : A -> Prop) `{!forall x, Decision (P x)} (l : list A) :
  Forall (fun x => ~ P x) l -> filter P l = [].
Proof. induction 1; [done|]. by rewrite filter_cons_False. Qed.

(** In a sorted list of entries with different names, the position of an
    entry is the number of entries with a name before its name. *)
Lemma sorted_rank l i e :
  StronglySorted name_le l -> NoDup (d_name <$> l) -> l !! i = Some e ->
  length (filter (fun e' => name_lt e' e) l) = i.
Proof.
  intros Hs. revert i. induction Hs as [|x l Hs IH Hx]; intros i Hn Hi; [done|].
  apply NoDup_cons in Hn as [Hxl Hn]. rewrite filter_cons. destruct i as [|i]; simplify_eq/=.
  - rewrite decide_False by (apply name_lt_not_le; reflexivity).
    apply length_zero_iff_nil, filter_none.
    eapply Forall_impl; [done|]. intros y Hy. by apply name_lt_not_le.
  - rewrite decide_True; [simpl; by rewrite (IH i)|].
    apply name_lt_le. split; [eapply Forall_forall; [done|]; by eapply list_elem_of_lookup_2|].
    intros Heq. destruct Hxl. rewrite Heq. eapply list_elem_of_fmap_2, list_elem_of_lookup_2. done.
Qed.

(** ** The constructor *)

(** What [init] returns when it returns: the entry at position [index] of
    the sorted list of devices. *)
Lemma init_Ok root index device_path d :
  init root index device_path = Ok d <->
  exists entries e,
    fs_entries root = Some entries /\ 0 <= index /\
    devices entries !! Z.to_nat index = Some e /\
    d = Dev (d_name e) (default DEFAULT_CHAR_DEVICE device_path) (d_attrs e) (fs_creates root).
Proof.
  unfold init. split.
  - destruct (fs_entries root) as [entries|]; [|done].
    destruct (devices entries) as [|e0 l] eqn:Hd; [done|]. rewrite <- Hd.
    destruct (Z.ltb_spec index 0); [done|].
    destruct (Z.leb_spec (Z.of_nat (length (devices entries))) index); [done|]. simpl.
    destruct (_ !! _) as [e|] eqn:He; [|done]. intros [= <-]. by exists entries, e.
  - intros (entries & e & -> & Hi & He & ->).
    pose proof (lookup_lt_Some _ _ _ He) as Hlt.
    destruct (devices entries) as [|e0 l] eqn:Hd; [done|]. rewrite <- Hd in *.
    destruct (Z.ltb_spec index 0); [lia|].
    destruct (Z.leb_spec (Z.of_nat (length (devices entries))) index); [lia|]. simpl.
    by rewrite He.
Qed.

(** C11. The directory [SimtempDevice] selects is an entry of the root that
    is a directory and whose name starts with [simtemp]; its rank among
    these, in the order of the names as strings, is [index] when the names
    of the root are different; the data channel is the path given, or
    [/dev/nxp_simtemp]. *)
Theorem init_selects root index device_path d :
  init root index device_path = Ok d ->
  exists entries e,
    fs_entries root = Some entries /\ e ∈ entries /\
    d_is_dir e = true /\ starts_with "simtemp" (d_name e) = true /\
    sysfs_dir d = d_name e /\ attrs d = d_attrs e /\
    char_device d = default DEFAULT_CHAR_DEVICE device_path /\
    (NoDup (d_name <$> entries) -> rank entries e = index).
Proof.
  intros (entries & e & Hr & Hi & He & ->)%init_Ok. exists entries, e.
  pose proof (list_elem_of_lookup_2 _ _ _ He) as (? & ? & ?)%devices_elem_of.
  repeat (split; [done|]). intros Hn. unfold rank.
  rewrite <- devices_Permutation, (sorted_rank _ (Z.to_nat index)); [lia| | |done].
  - apply devices_sorted.
  - by apply devices_names_NoDup.
Qed.

Lemma init_selects_witness :
  exists entries e,
    fs_entries (Sysfs (Some two_devices) true) = Some entries /\ e ∈ entries /\
    d_is_dir e = true /\ starts_with "simtemp" (d_name e) = true /\
    sysfs_dir (tmp_dev "simtemp10" 75 41000 "noisy") = d_name e /\
    attrs (tmp_dev "simtemp10" 75 41000 "noisy") = d_attrs e /\
    char_device (tmp_dev "simtemp10" 75 41000 "noisy") = default DEFAULT_CHAR_DEVICE None /\
    (NoDup (d_name <$> entries) -> rank entries e = 1).
Proof. by apply (init_selects (Sysfs (Some two_devices) true) 1 None). Defined.

(** Decide an equivalence between an outcome of [init] and the two causes
    of its errors. *)
Ltac raise_cases :=
  split;
  [ intros [= <-]; first [left; split; [done|]; by eauto | right; split; [done|]; eauto 10 with lia]
  | intros [[-> [[=]|(? & [= <-] & ?)]]|(-> & ? & [= <-] & ? & ?)]; first [done | lia] ].

(** C17. The errors of the constructor, each with its cause, and no other:
    [FileNotFoundError] exactly when the root does not exist or holds no
    directory named [simtemp*]; [IndexError] exactly when there are such
    directories and [index] is negative or not below their number. *)
Theorem init_Raise root index device_path e :
  init root index device_path = Raise e <->
  (e = FileNotFoundError /\
     (fs_entries root = None \/
      exists entries, fs_entries root = Some entries /\ glob_simtemp entries = [])) \/
  (e = IndexError /\
     exists entries, fs_entries root = Some entries /\ glob_simtemp entries <> [] /\
       (index < 0 \/ Z.of_nat (length (glob_simtemp entries)) <= index)).
Proof.
  unfold init. destruct (fs_entries root) as [entries|]; [|raise_cases].
  pose proof (devices_length entries) as Hlen. pose proof (devices_nil entries) as Hnil.
  destruct (devices entries) as [|e0 l] eqn:Hd.
  { assert (glob_simtemp entries = []) by by apply Hnil. raise_cases. }
  assert (glob_simtemp entries <> []) by (intros Hg; by apply Hnil in Hg). rewrite <- Hd in *.
  destruct (Z.ltb_spec index 0); [raise_cases|].
  destruct (Z.leb_spec (Z.of_nat (length (devices entries))) index); [raise_cases|].
  simpl. destruct (lookup_lt_is_Some_2 (devices entries) (Z.to_nat index) ltac:(lia)) as [e1 ->].
  raise_cases.
Qed.

(** C26. The device selected does not depend on the order in which the
    root lists its entries (the order of creation), when their names are
    different. *)
Theorem init_order_independent entries entries' creates index device_path :
  entries ≡ₚ entries' -> NoDup (d_name <$> entries) ->
  init (Sysfs (Some entries) creates) index device_path =
    init (Sysfs (Some entries') creates) index device_path.
Proof. intros Hp Hn. unfold init. simpl. by rewrite (devices_order entries entries'). Qed.

Lemma init_order_independent_witness :
  init (Sysfs (Some two_devices) true) 0 None = init (Sysfs (Some (reverse two_devices)) true) 0 None.
Proof.
  apply init_order_independent; [by rewrite reverse_Permutation|].
  apply (bool_decide_unpack _). by vm_compute.
Defined.
