(* ===== verification/Channel.v ===== *)
(** * Channel: the operating system as the polling loops see it

    [wait_for_alert] and [stream_command] reach the data channel through six
    calls: [os.open], [select.poll().register], [poller.poll], [os.read],
    [os.close] and [time.monotonic].  [Channel] is that interface over a
    state [W] of the world; the loops are written against it.

    - [ClockLaws] is the contract of a monotonic clock: every call of the
      interface returns, no call turns the clock back, and two successive
      readings differ by at least a tick.  Termination of the bounded loop
      is proved from it.
    - [Traced] wraps any world and records every call with its outcome;
      the theorems about the order of calls (the descriptor is closed last,
      nothing is read after it) are statements about the recorded trace.
    - [Quiet] is the contract of a world in which the channel never becomes
      readable and no call fails: the descriptor [os.open] returns can be
      registered, [poll] reports nothing, the clock and [os.close] return. *)

From stdpp Require Import base strings list.
From Stdlib Require Import ZArith Lia.
From coqutil Require Import Byte.
From S2P Require Import Prelude.

#[local] Open Scope Z_scope.

(** ** The interface *)

(** A file descriptor, as [os.open] returns it. *)
Definition fd : Type := Z.

(** [os.O_RDONLY | os.O_NONBLOCK] and [select.POLLIN | select.POLLPRI], with
    the values Linux gives the four constants. *)
Definition O_RDONLY : Z := 0.
Definition O_NONBLOCK : Z := 2048.
Definition POLLIN : Z := 1.
Definition POLLPRI : Z := 2.

Class Channel (W : Type) : Type := {
  os_open : string -> Z -> M W fd;
  poll_register : fd -> Z -> M W unit;
  poll_poll : Z -> M W (list (fd * Z));
  os_read : fd -> nat -> M W (list byte);
  os_close : fd -> M W unit;
  monotonic : M W Z
}.

(** ** The contract of the clock *)

Class ClockLaws (W : Type) `{Channel W} : Type := {
  (** a lower bound of the next reading, in nanoseconds *)
  clock : W -> Z;
  tick : Z;
  tick_pos : 0 < tick;
  monotonic_spec : forall w,
    match monotonic w with
    | (Ok t, w') => clock w <= t /\ t + tick <= clock w'
    | (Raise _, w') => clock w <= clock w'
    | (OutOfFuel, _) => False
    end;
  os_open_clock : forall path flags w,
    terminated (os_open path flags w).1 /\ clock w <= clock (os_open path flags w).2;
  poll_register_clock : forall f mask w,
    terminated (poll_register f mask w).1 /\ clock w <= clock (poll_register f mask w).2;
  poll_poll_clock : forall timeout w,
    terminated (poll_poll timeout w).1 /\ clock w <= clock (poll_poll timeout w).2;
  os_read_clock : forall f n w,
    terminated (os_read f n w).1 /\ clock w <= clock (os_read f n w).2;
  os_close_clock : forall f w,
    terminated (os_close f w).1 /\ clock w <= clock (os_close f w).2
}.

(** A measure of the time left to a deadline that every advance of the
    clock by a tick decreases. *)
Definition ticks_left (tick deadline now : Z) : nat :=
  Z.to_nat ((deadline - now) / tick + 1).

(** No call turns the clock back. *)
Definition clock_le {W} `{ClockLaws W} (w w' : W) : Prop := clock w <= clock w'.

(** ** The contract of a channel that never delivers *)

Class Quiet (W : Type) `{Channel W} : Type := {
  quiet_open : forall path flags w, exists f,
    (os_open path flags w).1 = Ok f /\ forall mask w', (poll_register f mask w').1 = Ok tt;
  quiet_poll : forall timeout w, (poll_poll timeout w).1 = Ok [];
  quiet_close : forall f w, (os_close f w).1 = Ok tt;
  quiet_monotonic : forall w, exists t, (monotonic w).1 = Ok t
}.

(** ** Recording the calls *)

Inductive call : Type :=
| COpen (path : string) (flags : Z) (r : outcome fd)
| CRegister (f : fd) (mask : Z) (r : outcome unit)
| CPoll (timeout : Z) (r : outcome (list (fd * Z)))
| CRead (f : fd) (n : nat) (r : outcome (list byte))
| CClose (f : fd) (r : outcome unit)
| CMonotonic (r : outcome Z).

(** A world with the list of the calls made so far, the latest last. *)
Record Traced (W : Type) : Type := Trace {
  inner : W;
  calls : list call
}.

Arguments Trace {W} inner calls.
Arguments inner {W} t.
Arguments calls {W} t.

(** Run a call on the inner world and record it with its outcome. *)
Definition traced {W A} (m : M W A) (c : outcome A -> call) : M (Traced W) A :=
  fun t => let (r, w) := m (inner t) in (r, Trace w (calls t ++ [c r])).

#[export] Instance Traced_Channel {W} `{Channel W} : Channel (Traced W) := {
  os_open path flags := traced (os_open path flags) (COpen path flags);
  poll_register f mask := traced (poll_register f mask) (CRegister f mask);
  poll_poll timeout := traced (poll_poll timeout) (CPoll timeout);
  os_read f n := traced (os_read f n) (CRead f n);
  os_close f := traced (os_close f) (CClose f);
  monotonic := traced monotonic CMonotonic
}.

(** The descriptors of the successful [os.open] calls and of the [os.close]
    calls of a trace, in order. *)
Definition opened (tr : list call) : list fd :=
  omap (fun c => match c with COpen _ _ (Ok f) => Some f | _ => None end) tr.

Definition closed (tr : list call) : list fd :=
  omap (fun c => match c with CClose f _ => Some f | _ => None end) tr.

(** The time-outs passed to [poller.poll], in order. *)
Definition poll_timeouts (tr : list call) : list Z :=
  omap (fun c => match c with CPoll timeout _ => Some timeout | _ => None end) tr.

(** A read that returned at least [n] bytes. *)
Definition is_full_read (n : nat) (c : call) : bool :=
  match c with
  | CRead _ _ (Ok data) => bool_decide (n <= length data)%nat
  | _ => false
  end.

(** The number of such reads in a trace. *)
Definition full_reads (n : nat) (tr : list call) : Z :=
  Z.of_nat (length (List.filter (is_full_read n) tr)).

(** [t'] is [t] after some more calls, all of them in [P]. *)
Definition extends {W} (P : call -> Prop) (t t' : Traced W) : Prop :=
  exists l, calls t' = calls t ++ l /\ Forall P l.

(** ** Facts about the clock *)

Lemma ticks_left_decreases tick deadline now now' :
  0 < tick -> now < deadline -> now + tick <= now' ->
  (ticks_left tick deadline now' < ticks_left tick deadline now)%nat.
Proof.
  intros Ht Hd Hn. unfold ticks_left.
  assert ((deadline - now') / tick <= (deadline - now) / tick - 1).
  { replace ((deadline - now) / tick - 1) with ((deadline - now + (-1) * tick) / tick)
      by (rewrite Z.div_add by lia; lia).
    apply Z.div_le_mono; lia. }
  assert (0 <= (deadline - now) / tick) by (apply Z.div_pos; lia). lia.
Qed.

(** After a reading [t0] of the clock, a deadline [span] later is at most
    [span / tick] ticks away. *)
Lemma ticks_left_span tick t0 span now :
  0 < tick -> t0 + tick <= now ->
  (ticks_left tick (t0 + span) now <= Z.to_nat (span / tick))%nat.
Proof.
  intros Ht Hn. unfold ticks_left.
  assert ((t0 + span - now) / tick <= span / tick - 1); [|lia].
  replace (span / tick - 1) with ((span + (-1) * tick) / tick)
    by (rewrite Z.div_add by lia; lia).
  apply Z.div_le_mono; lia.
Qed.

(** Under the contract of the clock every call returns or raises. *)
Section ClockTotal.
Context {W : Type} `{ClockLaws W}.

Lemma monotonic_total : total monotonic.
Proof. intros w. pose proof (monotonic_spec w). by destruct (monotonic w) as [[?|?|] ?]. Qed.

Lemma os_open_total path flags : total (os_open path flags).
Proof. intros w. apply os_open_clock. Qed.

Lemma poll_register_total f mask : total (poll_register f mask).
Proof. intros w. apply poll_register_clock. Qed.

Lemma poll_poll_total timeout : total (poll_poll timeout).
Proof. intros w. apply poll_poll_clock. Qed.

Lemma os_read_total f n : total (os_read f n).
Proof. intros w. apply os_read_clock. Qed.

Lemma os_close_total f : total (os_close f).
Proof. intros w. apply os_close_clock. Qed.

#[export] Instance clock_le_preorder : PreOrder clock_le.
Proof. split; unfold clock_le; [intros w; lia|intros w1 w2 w3; lia]. Qed.

Lemma monotonic_clock_le : preserves clock_le monotonic.
Proof.
  intros w. unfold clock_le. pose proof (monotonic_spec w). pose proof tick_pos.
  destruct (monotonic w) as [[?|?|] ?]; simpl; [lia|lia|done].
Qed.

Lemma os_open_clock_le path flags : preserves clock_le (os_open path flags).
Proof. intros w. apply os_open_clock. Qed.

Lemma poll_register_clock_le f mask : preserves clock_le (poll_register f mask).
Proof. intros w. apply poll_register_clock. Qed.

Lemma poll_poll_clock_le timeout : preserves clock_le (poll_poll timeout).
Proof. intros w. apply poll_poll_clock. Qed.

Lemma os_read_clock_le f n : preserves clock_le (os_read f n).
Proof. intros w. apply os_read_clock. Qed.

Lemma os_close_clock_le f : preserves clock_le (os_close f).
Proof. intros w. apply os_close_clock. Qed.

End ClockTotal.

#[export] Hint Resolve monotonic_total os_open_total poll_register_total poll_poll_total
  os_read_total os_close_total monotonic_clock_le os_open_clock_le poll_register_clock_le
  poll_poll_clock_le os_read_clock_le os_close_clock_le : py.

(** Bring the contract of the clock to every call whose result a proof has
    named by an equation. *)
Ltac clock_fact E lem :=
  let Hc := fresh "Hc" in
  pose proof lem as Hc; rewrite E in Hc; simpl in Hc; clear E.

Ltac clock_facts :=
  repeat match goal with
  | E : monotonic ?w = _ |- _ => clock_fact E (monotonic_spec w)
  | E : os_open ?p ?fl ?w = _ |- _ => clock_fact E (os_open_clock p fl w)
  | E : poll_register ?f ?m ?w = _ |- _ => clock_fact E (poll_register_clock f m w)
  | E : poll_poll ?t ?w = _ |- _ => clock_fact E (poll_poll_clock t w)
  | E : os_read ?f ?n ?w = _ |- _ => clock_fact E (os_read_clock f n w)
  | E : os_close ?f ?w = _ |- _ => clock_fact E (os_close_clock f w)
  end.

(** The same for the contract of a quiet channel. *)
Ltac quiet_fact E lem :=
  let Hq := fresh "Hq" in
  pose proof lem as Hq; rewrite E in Hq; simpl in Hq; clear E.

Ltac quiet_facts :=
  repeat match goal with
  | E : monotonic ?w = _ |- _ => quiet_fact E (quiet_monotonic w)
  | E : os_open ?p ?fl ?w = _ |- _ => quiet_fact E (quiet_open p fl w)
  | E : poll_poll ?t ?w = _ |- _ => quiet_fact E (quiet_poll t w)
  | E : os_close ?f ?w = _ |- _ => quiet_fact E (quiet_close f w)
  end.

(** Close a goal one of these facts contradicts. *)
Ltac quiet_done :=
  repeat match goal with
  | H : exists _, _ |- _ => destruct H as [? H]
  | H : _ /\ _ |- _ => destruct H as [H ?]
  end;
  by simplify_eq.

(** ** Facts about traces *)

Section Traced.
Context {W : Type} `{Channel W}.

Lemma traced_run {A} (m : M W A) (c : outcome A -> call) (t : Traced W) :
  traced m c t = ((m (inner t)).1, Trace (m (inner t)).2 (calls t ++ [c (m (inner t)).1])).
Proof. unfold traced. by destruct (m (inner t)). Qed.

(** Every call extends the trace by exactly one entry. *)
Lemma traced_calls {A} (m : M W A) (c : outcome A -> call) (t : Traced W) :
  calls (traced m c t).2 = calls t ++ [c (traced m c t).1].
Proof. by rewrite traced_run. Qed.

Lemma traced_inner {A} (m : M W A) (c : outcome A -> call) (t : Traced W) :
  (traced m c t).1 = (m (inner t)).1 /\ inner (traced m c t).2 = (m (inner t)).2.
Proof. by rewrite traced_run. Qed.

Lemma traced_eq {A} (m : M W A) (c : outcome A -> call) (t : Traced W) r w :
  m (inner t) = (r, w) -> traced m c t = (r, Trace w (calls t ++ [c r])).
Proof. rewrite traced_run. by intros ->. Qed.

Lemma traced_inv {A} (m : M W A) (c : outcome A -> call) (t t' : Traced W) r :
  traced m c t = (r, t') -> calls t' = calls t ++ [c r].
Proof. rewrite traced_run. by intros [= <- <-]. Qed.

End Traced.

(** Replace the equation that names the result of each recorded call by
    what it added to the trace, and rewrite the trace with it. *)
Ltac trace_facts :=
  repeat match goal with
  | E : _ = (_, _) |- _ => apply traced_inv in E
  end;
  repeat match goal with
  | E : calls ?t = _ |- context [calls ?t] => rewrite E
  end.

Lemma opened_app tr1 tr2 : opened (tr1 ++ tr2) = opened tr1 ++ opened tr2.
Proof. apply omap_app. Qed.

Lemma closed_app tr1 tr2 : closed (tr1 ++ tr2) = closed tr1 ++ closed tr2.
Proof. apply omap_app. Qed.

Lemma poll_timeouts_app tr1 tr2 : poll_timeouts (tr1 ++ tr2) = poll_timeouts tr1 ++ poll_timeouts tr2.
Proof. apply omap_app. Qed.

Lemma full_reads_app n tr1 tr2 : full_reads n (tr1 ++ tr2) = full_reads n tr1 + full_reads n tr2.
Proof. unfold full_reads. rewrite List.filter_app, length_app. lia. Qed.

Lemma full_reads_read n f k data :
  full_reads n [CRead f k (Ok data)] = if (length data <? n)%nat then 0 else 1.
Proof.
  unfold full_reads. simpl. case_bool_decide; destruct (Nat.ltb_spec (length data) n); simpl; lia.
Qed.

Lemma full_reads_other n c : is_full_read n c = false -> full_reads n [c] = 0.
Proof. unfold full_reads. simpl. by intros ->. Qed.

#[export] Instance extends_preorder {W} (P : call -> Prop) : PreOrder (@extends W P).
Proof.
  split.
  - intros t. exists []. by rewrite app_nil_r.
  - intros t1 t2 t3 (l1 & E1 & H1) (l2 & E2 & H2). exists (l1 ++ l2).
    split; [by rewrite E2, E1, app_assoc|by apply Forall_app].
Qed.

(** A recorded call extends the trace by itself. *)
Lemma traced_extends {W A} (P : call -> Prop) (m : M W A) (c : outcome A -> call) :
  (forall r, P (c r)) -> preserves (extends P) (traced m c).
Proof. intros Hc t. rewrite traced_run. exists [c (m (inner t)).1]. split; [done|]. by constructor. Qed.

(** What was added to a trace: the calls after the first [length tr0]. *)
Lemma extends_drop {W} (P : call -> Prop) (t t' : Traced W) :
  extends P t t' -> calls t' = calls t ++ drop (length (calls t)) (calls t') /\
    Forall P (drop (length (calls t)) (calls t')).
Proof. intros (l & -> & Hl). by rewrite drop_app_length. Qed.
