(* ===== verification/Fakes.v ===== *)
(** * Fakes: the test doubles of the test-suite

    [src/tests/test_cli.py] replaces the operating system and the device by
    doubles.  They are instances of the interfaces [Channel] and [Device]:

    - [FakeWorld]: the world of [test_wait_for_alert_success]: [fake_open]
      records the path and returns descriptor 99, [fake_read] pops the next
      record of a list, [FakePoll] reports the descriptor readable at every
      call and counts the calls, [fake_monotonic] advances by 0.01 s per
      reading;
    - [IdleWorld]: the world of [test_wait_for_alert_timeout]: [IdlePoll]
      never reports anything, the clock advances by 0.3 s per reading;
    - [FakeDevice]: the device of [test_main_test_command_success], which
      records the writes and returns a constant snapshot;
    - [PatchedDevice]: a [SimtempDevice] in a temporary directory whose
      [write] is replaced by [fake_write], as in
      [test_write_sampling_fallbacks_to_ms].

    Both worlds satisfy [ClockLaws]; [IdleWorld] satisfies [Quiet]. *)

From stdpp Require Import base strings list gmap.
From Stdlib Require Import ZArith Lia.
From coqutil Require Import Byte.
From S2P Require Import Prelude PyInt Sample Device Channel.

#[local] Open Scope string_scope.
#[local] Open Scope Z_scope.

(** ** The world of [test_wait_for_alert_success] *)

Record FakeWorld : Type := FakeW {
  fw_opened : list string;
  fw_reads : list (list byte);
  fw_registered : option (fd * Z);
  fw_calls : Z;
  fw_ticks : Z
}.

Definition fake_fd : fd := 99.

(** 0.01 s in nanoseconds. *)
Definition fake_tick : Z := 10000000.

Definition fake_open (path : string) (flags : Z) : M FakeWorld fd :=
  fun w => (Ok fake_fd,
            FakeW (fw_opened w ++ [path]) (fw_reads w) (fw_registered w) (fw_calls w) (fw_ticks w)).

Definition fake_read (handle : fd) (size : nat) : M FakeWorld (list byte) :=
  fun w =>
    if negb (handle =? fake_fd) then (Raise AssertionError, w)
    else if negb (size =? SAMPLE_SIZE)%nat then (Raise AssertionError, w)
    else match fw_reads w with
         | data :: rest =>
             (Ok data, FakeW (fw_opened w) rest (fw_registered w) (fw_calls w) (fw_ticks w))
         | [] => (Ok [], w)
         end.

Definition FakePoll_register (handle : fd) (events : Z) : M FakeWorld unit :=
  fun w => (Ok tt, FakeW (fw_opened w) (fw_reads w) (Some (handle, events)) (fw_calls w) (fw_ticks w)).

Definition FakePoll_poll (timeout : Z) : M FakeWorld (list (fd * Z)) :=
  fun w =>
    let w' := FakeW (fw_opened w) (fw_reads w) (fw_registered w) (fw_calls w + 1) (fw_ticks w) in
    if negb (0 <? timeout) then (Raise AssertionError, w')
    else (Ok [(fake_fd, 0)], w').

Definition fake_monotonic : M FakeWorld Z :=
  fun w =>
    let t := fw_ticks w + fake_tick in
    (Ok t, FakeW (fw_opened w) (fw_reads w) (fw_registered w) (fw_calls w) t).

#[export] Instance FakeWorld_Channel : Channel FakeWorld := {
  os_open := fake_open;
  poll_register := FakePoll_register;
  poll_poll := FakePoll_poll;
  os_read := fake_read;
  os_close := fun _ => ret tt;
  monotonic := fake_monotonic
}.

(** The initial world of the test: one record to read, nothing opened. *)
Definition fake_world (reads : list (list byte)) : FakeWorld := FakeW [] reads None 0 0.

(** ** The world of [test_wait_for_alert_timeout] *)

Record IdleWorld : Type := IdleW { iw_ticks : Z }.

Definition idle_fd : fd := 55.

(** 0.3 s in nanoseconds. *)
Definition idle_tick : Z := 300000000.

Definition IdlePoll_register (handle : fd) (events : Z) : M IdleWorld unit :=
  fun w => if negb (handle =? idle_fd) then (Raise AssertionError, w) else (Ok tt, w).

Definition idle_monotonic : M IdleWorld Z :=
  fun w => let t := iw_ticks w + idle_tick in (Ok t, IdleW t).

#[export] Instance IdleWorld_Channel : Channel IdleWorld := {
  os_open := fun _ _ => ret idle_fd;
  poll_register := IdlePoll_register;
  poll_poll := fun _ => ret [];
  os_read := fun _ _ => ret [];
  os_close := fun _ => ret tt;
  monotonic := idle_monotonic
}.

(** ** The device of [test_main_test_command_success] *)

Record FakeDevice : Type := FakeDev { fd_writes : list (string * string) }.

Definition FakeDevice_write (name value : string) : M FakeDevice unit :=
  fun d => (Ok tt, FakeDev (fd_writes d ++ [(name, value)])).

Definition FakeDevice_snapshot : M FakeDevice SimtempConfig :=
  ret (Config 100000 46000 "normal").

#[export] Instance FakeDevice_Device : Device FakeDevice := {
  dev_write := FakeDevice_write;
  dev_snapshot := FakeDevice_snapshot;
  dev_char_device := fun _ => "/dev/nxp_simtemp"
}.

(** ** The device of [test_write_sampling_fallbacks_to_ms] *)

Record PatchedDevice : Type := Patched { original : SimtempDevice }.

Definition fake_write (name value : string) : M PatchedDevice unit :=
  fun p =>
    if bool_decide (name = "sampling_us") then (Raise FileNotFoundError, p)
    else let (r, d) := write name value (original p) in (r, Patched d).

#[export] Instance PatchedDevice_Device : Device PatchedDevice := {
  dev_write := fake_write;
  dev_snapshot := lift original (fun d _ => Patched d) snapshot;
  dev_char_device := fun p => char_device (original p)
}.

(** The directory [_write_attrs] fills in a temporary directory: a write
    may create a file there. *)
Definition tmp_device (sampling threshold : Z) (mode : string) : SimtempDevice :=
  Dev "simtemp0" "/dev/nxp_simtemp"
    (dev_files [("sampling_ms", py_str sampling); ("sampling_us", py_str (sampling * 1000));
                ("threshold_mC", py_str threshold); ("mode", mode)]) true.

(** ** The contracts the doubles satisfy *)

Lemma FakeWorld_monotonic_spec w :
  match fake_monotonic w with
  | (Ok t, w') => fw_ticks w + fake_tick <= t /\ t + fake_tick <= fw_ticks w' + fake_tick
  | (Raise _, w') => fw_ticks w + fake_tick <= fw_ticks w' + fake_tick
  | (OutOfFuel, _) => False
  end.
Proof. simpl. lia. Qed.

#[export] Program Instance FakeWorld_ClockLaws : ClockLaws FakeWorld := {
  clock w := fw_ticks w + fake_tick;
  tick := fake_tick;
  monotonic_spec := FakeWorld_monotonic_spec
}.
Next Obligation. done. Qed.
Next Obligation. done. Qed.
Next Obligation. done. Qed.
Next Obligation. intros timeout w. simpl. unfold FakePoll_poll. by case_match. Qed.
Next Obligation. intros f n w. simpl. unfold fake_read. by repeat case_match. Qed.
Next Obligation. done. Qed.

Lemma IdleWorld_monotonic_spec w :
  match idle_monotonic w with
  | (Ok t, w') => iw_ticks w + idle_tick <= t /\ t + idle_tick <= iw_ticks w' + idle_tick
  | (Raise _, w') => iw_ticks w + idle_tick <= iw_ticks w' + idle_tick
  | (OutOfFuel, _) => False
  end.
Proof. simpl. lia. Qed.

#[export] Program Instance IdleWorld_ClockLaws : ClockLaws IdleWorld := {
  clock w := iw_ticks w + idle_tick;
  tick := idle_tick;
  monotonic_spec := IdleWorld_monotonic_spec
}.
Next Obligation. done. Qed.
Next Obligation. done. Qed.
Next Obligation. intros f mask w. simpl. unfold IdlePoll_register. by case_match. Qed.
Next Obligation. done. Qed.
Next Obligation. done. Qed.
Next Obligation. done. Qed.

#[export] Instance IdleWorld_Quiet : Quiet IdleWorld.
Proof.
  split; simpl; unfold ret, idle_monotonic; by eauto.
Qed.
