(* ===== verification/Args.v ===== *)
(** * Args: what the commands receive and what they print

    [Namespace] is the [argparse.Namespace] that [build_parser] produces,
    with the attributes the two commands read; an option left out on the
    command line is [None], except [max_periods], which has a default.
    [line] is a line of standard output as a structured value: the text
    formatting ([iso8601_from_ns], the [.1f] and [02x] formats) is not
    modelled.  [St] is the state a command runs in: the device, the world
    behind the data channel, and the lines printed so far. *)

From stdpp Require Import base strings list.
From Stdlib Require Import ZArith Lia.
From S2P Require Import Prelude.

#[local] Open Scope string_scope.
#[local] Open Scope Z_scope.

(** ** Constants *)

Definition DEFAULT_TEST_THRESHOLD_MC : Z := 20000.
Definition DEFAULT_TEST_MAX_PERIODS : Z := 2.
Definition DEFAULT_POLL_TIMEOUT_MS : Z := 1000.

(** ** Arguments *)

(** [duration] is a float of seconds in the source; here it is a number of
    nanoseconds, like every time of the model. *)
Record Namespace : Type := Args {
  args_count : option Z;
  args_duration : option Z;
  args_sampling_ms : option Z;
  args_sampling_us : option Z;
  args_threshold_mc : option Z;
  args_mode : option string;
  args_max_periods : Z
}.

(** The namespace of a command line without options. *)
Definition no_args : Namespace :=
  Args None None None None None None DEFAULT_TEST_MAX_PERIODS.

(** ** Output *)

Inductive line : Type :=
| SampleLine (timestamp_ns temp_mc alert flags : Z)
| PassLine (count timestamp_ns temp_mc flags : Z)
| FailLine (max_periods effective_sampling_us : Z).

#[export] Instance line_eq_dec : EqDecision line.
Proof. solve_decision. Defined.

(** ** The state of a command *)

Record St (D W : Type) : Type := State {
  st_dev : D;
  st_world : W;
  st_out : list line
}.

Arguments State {D W} st_dev st_world st_out.
Arguments st_dev {D W} s.
Arguments st_world {D W} s.
Arguments st_out {D W} s.

Section State.
Context {D W : Type}.

(** A call on the device. *)
Definition on_dev {A} (m : M D A) : M (St D W) A :=
  lift st_dev (fun d s => State d (st_world s) (st_out s)) m.

(** A call on the world. *)
Definition on_world {A} (m : M W A) : M (St D W) A :=
  lift st_world (fun w s => State (st_dev s) w (st_out s)) m.

(** [print(...)]. *)
Definition print (l : line) : M (St D W) unit :=
  modify (fun s => State (st_dev s) (st_world s) (st_out s ++ [l])).

(** The state after a computation has the output of the state before. *)
Definition same_out (s s' : St D W) : Prop := st_out s' = st_out s.

(** ... and the world of the state before. *)
Definition same_world (s s' : St D W) : Prop := st_world s' = st_world s.

(** ** Frame lemmas *)

Lemma on_dev_run {A} (m : M D A) s :
  on_dev m s = ((m (st_dev s)).1, State (m (st_dev s)).2 (st_world s) (st_out s)).
Proof. unfold on_dev. by rewrite lift_run. Qed.

Lemma on_world_run {A} (m : M W A) s :
  on_world m s = ((m (st_world s)).1, State (st_dev s) (m (st_world s)).2 (st_out s)).
Proof. unfold on_world. by rewrite lift_run. Qed.

Lemma print_run l s : print l s = (Ok tt, State (st_dev s) (st_world s) (st_out s ++ [l])).
Proof. reflexivity. Qed.

(** What a call on the world that returned did: the call, on the world. *)
Lemma on_world_inv {A} (m : M W A) s r s' :
  on_world m s = (r, s') ->
  m (st_world s) = (r, st_world s') /\ st_dev s' = st_dev s /\ st_out s' = st_out s.
Proof. rewrite on_world_run. intros [= <- <-]. simpl. by destruct (m (st_world s)). Qed.

#[export] Instance same_out_preorder : PreOrder same_out.
Proof. split; [done|]. intros s1 s2 s3. unfold same_out. congruence. Qed.

Lemma on_dev_same_out {A} (m : M D A) : preserves same_out (on_dev m).
Proof. intros s. by rewrite on_dev_run. Qed.

Lemma on_world_same_out {A} (m : M W A) : preserves same_out (on_world m).
Proof. intros s. by rewrite on_world_run. Qed.

#[export] Instance same_world_preorder : PreOrder same_world.
Proof. split; [done|]. intros s1 s2 s3. unfold same_world. congruence. Qed.

Lemma on_dev_same_world {A} (m : M D A) : preserves same_world (on_dev m).
Proof. intros s. by rewrite on_dev_run. Qed.

Lemma print_same_world l : preserves same_world (print l).
Proof. by intros s. Qed.

Lemma on_dev_total {A} (m : M D A) : total m -> total (on_dev m).
Proof. apply total_lift. Qed.

Lemma on_world_total {A} (m : M W A) : total m -> total (on_world m).
Proof. apply total_lift. Qed.

Lemma print_total l : total (print l).
Proof. by intros s. Qed.

End State.

#[export] Hint Resolve on_dev_same_out on_world_same_out on_dev_same_world print_same_world
  on_dev_total on_world_total print_total : py.

(** Run the first call of the goal, a call that respects the relation [R],
    and keep that fact for each of its outcomes. *)
Tactic Notation "pstep" uconstr(R) :=
  match goal with
  | |- context [bind ?m ?k ?s] =>
      let r := fresh "r" in
      let s' := fresh "s" in
      let E := fresh "E" in
      let Ho := fresh "Ho" in
      assert (R s (m s).2) as Ho
        by (let P := fresh in assert (preserves R m) as P by preserve; apply P);
      destruct (m s) as [r s'] eqn:E;
      rewrite (bind_run m k s r s' E);
      destruct r as [?|?|]; simpl in Ho |- *
  end.

(** A call that prints nothing. *)
Ltac ostep := pstep same_out.

(** The same when only the call's return matters. *)
Ltac out_step := ostep; [|done..].

(** Close a goal about the output from the facts [ostep] left. *)
Ltac out_done :=
  unfold same_out in *; simpl in *;
  repeat match goal with
  | Ho : st_out ?s' = st_out _ |- context [st_out ?s'] => rewrite Ho; clear Ho
  end;
  try done; try lia.
