(* ===== verification/WaitAlert.v ===== *)
(** * WaitAlert: the bounded polling loop of the self-test

    [wait_for_alert] (main.py, lines 150-177) opens the character device,
    computes a deadline [max(max_periods * sampling_us / 1e6, 0.5)] seconds
    ahead, and polls until a record with the alert flag arrives or the
    deadline has passed.  It returns [(success, sample, samples)] and closes
    the descriptor in a [finally] block.

    The function is written against [Channel]; one iteration of its loop is
    [wait_body], the loop is [iter fuel wait_body].  The theorems:

    - the deadline and the poll time-out and their bounds;
    - soundness of the three components of the result, for every world and
      every fuel;
    - termination under [ClockLaws], with the fuel that is enough;
    - the shape of the trace of calls in any world ([Traced]): what is
      opened is closed by the last call, only the loop's three calls happen
      in between, and the count returned is the number of full records
      read;
    - the two scenarios of the test-suite, and the general statement of the
      second: in a [Quiet] world the result is [(False, None, 0)]. *)

From stdpp Require Import base strings list.
From Stdlib Require Import ZArith Lia.
From coqutil Require Import Byte.
From S2P Require Import Prelude Sample Channel Fakes.

#[local] Open Scope string_scope.
#[local] Open Scope Z_scope.

(** ** Definitions *)

Definition MICROS_PER_SEC : Z := 1000000.

(** [max_periods * sampling_us / MICROS_PER_SEC] seconds, in nanoseconds. *)
Definition timeout_ns (sampling_us max_periods : Z) : Z :=
  max_periods * sampling_us * (1000000000 / MICROS_PER_SEC).

(** The floor of the deadline: 0.5 s. *)
Definition HALF_SECOND : Z := 500000000.

(** [max(timeout_s, 0.5)], in nanoseconds. *)
Definition span_ns (sampling_us max_periods : Z) : Z :=
  Z.max (timeout_ns sampling_us max_periods) HALF_SECOND.

(** [max(int((deadline - now) * 1000), 50)]: the milliseconds left, truncated
    toward zero, and at least 50. *)
Definition remaining_ms (deadline now : Z) : Z :=
  Z.max (Z.quot (deadline - now) 1000000) 50.

(** [except BlockingIOError]. *)
Definition is_BlockingIOError (e : exn) : bool := bool_decide (e = BlockingIOError).

(** The tuple [wait_for_alert] returns. *)
Definition wait_result : Type := bool * option sample * Z.

Section Loop.
Context {W : Type} `{Channel W}.

(** [try: data = os.read(fd, size) except BlockingIOError: continue]:
    [None] stands for the [continue]. *)
Definition read_record (f : fd) : M W (option (list byte)) :=
  try_except (data <- os_read f SAMPLE_SIZE ;; ret (Some data))
    is_BlockingIOError (fun _ => ret None).

(** One iteration of [while time.monotonic() < deadline]. *)
Definition wait_body (f : fd) (deadline : Z) (samples : Z) : M W (ctl Z wait_result) :=
  now <- monotonic ;;
  if negb (now <? deadline) then ret (Done (false, None, samples))
  else
    now' <- monotonic ;;
    events <- poll_poll (remaining_ms deadline now') ;;
    match events with
    | [] => ret (Continue samples)
    | _ :: _ =>
        data <- read_record f ;;
        match data with
        | None => ret (Continue samples)
        | Some data =>
            if (length data <? SAMPLE_SIZE)%nat then ret (Continue samples)
            else
              match unpack data with
              | None => raise StructError
              | Some unpacked =>
                  if has_alert (flags unpacked)
                  then ret (Done (true, Some unpacked, samples + 1))
                  else ret (Continue (samples + 1))
              end
        end
    end.

Definition wait_for_alert (fuel : nat) (char_device : string) (sampling_us max_periods : Z)
    : M W wait_result :=
  f <- os_open char_device (Z.lor O_RDONLY O_NONBLOCK) ;;
  poll_register f (Z.lor POLLIN POLLPRI) ;;
  t0 <- monotonic ;;
  let deadline := t0 + span_ns sampling_us max_periods in
  try_finally (iter fuel (wait_body f deadline) 0) (os_close f).

End Loop.

(** What the result of a run that returned says. *)
Definition result_sound (r : wait_result) : Prop :=
  match r with
  | (true, s, n) =>
      exists smp, s = Some smp /\ has_alert (flags smp) = true /\ in_range smp /\ 1 <= n
  | (false, s, n) => s = None /\ 0 <= n
  end.

(** The calls the loop makes on descriptor [f]: readings of the clock,
    polls with a time-out of at least 50 ms, reads of one record from [f]. *)
Definition loop_call (f : fd) (c : call) : Prop :=
  match c with
  | CMonotonic _ => True
  | CPoll timeout _ => 50 <= timeout
  | CRead f' n _ => f' = f /\ n = SAMPLE_SIZE
  | _ => False
  end.

(** The traces of a run of [wait_for_alert] that ended.  The setup (open,
    register, first reading of the clock) is outside the [try]: when one of
    its calls fails nothing more is called.  Once the loop is entered the
    last call closes the descriptor that was opened. *)
Inductive wait_trace (path : string) : list call -> Prop :=
| wt_open_failed e :
    wait_trace path [COpen path (Z.lor O_RDONLY O_NONBLOCK) (Raise e)]
| wt_register_failed f e :
    wait_trace path [COpen path (Z.lor O_RDONLY O_NONBLOCK) (Ok f);
                     CRegister f (Z.lor POLLIN POLLPRI) (Raise e)]
| wt_clock_failed f e :
    wait_trace path [COpen path (Z.lor O_RDONLY O_NONBLOCK) (Ok f);
                     CRegister f (Z.lor POLLIN POLLPRI) (Ok tt);
                     CMonotonic (Raise e)]
| wt_loop f t0 l rc :
    Forall (loop_call f) l -> terminated rc ->
    wait_trace path (COpen path (Z.lor O_RDONLY O_NONBLOCK) (Ok f) ::
                     CRegister f (Z.lor POLLIN POLLPRI) (Ok tt) ::
                     CMonotonic (Ok t0) :: l ++ [CClose f rc]).

(** A world in which [register] refuses every descriptor. *)
Definition refusing_Channel : Channel unit := {|
  os_open := fun _ _ => ret 3;
  poll_register := fun _ _ => raise OSError;
  poll_poll := fun _ => ret [];
  os_read := fun _ _ => ret [];
  os_close := fun _ => ret tt;
  monotonic := ret 0
|}.

(** ** The deadline and the poll time-out *)

(** The deadline is never less than half a second ahead, and it is the
    requested number of periods when they add up to more. *)
Lemma span_ns_floor sampling_us max_periods :
  HALF_SECOND <= span_ns sampling_us max_periods /\
  (500000 <= max_periods * sampling_us ->
   span_ns sampling_us max_periods = max_periods * sampling_us * 1000).
Proof.
  unfold span_ns, timeout_ns, HALF_SECOND, MICROS_PER_SEC.
  change (1000000000 / 1000000) with 1000. lia.
Qed.

Lemma remaining_ms_min deadline now : 50 <= remaining_ms deadline now.
Proof. unfold remaining_ms. lia. Qed.

(** The time-out never exceeds what is left by more than the 50 ms floor. *)
Lemma remaining_ms_max deadline now :
  remaining_ms deadline now * 1000000 <= Z.max (deadline - now) 50000000.
Proof.
  unfold remaining_ms. destruct (Z_lt_le_dec (deadline - now) 0).
  - pose proof (Z.quot_opp_l (-(deadline - now)) 1000000 ltac:(lia)) as Hq.
    rewrite Z.opp_involutive in Hq.
    pose proof (Z.quot_pos (-(deadline - now)) 1000000 ltac:(lia) ltac:(lia)). lia.
  - rewrite Z.quot_div_nonneg by lia.
    pose proof (Z.mul_div_le (deadline - now) 1000000 ltac:(lia)). lia.
Qed.

(** ** Soundness of the result *)

Section Sound.
Context {W : Type} `{Channel W}.

(** One iteration: the counter stays or grows by one; a [True] result
    carries the record just read, which has the alert flag; a [False]
    result carries no record. *)
Lemma wait_body_sound f deadline samples w :
  match wait_body f deadline samples w with
  | (Ok (Continue n), _) => samples <= n <= samples + 1
  | (Ok (Done (true, s, n)), _) =>
      exists smp, s = Some smp /\ has_alert (flags smp) = true /\ in_range smp /\ n = samples + 1
  | (Ok (Done (false, s, n)), _) => s = None /\ n = samples
  | _ => True
  end.
Proof.
  unfold wait_body, read_record, bind, ret, raise, try_except.
  repeat case_match; simplify_eq; try done; try lia.
  eexists. split; [done|]. split; [done|]. split; [by eapply unpack_in_range|done].
Qed.

(** The same, as the loop needs it: the counter is never negative and a
    result satisfies [result_sound]. *)
Lemma wait_body_result f deadline n w :
  0 <= n ->
  match wait_body f deadline n w with
  | (Ok (Continue n'), _) => 0 <= n'
  | (Ok (Done r), _) => result_sound r
  | _ => True
  end.
Proof.
  intros Hn. pose proof (wait_body_sound f deadline n w) as Hs.
  destruct (wait_body f deadline n w) as [[[n'|[[[] smp0] n']]|e'|] w'']; simpl; try done.
  - lia.
  - destruct Hs as (smp & ? & ? & ? & ?). exists smp.
    split; [done|]. split; [done|]. split; [done|lia].
  - destruct Hs. split; [done|lia].
Qed.

(** The invariant rule of the function: a property of the counter that
    every iteration keeps, from 0, gives a property of every result. *)
Lemma wait_for_alert_inv (I : Z -> Prop) (Q : wait_result -> Prop) :
  I 0 ->
  (forall f deadline n w, I n ->
     match wait_body f deadline n w with
     | (Ok (Continue n'), _) => I n'
     | (Ok (Done r), _) => Q r
     | _ => True
     end) ->
  forall fuel path sampling_us max_periods w,
    match (wait_for_alert fuel path sampling_us max_periods w).1 with
    | Ok r => Q r
    | _ => True
    end.
Proof.
  intros H0 Hbody fuel path sampling_us max_periods w. unfold wait_for_alert.
  mstep; [|done..]. rename a into f. mstep; [|done..]. mstep; [|done..]. rename a0 into t0.
  set (deadline := t0 + span_ns sampling_us max_periods).
  destruct (try_finally _ _ _) as [r w4] eqn:Hf. simpl.
  destruct r as [r|e|]; [|done..].
  apply try_finally_inv in Hf as (rb & sb & rc & Hb & Htb & _ & Htc & Hr); [|done].
  destruct rc; simplify_eq; try done.
  pose proof (iter_inv (wait_body f deadline) (fun n _ => I n)
    (fun r _ => match r with Ok r => Q r | _ => True end)) as Hinv.
  specialize (Hinv (fun n w => Hbody f deadline n w) fuel 0 s1 H0).
  rewrite Hb in Hinv. by apply Hinv.
Qed.

(** C4. Whatever the world does and whatever the fuel, a result
    [(True, sample, n)] of [wait_for_alert] carries a record whose alert
    flag is set, with fields within the format's ranges, and [n >= 1]; a
    result [(False, sample, n)] carries no record and [n >= 0]. *)
Theorem wait_for_alert_sound fuel path sampling_us max_periods w :
  match (wait_for_alert fuel path sampling_us max_periods w).1 with
  | Ok r => result_sound r
  | _ => True
  end.
Proof.
  apply (wait_for_alert_inv (fun n => 0 <= n) result_sound); [done|].
  intros f deadline n w'. apply wait_body_result.
Qed.

End Sound.

(** ** Termination *)

Section Termination.
Context {W : Type} `{ClockLaws W}.

(** Under the contract of the clock an iteration returns or raises, and an
    iteration that asks for another one started before the deadline and
    took at least a tick. *)
Lemma wait_body_clock f deadline samples w :
  match wait_body f deadline samples w with
  | (Ok (Continue _), w') => clock w < deadline /\ clock w + tick <= clock w'
  | (OutOfFuel, _) => False
  | _ => True
  end.
Proof.
  pose proof tick_pos.
  unfold wait_body, read_record, bind, ret, raise, try_except.
  repeat case_match; simplify_eq; clock_facts;
    rewrite ?negb_true_iff, ?negb_false_iff, ?Z.ltb_lt, ?Z.ltb_ge in *;
    try done; try lia.
Qed.

(** The loop ends within [span / tick] iterations and one. *)
Lemma wait_loop_terminates fuel f t0 span samples w :
  t0 + tick <= clock w -> (Z.to_nat (span / tick) < fuel)%nat ->
  terminated (iter fuel (wait_body f (t0 + span)) samples w).1.
Proof.
  intros Hw Hfuel.
  apply (iter_terminates _ (fun _ _ => True) (fun _ w => ticks_left tick (t0 + span) (clock w)));
    [|done|].
  - intros n w' _. pose proof (wait_body_clock f (t0 + span) n w') as Hb.
    destruct (wait_body f (t0 + span) n w') as [[[n'|r]|e|] w'']; try done.
    split; [done|]. apply ticks_left_decreases; [apply tick_pos|lia..].
  - pose proof (ticks_left_span tick t0 span (clock w) tick_pos Hw). lia.
Qed.

Lemma wait_for_alert_terminated fuel path sampling_us max_periods w :
  (Z.to_nat (span_ns sampling_us max_periods / tick) < fuel)%nat ->
  terminated (wait_for_alert fuel path sampling_us max_periods w).1.
Proof.
  intros Hfuel. unfold wait_for_alert.
  mstep; clock_facts; [|done|tauto]. mstep; clock_facts; [|done|tauto].
  mstep; clock_facts; [|done|tauto].
  apply try_finally_terminated; [|intros w'; apply os_close_clock].
  apply wait_loop_terminates; [lia|done].
Qed.

Lemma wait_for_alert_total fuel path sampling_us max_periods :
  (Z.to_nat (span_ns sampling_us max_periods / tick) < fuel)%nat ->
  total (wait_for_alert fuel path sampling_us max_periods).
Proof. intros Hfuel w. by apply wait_for_alert_terminated. Qed.

End Termination.

(** A run that terminated is the run with any larger fuel: the fuel is not
    observable in its result. *)
Lemma wait_for_alert_fuel_mono {W} `{Channel W} n m path sampling_us max_periods (w : W) :
  (n <= m)%nat -> terminated (wait_for_alert n path sampling_us max_periods w).1 ->
  wait_for_alert m path sampling_us max_periods w =
    wait_for_alert n path sampling_us max_periods w.
Proof.
  unfold wait_for_alert, bind. intros Hle.
  destruct (os_open _ _ _) as [[f| |] w1]; [|done..].
  destruct (poll_register _ _ _) as [[?| |] w2]; [|done..].
  destruct (monotonic _) as [[t0| |] w3]; [|done..].
  intros Ht. apply try_finally_fuel; [|done].
  intros Hb. by apply iter_fuel_mono.
Qed.

(** C5. In every world whose clock keeps its contract (each call returns,
    two readings differ by at least a tick), [wait_for_alert] returns or
    raises as soon as the fuel exceeds the number of ticks of the deadline's
    span, and more fuel gives the same run: the loop cannot run forever, and
    the bound of the model is not observable. *)
Theorem wait_for_alert_terminates {W} `{ClockLaws W} fuel path sampling_us max_periods (w : W) :
  (Z.to_nat (span_ns sampling_us max_periods / tick) < fuel)%nat ->
  terminated (wait_for_alert fuel path sampling_us max_periods w).1 /\
  forall fuel', (fuel <= fuel')%nat ->
    wait_for_alert fuel' path sampling_us max_periods w =
      wait_for_alert fuel path sampling_us max_periods w.
Proof.
  intros Hfuel. pose proof (wait_for_alert_terminated fuel path _ _ w Hfuel) as Ht.
  split; [done|]. intros fuel' Hle. by apply wait_for_alert_fuel_mono.
Qed.

Lemma wait_for_alert_terminates_witness :
  terminated (wait_for_alert 2 "/dev/nxp_simtemp" 100000 1 (IdleW 0)).1 /\
  forall fuel', (2 <= fuel')%nat ->
    wait_for_alert fuel' "/dev/nxp_simtemp" 100000 1 (IdleW 0) =
      wait_for_alert 2 "/dev/nxp_simtemp" 100000 1 (IdleW 0).
Proof. apply wait_for_alert_terminates. by vm_compute. Defined.

(** ** A channel that never delivers *)

Section QuietWorld.
Context {W : Type} `{Quiet W}.

Lemma wait_body_quiet f deadline samples w :
  match wait_body f deadline samples w with
  | (Ok (Continue n), _) => n = samples
  | (Ok (Done r), _) => r = (false, None, samples)
  | (Raise _, _) => False
  | (OutOfFuel, _) => True
  end.
Proof.
  unfold wait_body, read_record, bind, ret, raise, try_except.
  repeat case_match; simplify_eq; quiet_facts; quiet_done.
Qed.

(** When nothing ever arrives, a run that ends returns [(False, None, 0)]
    and no call raises. *)
Lemma wait_for_alert_quiet fuel path sampling_us max_periods w :
  terminated (wait_for_alert fuel path sampling_us max_periods w).1 ->
  (wait_for_alert fuel path sampling_us max_periods w).1 = Ok (false, None, 0).
Proof.
  unfold wait_for_alert.
  mstep; quiet_facts; [|quiet_done..]. destruct Hq as (? & [= <-] & Hreg).
  mstep; [|by rewrite (surjective_pairing (poll_register _ _ _)), Hreg in E..].
  mstep; quiet_facts; [|quiet_done..].
  set (deadline := a1 + span_ns sampling_us max_periods).
  destruct (try_finally _ _ _) as [r w4] eqn:Hf. simpl. intros Hr.
  apply try_finally_inv in Hf as (rb & sb & rc & Hb & Htb & Hc & _ & ->); [|done].
  quiet_facts. subst rc.
  assert (forall n w', n = 0 ->
    match wait_body a deadline n w' with
    | (Ok (Continue n'), _) => n' = 0
    | (Ok (Done r), _) => Ok r = Ok (false, None, 0)
    | (Raise e, _) => @Raise wait_result e = Ok (false, None, 0)
    | (OutOfFuel, _) => True
    end) as Hbody.
  { intros n w' ->. pose proof (wait_body_quiet a deadline 0 w').
    by repeat case_match; simplify_eq. }
  pose proof (iter_inv (wait_body a deadline) (fun n _ => n = 0)
    (fun r _ => r = Ok (false, None, 0)) Hbody fuel 0 s1 eq_refl) as Hinv.
  rewrite Hb in Hinv. by apply Hinv.
Qed.

End QuietWorld.

(** C20. The general form of [test_wait_for_alert_timeout]: in a world where
    the channel never becomes readable, no call fails and the clock keeps
    its contract, [wait_for_alert] returns [(False, None, 0)] once the fuel
    exceeds the number of ticks of the deadline's span. *)
Theorem wait_for_alert_times_out {W} `{!Channel W} `{!ClockLaws W} `{!Quiet W}
    fuel path sampling_us max_periods (w : W) :
  (Z.to_nat (span_ns sampling_us max_periods / tick) < fuel)%nat ->
  (wait_for_alert fuel path sampling_us max_periods w).1 = Ok (false, None, 0).
Proof. intros Hfuel. by apply wait_for_alert_quiet, wait_for_alert_terminated. Qed.

Lemma wait_for_alert_times_out_witness :
  (wait_for_alert 2 "/dev/nxp_simtemp" 100000 1 (IdleW 0)).1 = Ok (false, None, 0).
Proof. apply wait_for_alert_times_out. by vm_compute. Defined.

(** ** The order of the calls *)

Section Trace.
Context {W : Type} `{Channel W}.
Implicit Types t : Traced W.

Lemma monotonic_loop f : preserves (extends (loop_call f)) (monotonic (W := Traced W)).
Proof. by apply traced_extends. Qed.

Lemma poll_loop f timeout :
  50 <= timeout -> preserves (extends (loop_call f)) (poll_poll (W := Traced W) timeout).
Proof. intros. by apply traced_extends. Qed.

Lemma read_loop f : preserves (extends (loop_call f)) (os_read (W := Traced W) f SAMPLE_SIZE).
Proof. by apply traced_extends. Qed.

#[local] Hint Resolve monotonic_loop poll_loop read_loop remaining_ms_min : py.

(** The loop only reads the clock, polls and reads records of [f]. *)
Lemma wait_loop_extends fuel f deadline n :
  preserves (extends (loop_call f)) (iter fuel (wait_body (W := Traced W) f deadline) n).
Proof. unfold wait_body, read_record. preserve. Qed.

(** One iteration counts the reads that returned a whole record. *)
Lemma wait_body_count f deadline n t :
  match wait_body f deadline n t with
  | (Ok (Continue n'), t') | (Ok (Done (_, _, n')), t') =>
      n' - n = full_reads SAMPLE_SIZE (calls t') - full_reads SAMPLE_SIZE (calls t)
  | _ => True
  end.
Proof.
  unfold wait_body, read_record, bind, ret, raise, try_except.
  repeat case_match; simplify_eq; try done; trace_facts;
    rewrite ?full_reads_app, ?full_reads_read, ?full_reads_other by done;
    repeat case_match; simplify_eq; lia.
Qed.

Lemma wait_body_counted f deadline t0 n t :
  n = full_reads SAMPLE_SIZE (calls t) - full_reads SAMPLE_SIZE (calls t0) ->
  match wait_body f deadline n t with
  | (Ok (Continue n'), t') =>
      n' = full_reads SAMPLE_SIZE (calls t') - full_reads SAMPLE_SIZE (calls t0)
  | (Ok (Done r), t') =>
      match r with
      | (_, _, n') => n' = full_reads SAMPLE_SIZE (calls t') - full_reads SAMPLE_SIZE (calls t0)
      end
  | _ => True
  end.
Proof.
  intros Hn. pose proof (wait_body_count f deadline n t).
  destruct (wait_body f deadline n t) as [[[n'|[[b smp] n']]|e|] t']; try done; lia.
Qed.

(** C6. The calls of a run of [wait_for_alert] that ended, in any world:
    open, register and a reading of the clock; when all three succeeded,
    readings of the clock, polls of at least 50 ms and reads of one record
    from the opened descriptor, and as the last call the close of that
    descriptor, whether the loop returned or raised.  When a call of the
    setup failed nothing is called after it. *)
Theorem wait_for_alert_trace fuel path sampling_us max_periods t :
  terminated (wait_for_alert fuel path sampling_us max_periods t).1 ->
  exists l, calls (wait_for_alert fuel path sampling_us max_periods t).2 = (calls t ++ l)%list /\
    wait_trace path l.
Proof.
  unfold wait_for_alert.
  mstep; apply traced_inv in E; [|intros _; eexists; split; [done|constructor]|done].
  mstep; apply traced_inv in E0; [|intros _; eexists; split; [by rewrite E0, E, <- app_assoc|
    constructor]|done].
  destruct a0. mstep; apply traced_inv in E1; [|intros _; eexists; split;
    [by rewrite E1, E0, E, <- !app_assoc|constructor]|done].
  set (deadline := a0 + span_ns sampling_us max_periods).
  destruct (try_finally _ _ _) as [r t4] eqn:Hf. simpl. intros Hr.
  apply try_finally_inv in Hf as (rb & sb & rc & Hb & _ & Hc & Htc & _); [|done].
  apply traced_inv in Hc.
  destruct (wait_loop_extends fuel a deadline 0 s1) as (l & El & Hl). rewrite Hb in El.
  exists ([COpen path (Z.lor O_RDONLY O_NONBLOCK) (Ok a); CRegister a (Z.lor POLLIN POLLPRI) (Ok tt);
           CMonotonic (Ok a0)] ++ l ++ [CClose a rc])%list.
  split; [|by constructor].
  rewrite Hc. simpl in El. rewrite El, E1, E0, E. by rewrite <- !app_assoc.
Qed.


(** C15. The count [wait_for_alert] returns is the number of reads of the
    run that returned a whole record: short reads, reads that would block
    and empty polls are not counted, and every whole record is. *)
Theorem wait_for_alert_counts fuel path sampling_us max_periods t :
  match wait_for_alert fuel path sampling_us max_periods t with
  | (Ok (_, _, n), t') =>
      n = full_reads SAMPLE_SIZE (calls t') - full_reads SAMPLE_SIZE (calls t)
  | _ => True
  end.
Proof.
  unfold wait_for_alert.
  mstep; [|done..]. mstep; [|done..]. mstep; [|done..].
  set (deadline := a1 + span_ns sampling_us max_periods).
  destruct (try_finally _ _ _) as [[[[b smp] n]|e|] t4] eqn:Hf; [|done..].
  apply try_finally_inv in Hf as (rb & sb & rc & Hb & _ & Hc & Htc & Hr); [|done].
  pose proof (iter_inv (wait_body a deadline)
    (fun n s => n = full_reads SAMPLE_SIZE (calls s) - full_reads SAMPLE_SIZE (calls s1))
    (fun r s => match r with
                | Ok (_, _, n) => n = full_reads SAMPLE_SIZE (calls s) - full_reads SAMPLE_SIZE (calls s1)
                | _ => True
                end)) as Hinv.
  specialize (Hinv (wait_body_counted a deadline s1) fuel 0 s1 ltac:(cbv beta; lia)).
  rewrite Hb in Hinv. destruct rc; [|done..]. simplify_eq. specialize (Hinv ltac:(done)). simpl in Hinv.
  trace_facts. rewrite E1, E0, E in Hinv.
  rewrite ?full_reads_app, ?full_reads_other in * by done. lia.
Qed.

(** C25. The setup of [wait_for_alert] is outside its [try]: when the
    descriptor was opened and [register] raises, the exception leaves the
    function after these two calls and the descriptor is not closed. *)
Theorem wait_for_alert_leaks fuel path sampling_us max_periods t f w1 e w2 :
  os_open path (Z.lor O_RDONLY O_NONBLOCK) (inner t) = (Ok f, w1) ->
  poll_register f (Z.lor POLLIN POLLPRI) w1 = (Raise e, w2) ->
  wait_for_alert fuel path sampling_us max_periods t =
    (Raise e, Trace w2 (calls t ++ [COpen path (Z.lor O_RDONLY O_NONBLOCK) (Ok f);
                                    CRegister f (Z.lor POLLIN POLLPRI) (Raise e)])) /\
  closed (calls (wait_for_alert fuel path sampling_us max_periods t).2) = closed (calls t).
Proof.
  intros Ho Hr. unfold wait_for_alert.
  erewrite bind_run by (by apply traced_eq). cbv beta iota.
  erewrite bind_run by (by apply traced_eq).
  simpl. rewrite <- app_assoc. split; [done|]. by rewrite closed_app, app_nil_r.
Qed.

End Trace.

Lemma wait_for_alert_trace_witness :
  exists l,
    calls (wait_for_alert 2 "/dev/nxp_simtemp" 100000 1 (Trace (IdleW 0) [])).2 =
      (calls (Trace (IdleW 0) []) ++ l)%list /\
    wait_trace "/dev/nxp_simtemp" l.
Proof. apply wait_for_alert_trace. by vm_compute. Defined.

Lemma wait_for_alert_leaks_witness :
  @wait_for_alert _ (@Traced_Channel unit refusing_Channel) 1 "/dev/nxp_simtemp" 100000 1 (Trace tt []) =
    (Raise OSError, Trace tt [COpen "/dev/nxp_simtemp" (Z.lor O_RDONLY O_NONBLOCK) (Ok 3);
                              CRegister 3 (Z.lor POLLIN POLLPRI) (Raise OSError)]) /\
  closed (calls (@wait_for_alert _ (@Traced_Channel unit refusing_Channel) 1 "/dev/nxp_simtemp"
                   100000 1 (Trace tt [])).2) = closed [].
Proof. by apply (@wait_for_alert_leaks unit refusing_Channel 1 _ 100000 1 (Trace tt []) 3 tt OSError tt). Defined.
