(* ===== verification/SelfTest.v ===== *)
(** * SelfTest: the [test] command

    [test_command] (main.py, lines 180-223) takes a snapshot of the
    configuration, applies the overrides of the command line and the test
    threshold, waits for an alert, prints the verdict and returns 0 or 1.
    Its [finally] block writes the original threshold back, and the
    original sampling period and mode when they were overridden.

    The command is written against the interfaces [Device] and [Channel].
    The theorems are proved for every device that implements the store
    ([DeviceLaws]) and every world: whatever the data channel does and
    however the command ends (pass, fail, an exception of the channel, an
    exception of a write), the threshold read back is the one read before,
    and so is the whole snapshot when the original period is positive.
    Further: the frame of the command (which attributes it may write), the
    line it prints with the code it returns, and its termination when the
    clock advances. *)

From stdpp Require Import base strings list gmap.
From Stdlib Require Import ZArith Lia.
From S2P Require Import Prelude PyInt Sample Device Channel Fakes Args WaitAlert.

#[local] Open Scope string_scope.
#[local] Open Scope Z_scope.

(** ** Definitions *)

(** [changed_sampling] and [changed_mode]: whether the command line
    overrides the sampling period, the mode. *)
Definition changed_sampling (args : Namespace) : bool :=
  bool_decide (is_Some (args_sampling_ms args)) || bool_decide (is_Some (args_sampling_us args)).

Definition changed_mode (args : Namespace) : bool :=
  bool_decide (is_Some (args_mode args)).

Section Command.
Context {D W : Type} `{Device D} `{Channel W}.

(** The sampling period the deadline is computed from. *)
Definition effective_sampling_us (args : Namespace) (original : SimtempConfig) : Z :=
  match args_sampling_us args with
  | Some us => us
  | None =>
      match args_sampling_ms args with
      | Some ms => ms * 1000
      | None => sampling_us original
      end
  end.

(** The body of the [try] statement. *)
Definition test_body (fuel : nat) (args : Namespace) (original : SimtempConfig)
    : M (St D W) Z :=
  on_dev (write_sampling (args_sampling_us args) (args_sampling_ms args)) ;;
  match args_mode args with
  | Some m => on_dev (dev_write "mode" m)
  | None => ret tt
  end ;;
  let test_threshold := default DEFAULT_TEST_THRESHOLD_MC (args_threshold_mc args) in
  on_dev (dev_write "threshold_mC" (py_str test_threshold)) ;;
  let effective := effective_sampling_us args original in
  s <- get ;;
  res <- on_world (wait_for_alert fuel (dev_char_device (st_dev s)) effective
                     (args_max_periods args)) ;;
  match res with
  | (true, Some smp, count) =>
      print (PassLine count (timestamp_ns smp) (temp_mc smp) (flags smp)) ;; ret 0
  | _ =>
      print (FailLine (args_max_periods args) effective) ;; ret 1
  end.

(** The [finally] block. *)
Definition test_restore (args : Namespace) (original : SimtempConfig) : M (St D W) unit :=
  on_dev (dev_write "threshold_mC" (py_str (threshold_mc original))) ;;
  (if changed_sampling args
   then on_dev (write_sampling (Some (sampling_us original)) None)
   else ret tt) ;;
  (if changed_mode args then on_dev (dev_write "mode" (mode original)) else ret tt).

Definition test_command (fuel : nat) (args : Namespace) : M (St D W) Z :=
  original <- on_dev dev_snapshot ;;
  try_finally (test_body fuel args original) (test_restore args original).

End Command.

(** ** A run used as an example

    The command line [test --sampling-ms 5 --mode ramp --max-periods 1] on
    the device with both sampling attributes, in the world whose channel
    never becomes readable. *)
Definition example_args : Namespace :=
  Args None None (Some 5) None None (Some "ramp") 1.

Definition example_state : St SimtempDevice IdleWorld := State dev_both (IdleW 0) [].

(** ** The specification of the restoration *)

(** Sequencing of store operations: the second runs when the first
    succeeded. *)
Definition store_then (r : outcome unit * store) (k : store -> outcome unit * store)
    : outcome unit * store :=
  match r with
  | (Ok _, st) => k st
  | _ => r
  end.

(** What the [finally] block does to the store. *)
Definition store_restore (args : Namespace) (original : SimtempConfig) (st : store)
    : outcome unit * store :=
  store_then (store_write "threshold_mC" (py_str (threshold_mc original)) st) (fun st =>
  store_then (if changed_sampling args
              then store_write_sampling (Some (sampling_us original)) None st
              else (Ok tt, st)) (fun st =>
  if changed_mode args then store_write "mode" (mode original) st else (Ok tt, st))).

(** The attributes the command never writes: all but the threshold, the two
    sampling attributes when the period is overridden, and the mode when it
    is overridden. *)
Definition untouched (args : Namespace) (n : string) : Prop :=
  n <> "threshold_mC" /\
  (changed_sampling args = true -> n <> "sampling_us" /\ n <> "sampling_ms") /\
  (changed_mode args = true -> n <> "mode").

(** A computation on the state of a command implements an operation of the
    store. *)
Definition refines {D W} `{DeviceLaws D} (m : M (St D W) unit)
    (f : store -> outcome unit * store) : Prop :=
  forall s, ((m s).1, dev_abs (st_dev (m s).2)) = f (dev_abs (st_dev s)).

(** The frame of the command on the whole state. *)
Definition st_agree {D W} `{DeviceLaws D} (keep : string -> Prop) (s s' : St D W) : Prop :=
  dev_agree keep (st_dev s) (st_dev s').

(** What a line printed with return code [rc] says. *)
Definition verdict_line (args : Namespace) (rc : Z) (l : line) : Prop :=
  match l with
  | PassLine count ts temp fl =>
      rc = 0 /\ 1 <= count /\ has_alert fl = true /\ in_range (Sample ts temp fl)
  | FailLine periods _ => rc = 1 /\ periods = args_max_periods args
  | SampleLine _ _ _ _ => False
  end.

(** ** The frame: which attributes the command writes *)

Section Frame.
Context {D W : Type} `{DeviceLaws D} `{Channel W}.
Implicit Types (s : St D W) (keep : string -> Prop).

#[export] Instance st_agree_preorder keep : PreOrder (st_agree (W := W) keep).
Proof.
  split.
  - intros s. unfold st_agree. reflexivity.
  - intros s1 s2 s3. unfold st_agree. apply transitivity.
Qed.

Lemma on_dev_preserves {A} keep (m : M D A) :
  preserves (dev_agree keep) m -> preserves (st_agree (W := W) keep) (on_dev m).
Proof. intros Hm s. rewrite on_dev_run. apply Hm. Qed.

Lemma on_world_preserves {A} keep (m : M W A) : preserves (st_agree (D := D) keep) (on_world m).
Proof. intros s. rewrite on_world_run. unfold st_agree. simpl. reflexivity. Qed.

Lemma print_preserves keep l : preserves (st_agree (W := W) keep) (print l).
Proof. intros s. unfold st_agree. simpl. reflexivity. Qed.

Lemma untouched_threshold args : ~ untouched args "threshold_mC".
Proof. by intros [? _]. Qed.

Lemma untouched_sampling args n :
  changed_sampling args = true -> n = "sampling_us" \/ n = "sampling_ms" -> ~ untouched args n.
Proof. intros Hc Hn (_ & Hs & _). destruct (Hs Hc), Hn; congruence. Qed.

Lemma untouched_sampling_us args :
  changed_sampling args = true -> ~ untouched args "sampling_us".
Proof. intros Hc. apply untouched_sampling; auto. Qed.

Lemma untouched_sampling_ms args :
  changed_sampling args = true -> ~ untouched args "sampling_ms".
Proof. intros Hc. apply untouched_sampling; auto. Qed.

Lemma untouched_mode args : changed_mode args = true -> ~ untouched args "mode".
Proof. intros Hc (_ & _ & Hm). by destruct (Hm Hc). Qed.

(** The first call of the body: a write of the period when one is given. *)
Lemma args_write_sampling_preserves args :
  preserves (dev_agree (untouched args))
    (write_sampling (args_sampling_us args) (args_sampling_ms args)).
Proof.
  destruct (changed_sampling args) eqn:Hc.
  - apply write_sampling_preserves; apply untouched_sampling; auto.
  - unfold changed_sampling in Hc. apply orb_false_elim in Hc as [Hms Hus].
    apply bool_decide_eq_false in Hms, Hus.
    destruct (args_sampling_us args), (args_sampling_ms args);
      try (by exfalso; eauto). intros d. by rewrite write_sampling_skip.
Qed.

Lemma args_write_mode_preserves args m :
  args_mode args = Some m -> preserves (dev_agree (untouched args)) (dev_write "mode" m).
Proof.
  intros Hm. apply dev_write_preserves, untouched_mode.
  unfold changed_mode. rewrite Hm. by apply bool_decide_eq_true_2.
Qed.

#[local] Hint Resolve on_dev_preserves on_world_preserves print_preserves
  args_write_sampling_preserves args_write_mode_preserves dev_write_preserves
  write_sampling_preserves untouched_threshold untouched_sampling_us untouched_sampling_ms
  untouched_mode : py.

Lemma test_body_preserves fuel args original :
  preserves (st_agree (untouched args)) (test_body (W := W) fuel args original).
Proof. unfold test_body. preserve. Qed.

Lemma test_restore_preserves args original :
  preserves (st_agree (untouched args)) (test_restore (W := W) args original).
Proof. unfold test_restore. preserve. Qed.

(** C19. Whatever the data channel does and however the command ends,
    [test_command] keeps every attribute of the device, leaves the text of
    every attribute it has no reason to write as it was (all but the
    threshold, the sampling attributes under a sampling override, the mode
    under a mode override), and keeps the data channel's path. *)
Theorem test_command_frame fuel args s :
  st_agree (untouched args) s (test_command fuel args s).2.
Proof.
  revert s. change (preserves (st_agree (untouched args)) (test_command (W := W) fuel args)).
  unfold test_command. preserve;
    [apply on_dev_preserves, dev_snapshot_preserves, _
    |apply test_body_preserves|apply test_restore_preserves].
Qed.

End Frame.

(** ** The restoration on the store *)

Section StoreRestore.
Context (args : Namespace) (original : SimtempConfig) (st0 : store).
Context (Hsnap : store_snapshot st0 = Ok original) (Hpos : 0 < sampling_us original).

Let U := untouched args.

(** First step: the threshold is written back. *)
Lemma restore_threshold_step st :
  agree U st0 st ->
  exists st1, store_write "threshold_mC" (py_str (threshold_mc original)) st = (Ok tt, st1) /\
    agree U st0 st1 /\ store_int "threshold_mC" st1 = Ok (threshold_mc original).
Proof.
  intros Ha. apply store_snapshot_Ok in Hsnap as (_ & Hth & _).
  rewrite store_write_Ok by by eapply store_int_writable.
  eexists. split; [done|]. split; [|apply store_int_put_eq].
  etrans; [done|]. apply agree_put. by intros [? _].
Qed.

(** Second step: the period is written back when it was overridden, and is
    untouched otherwise. *)
Lemma restore_sampling_step st1 :
  agree U st0 st1 -> store_int "threshold_mC" st1 = Ok (threshold_mc original) ->
  exists st2,
    (if changed_sampling args
     then store_write_sampling (Some (sampling_us original)) None st1
     else (Ok tt, st1)) = (Ok tt, st2) /\
    agree U st0 st2 /\ store_int "threshold_mC" st2 = Ok (threshold_mc original) /\
    store_sampling_us st2 = Ok (sampling_us original).
Proof.
  intros Ha Hth. pose proof Hsnap as (Hus & _ & _)%store_snapshot_Ok.
  destruct (changed_sampling args) eqn:Hc.
  - destruct (store_write_sampling_restores U st0 st1 _ Ha Hus Hpos) as (st2 & -> & Hus2 & Ha2).
    exists st2. split; [done|]. destruct Ha2 as (Hc2 & Hp2 & Hk2).
    split; [|split; [|done]].
    + etrans; [done|]. split; [done|]. split; [done|].
      intros n (_ & Hn & _). apply Hk2. by apply Hn.
    + rewrite <- Hth. apply store_int_same, Hk2. done.
  - exists st1. split; [done|]. split; [done|]. split; [done|].
    rewrite <- Hus. destruct Ha as (_ & _ & Hk).
    apply store_sampling_us_same; apply Hk; (split; [done|]; split; [by rewrite Hc|done]).
Qed.

(** Third step: the mode is written back when it was overridden, and is
    untouched otherwise. *)
Lemma restore_mode_step st2 :
  agree U st0 st2 -> store_int "threshold_mC" st2 = Ok (threshold_mc original) ->
  store_sampling_us st2 = Ok (sampling_us original) ->
  exists st3,
    (if changed_mode args then store_write "mode" (mode original) st2 else (Ok tt, st2))
      = (Ok tt, st3) /\
    agree U st0 st3 /\ store_snapshot st3 = Ok original.
Proof.
  intros Ha Hth Hus. pose proof Hsnap as (_ & _ & Hm)%store_snapshot_Ok.
  destruct (changed_mode args) eqn:Hc.
  - rewrite store_write_Ok by by eapply store_str_writable.
    eexists. split; [done|]. split.
    + etrans; [done|]. apply agree_put. intros (_ & _ & Hn). by destruct (Hn Hc).
    + apply store_snapshot_Ok.
      rewrite store_sampling_us_put_ne, store_int_put_ne by done.
      split; [done|]. split; [done|].
      unfold store_str in Hm. destruct (st_attrs st0 !! "mode") as [text|]; [|done].
      injection Hm as <-. apply store_str_put_eq.
  - exists st2. split; [done|]. split; [done|]. apply store_snapshot_Ok.
    split; [done|]. split; [done|]. rewrite <- Hm. destruct Ha as (_ & _ & Hk).
    apply store_str_same, Hk. split; [done|]. split; [done|]. by rewrite Hc.
Qed.

(** The [finally] block, run on any store the body can have left, succeeds
    and leaves a store whose snapshot is the original one. *)
Lemma store_restore_run st :
  agree U st0 st ->
  exists st', store_restore args original st = (Ok tt, st') /\
    agree U st0 st' /\ store_snapshot st' = Ok original.
Proof.
  intros Ha. unfold store_restore.
  destruct (restore_threshold_step st Ha) as (st1 & -> & Ha1 & Hth1). cbn [store_then].
  destruct (restore_sampling_step st1 Ha1 Hth1) as (st2 & -> & Ha2 & Hth2 & Hus2).
  cbn [store_then].
  destruct (restore_mode_step st2 Ha2 Hth2 Hus2) as (st3 & -> & Ha3 & Hs3). eauto.
Qed.

End StoreRestore.

(** The last two steps of the block write nothing but the sampling
    attributes and the mode, whether they succeed or not. *)
Lemma restore_tail_agree (keep : string -> Prop) args original st :
  ~ keep "sampling_us" -> ~ keep "sampling_ms" -> ~ keep "mode" ->
  agree keep st
    (store_then (if changed_sampling args
                 then store_write_sampling (Some (sampling_us original)) None st
                 else (Ok tt, st))
       (fun st => if changed_mode args then store_write "mode" (mode original) st
                  else (Ok tt, st))).2.
Proof.
  intros Hus Hms Hm.
  assert (forall st1, agree keep st1
    (if changed_mode args then store_write "mode" (mode original) st1 else (Ok tt, st1)).2)
    as Hmode by (intros st1; destruct (changed_mode args);
                 [by apply store_write_agree|reflexivity]).
  destruct (changed_sampling args); [|apply Hmode].
  pose proof (store_write_sampling_agree keep (Some (sampling_us original)) None st Hus Hms).
  destruct (store_write_sampling _ _ st) as [[[]|e|] st1]; simpl in *; try done.
  etrans; [done|]. apply Hmode.
Qed.

(** The threshold alone needs no assumption on the period: once it can be
    written, the block leaves it at the original value, even when a later
    step of the block fails. *)
Lemma store_restore_threshold args original st :
  writable st "threshold_mC" = true ->
  store_int "threshold_mC" (store_restore args original st).2 = Ok (threshold_mc original).
Proof.
  intros Hw. unfold store_restore. rewrite store_write_Ok by done. cbn [store_then].
  rewrite <- (store_int_put_eq st "threshold_mC" (threshold_mc original)).
  apply store_int_same.
  by apply (restore_tail_agree (fun n => n = "threshold_mC")).
Qed.

(** ** The [finally] block implements the restoration *)

Section Restore.
Context {D W : Type} `{DeviceLaws D} `{Channel W}.
Implicit Types (s : St D W).

Lemma refines_ret : refines (D := D) (W := W) (ret tt) (fun st => (Ok tt, st)).
Proof. by intros s. Qed.

Lemma refines_write name value :
  refines (W := W) (on_dev (dev_write name value)) (store_write name value).
Proof. intros s. rewrite on_dev_run. simpl. apply dev_write_abs. Qed.

Lemma refines_write_sampling us ms :
  refines (W := W) (on_dev (write_sampling us ms)) (store_write_sampling us ms).
Proof. intros s. rewrite on_dev_run. simpl. apply write_sampling_abs. Qed.

Lemma refines_seq (m k : M (St D W) unit) f g :
  refines m f -> refines k g -> refines (m ;; k) (fun st => store_then (f st) g).
Proof.
  intros Hm Hk s. specialize (Hm s). unfold bind.
  destruct (m s) as [[[]|e|] s1]; simpl in *; rewrite <- Hm; [apply Hk|done..].
Qed.

Lemma refines_if (b : bool) (m1 m2 : M (St D W) unit) f1 f2 :
  refines m1 f1 -> refines m2 f2 ->
  refines (if b then m1 else m2) (fun st => if b then f1 st else f2 st).
Proof. by destruct b. Qed.

Lemma test_restore_refines args original :
  refines (W := W) (test_restore args original) (store_restore args original).
Proof.
  unfold test_restore, store_restore.
  apply refines_seq; [apply refines_write|].
  apply refines_seq; apply refines_if;
    auto using refines_write, refines_write_sampling, refines_ret.
Qed.

(** The start of the command: the snapshot is read from the store and
    leaves the state as it was. *)
Lemma test_command_run fuel args s :
  test_command fuel args s =
    match store_snapshot (dev_abs (st_dev s)) with
    | Ok original => try_finally (test_body fuel args original) (test_restore args original) s
    | Raise e => (Raise e, s)
    | OutOfFuel => (OutOfFuel, s)
    end.
Proof.
  unfold test_command. erewrite bind_run by (rewrite on_dev_run, dev_snapshot_abs; reflexivity).
  simpl. by destruct s.
Qed.

(** C1. For every run of the self-test that ends, by a pass, a fail or an
    exception, on any device that implements the store and in any world, the
    threshold read from the device afterwards is the threshold read before
    the run. *)
Theorem test_command_restores_threshold fuel args s :
  terminated (test_command fuel args s).1 ->
  store_int "threshold_mC" (dev_abs (st_dev (test_command fuel args s).2)) =
    store_int "threshold_mC" (dev_abs (st_dev s)).
Proof.
  rewrite test_command_run.
  destruct (store_snapshot _) as [original|e|] eqn:Hsnap; [|done..].
  intros Ht. destruct (try_finally _ _ s) as [r s'] eqn:Hf.
  apply try_finally_inv in Hf as (rb & sb & rc & Hb & _ & Hc & _ & _); [|done].
  pose proof (test_body_preserves fuel args original s) as [Ha _]. rewrite Hb in Ha.
  apply store_snapshot_Ok in Hsnap as (_ & Hth & _). rewrite Hth.
  pose proof (test_restore_refines args original sb) as Hr. rewrite Hc in Hr. simpl in *.
  replace (dev_abs (st_dev s')) with (store_restore args original (dev_abs (st_dev sb))).2
    by by rewrite <- Hr.
  apply store_restore_threshold. by eapply store_int_writable.
Qed.

(** C2. When the original sampling period is positive, a run of the
    self-test that ends leaves a device whose snapshot is the snapshot taken
    at its start: threshold, sampling period and mode are restored, after a
    pass, a fail or an exception, and the restoration itself does not
    fail. *)
Theorem test_command_restores_snapshot fuel args s original :
  store_snapshot (dev_abs (st_dev s)) = Ok original -> 0 < sampling_us original ->
  terminated (test_command fuel args s).1 ->
  store_snapshot (dev_abs (st_dev (test_command fuel args s).2)) = Ok original /\
  (test_command fuel args s).1 = (test_body fuel args original s).1.
Proof.
  intros Hsnap Hpos. rewrite test_command_run, Hsnap.
  intros Ht. destruct (try_finally _ _ s) as [r s'] eqn:Hf.
  apply try_finally_inv in Hf as (rb & sb & rc & Hb & _ & Hc & _ & Hr); [|done].
  pose proof (test_body_preserves fuel args original s) as [Ha _]. rewrite Hb in Ha.
  simpl in Ha.
  destruct (store_restore_run args original _ Hsnap Hpos _ Ha) as (st' & Hrun & _ & Hs').
  pose proof (test_restore_refines args original sb) as Href.
  rewrite Hc, Hrun in Href. injection Href as -> <-. simpl. by rewrite Hb.
Qed.

End Restore.

Lemma test_command_restores_threshold_witness :
  store_int "threshold_mC" (dev_abs (st_dev (test_command 4 example_args example_state).2)) =
    store_int "threshold_mC" (dev_abs (st_dev example_state)).
Proof. apply test_command_restores_threshold. by vm_compute. Defined.

Lemma test_command_restores_snapshot_witness :
  store_snapshot (dev_abs (st_dev (test_command 4 example_args example_state).2)) =
    Ok (Config 100000 45000 "normal") /\
  (test_command 4 example_args example_state).1 =
    (test_body 4 example_args (Config 100000 45000 "normal") example_state).1.
Proof. apply test_command_restores_snapshot; by vm_compute. Defined.

(** ** The verdict *)

Section Verdict.
Context {D W : Type} `{Device D} `{Channel W}.
Implicit Types (s : St D W).

Lemma test_restore_same_out args original :
  preserves (same_out (W := W)) (test_restore args original).
Proof. unfold test_restore. preserve. Qed.

(** The last step of the body: one line, and the return code it stands
    for. *)
Lemma test_body_verdict fuel args original s :
  match test_body fuel args original s with
  | (Ok rc, s') => exists l, st_out s' = (st_out s ++ [l])%list /\ verdict_line args rc l
  | _ => True
  end.
Proof.
  unfold test_body.
  out_step. out_step. out_step. rewrite bind_run with (r := Ok s2) (s' := s2) by done.
  pose proof (wait_for_alert_inv (fun n => 0 <= n) result_sound ltac:(done)
    (fun f deadline n w => wait_body_result f deadline n w) fuel
    (dev_char_device (st_dev s2)) (effective_sampling_us args original) (args_max_periods args)
    (st_world s2)) as Hres.
  out_step. rewrite on_world_run in E2. injection E2 as E2 _. rewrite E2 in Hres.
  unfold same_out in *.
  destruct a2 as [[[] [smp|]] count]; simpl in *;
    eexists; (split; [by rewrite Ho2, Ho1, Ho0, Ho|]); simpl; try done.
  destruct Hres as (? & [= <-] & ? & ? & ?). by destruct smp.
Qed.

(** A run of the self-test that returns printed exactly one line and
    returns the code that line stands for: 0 with a PASS line, whose record
    has the alert flag and was counted; 1 with a FAIL line.  The [finally]
    block prints nothing. *)
Lemma test_command_verdict fuel args s :
  match test_command fuel args s with
  | (Ok rc, s') => exists l, st_out s' = (st_out s ++ [l])%list /\ verdict_line args rc l
  | _ => True
  end.
Proof.
  unfold test_command. out_step.
  destruct (try_finally _ _ s0) as [[rc|e|] s'] eqn:Hf; [|done..].
  apply try_finally_inv in Hf as (rb & sb & rc' & Hb & _ & Hc & Htc & Hr); [|done].
  pose proof (test_body_verdict fuel args a s0) as Hv. rewrite Hb in Hv.
  pose proof (test_restore_same_out args a sb) as Ho'. rewrite Hc in Ho'.
  unfold same_out in *. simpl in Ho'. destruct rc'; [|done..]. simplify_eq.
  by rewrite Ho', <- Ho.
Qed.

End Verdict.

(** ** Termination *)

Section Terminates.
Context {D W : Type} `{DeviceLaws D} `{ClockLaws W}.
Implicit Types (s : St D W).

#[local] Hint Resolve wait_for_alert_total : py.

Lemma test_body_total fuel args original :
  (Z.to_nat (span_ns (effective_sampling_us args original) (args_max_periods args) / tick)
     < fuel)%nat ->
  total (test_body (D := D) (W := W) fuel args original).
Proof. intros Hfuel. unfold test_body. totality. Qed.

Lemma test_restore_total args original :
  total (test_restore (D := D) (W := W) args original).
Proof. unfold test_restore. totality. Qed.

(** C3. On a device that implements the store and in a world whose clock
    keeps its contract, the self-test returns or raises as soon as the fuel
    exceeds the number of ticks of its deadline's span, computed from the
    snapshot the run starts with: the command cannot hang, so the
    restoration of the configuration is reached. *)
Theorem test_command_terminates fuel args s :
  (forall original, store_snapshot (dev_abs (st_dev s)) = Ok original ->
     (Z.to_nat (span_ns (effective_sampling_us args original) (args_max_periods args) / tick)
        < fuel)%nat) ->
  terminated (test_command fuel args s).1.
Proof.
  intros Hfuel. rewrite test_command_run.
  destruct (store_snapshot _) as [original|e|] eqn:Hsnap; [|done|].
  - apply try_finally_terminated; [by apply test_body_total, Hfuel|apply test_restore_total].
  - pose proof (dev_snapshot_total (st_dev s)) as Ht. rewrite dev_snapshot_abs, Hsnap in Ht. done.
Qed.

End Terminates.

Lemma test_command_terminates_witness : terminated (test_command 4 example_args example_state).1.
Proof.
  apply test_command_terminates. intros original Hs. vm_compute in Hs.
  injection Hs as <-. vm_compute. lia.
Defined.
