(* ===== verification/Stream.v ===== *)
(** * Stream: the [stream] command

    [stream_command] (main.py, lines 101-147) writes the configuration given
    on the command line, opens the character device and prints every record
    it reads, until the number of records given by [--count] has been
    printed, the time given by [--duration] has passed, or the user
    interrupts it.  [KeyboardInterrupt] is a normal end; the descriptor is
    closed in a [finally] block; the command returns 0.

    The device is passed in constructed.  [stream_configure] is the three
    writes, [stream_deadline] the optional deadline, [stream_body] one
    iteration of [while True], [stream_loop] the [try] statement and
    [stream_command] the whole function. *)

From stdpp Require Import base strings list.
From Stdlib Require Import ZArith Lia.
From coqutil Require Import Byte.
From S2P Require Import Prelude PyInt Sample Device Channel Fakes Args WaitAlert.

#[local] Open Scope string_scope.
#[local] Open Scope Z_scope.

(** ** Definitions *)

(** [except KeyboardInterrupt]. *)
Definition is_KeyboardInterrupt (e : exn) : bool := bool_decide (e = KeyboardInterrupt).

(** [1 if flags & SIMTEMP_FLAG_ALERT else 0]. *)
Definition alert_bit (fl : Z) : Z := if has_alert fl then 1 else 0.

(** The line printed for a record. *)
Definition sample_line (smp : sample) : line :=
  SampleLine (timestamp_ns smp) (temp_mc smp) (alert_bit (flags smp)) (flags smp).

(** [count_limit is not None and samples >= count_limit]. *)
Definition count_reached (count_limit : option Z) (samples : Z) : bool :=
  match count_limit with
  | Some n => n <=? samples
  | None => false
  end.

Section Command.
Context {D W : Type} `{Device D} `{Channel W}.

(** The writes of the configuration given on the command line. *)
Definition stream_configure (args : Namespace) : M (St D W) unit :=
  on_dev (write_sampling (args_sampling_us args) (args_sampling_ms args)) ;;
  match args_threshold_mc args with
  | Some th => on_dev (dev_write "threshold_mC" (py_str th))
  | None => ret tt
  end ;;
  match args_mode args with
  | Some m => on_dev (dev_write "mode" m)
  | None => ret tt
  end.

(** [time.monotonic() + args.duration if args.duration else None]: a
    duration of 0 is no duration, and the clock is read only when there is
    one. *)
Definition stream_deadline (args : Namespace) : M (St D W) (option Z) :=
  match args_duration args with
  | Some d =>
      if d =? 0 then ret None
      else now <- on_world monotonic ;; ret (Some (now + d))
  | None => ret None
  end.

(** [deadline is not None and time.monotonic() >= deadline]. *)
Definition deadline_passed (deadline : option Z) : M (St D W) bool :=
  match deadline with
  | Some dl => now <- on_world monotonic ;; ret (dl <=? now)
  | None => ret false
  end.

(** One iteration of [while True]. *)
Definition stream_body (f : fd) (count_limit deadline : option Z) (samples : Z)
    : M (St D W) (ctl Z unit) :=
  passed <- deadline_passed deadline ;;
  if passed then ret (Done tt)
  else if count_reached count_limit samples then ret (Done tt)
  else
    events <- on_world (poll_poll DEFAULT_POLL_TIMEOUT_MS) ;;
    match events with
    | [] => ret (Continue samples)
    | _ :: _ =>
        data <- on_world (read_record f) ;;
        match data with
        | None => ret (Continue samples)
        | Some data =>
            if (length data <? SAMPLE_SIZE)%nat then ret (Continue samples)
            else
              match unpack data with
              | None => raise StructError
              | Some smp => print (sample_line smp) ;; ret (Continue (samples + 1))
              end
        end
    end.

(** The [try] statement: the loop, [except KeyboardInterrupt: pass], and
    [finally: os.close(fd)]. *)
Definition stream_loop (fuel : nat) (f : fd) (count_limit deadline : option Z)
    : M (St D W) unit :=
  try_finally
    (try_except (iter fuel (stream_body f count_limit deadline) 0)
       is_KeyboardInterrupt (fun _ => ret tt))
    (on_world (os_close f)).

(** From [os.open] to [return 0]. *)
Definition stream_session (fuel : nat) (count_limit deadline : option Z) : M (St D W) Z :=
  s <- get ;;
  f <- on_world (os_open (dev_char_device (st_dev s)) (Z.lor O_RDONLY O_NONBLOCK)) ;;
  on_world (poll_register f (Z.lor POLLIN POLLPRI)) ;;
  stream_loop fuel f count_limit deadline ;;
  ret 0.

Definition stream_command (fuel : nat) (args : Namespace) : M (St D W) Z :=
  stream_configure args ;;
  let count_limit := args_count args in
  deadline <- stream_deadline args ;;
  stream_session fuel count_limit deadline.

End Command.

(** [stream --count 2] and the namespace with a duration. *)
Definition count_args (n : Z) : Namespace := Args (Some n) None None None None None DEFAULT_TEST_MAX_PERIODS.

Definition duration_args (d : Z) : Namespace :=
  Args None (Some d) None None None None DEFAULT_TEST_MAX_PERIODS.

(** A state for examples: the fake device, and the fake world with three
    records without the alert flag to read. *)
Definition three_records : St FakeDevice FakeWorld :=
  State (FakeDev []) (fake_world (replicate 3 (default [] (pack (Sample 7 25000 0))))) [].

(** The lines of [ls] are lines of records, each with the alert bit of its
    flags. *)
Definition sample_lines (ls : list line) : Prop :=
  Forall (fun l => exists smp, in_range smp /\ l = sample_line smp) ls.

(** The output grew by lines of records. *)
Definition prints_samples {D W} (s s' : St D W) : Prop :=
  exists ls, st_out s' = (st_out s ++ ls)%list /\ sample_lines ls.

(** The calls the loop makes on descriptor [f]. *)
Definition stream_call (f : fd) (c : call) : Prop :=
  match c with
  | CMonotonic _ => True
  | CPoll timeout _ => timeout = DEFAULT_POLL_TIMEOUT_MS
  | CRead f' n _ => f' = f /\ n = SAMPLE_SIZE
  | _ => False
  end.

(** The calls of a session that ended, with its outcome.  [os.open] and
    [register] are outside the [try]: when one of them raises nothing more
    is called.  Once the loop is entered the last call closes the
    descriptor; the session returns 0 unless an exception other than
    [KeyboardInterrupt] left the loop or [os.close] raised. *)
Inductive session_trace : list call -> outcome Z -> Prop :=
| st_open_failed path e :
    session_trace [COpen path (Z.lor O_RDONLY O_NONBLOCK) (Raise e)] (Raise e)
| st_register_failed path f e :
    session_trace [COpen path (Z.lor O_RDONLY O_NONBLOCK) (Ok f);
                   CRegister f (Z.lor POLLIN POLLPRI) (Raise e)] (Raise e)
| st_closed path f l rc r :
    Forall (stream_call f) l -> terminated rc ->
    r = Ok 0 \/ (exists e, r = Raise e /\ (rc = Ok tt -> e <> KeyboardInterrupt)) ->
    session_trace (COpen path (Z.lor O_RDONLY O_NONBLOCK) (Ok f) ::
                   CRegister f (Z.lor POLLIN POLLPRI) (Ok tt) :: l ++ [CClose f rc]) r.

(** The world of [s'] is the world of [s] after more calls, all in [P]. *)
Definition st_extends {D W} (P : call -> Prop) (s s' : St D (Traced W)) : Prop :=
  extends P (st_world s) (st_world s').

(** The clock of the world of [s'] is not behind that of [s]. *)
Definition st_clock_le {D W} `{ClockLaws W} (s s' : St D W) : Prop :=
  clock_le (st_world s) (st_world s').

(** ** What is printed *)

Section Output.
Context {D W : Type} `{Device D} `{Channel W}.
Implicit Types (s : St D W).

#[export] Instance prints_samples_preorder : PreOrder (prints_samples (D := D) (W := W)).
Proof.
  split.
  - intros s. exists []. split; [by rewrite app_nil_r|constructor].
  - intros s1 s2 s3 (l1 & E1 & H1) (l2 & E2 & H2). exists (l1 ++ l2)%list.
    split; [by rewrite E2, E1, app_assoc|by apply Forall_app].
Qed.

(** A computation that prints nothing. *)
Lemma same_out_prints {A} (m : M (St D W) A) :
  preserves same_out m -> preserves prints_samples m.
Proof. intros Hm s. exists []. split; [by rewrite app_nil_r, (Hm s)|constructor]. Qed.

Lemma on_dev_prints {A} (m : M D A) : preserves (prints_samples (W := W)) (on_dev m).
Proof. apply same_out_prints, on_dev_same_out. Qed.

Lemma on_world_prints {A} (m : M W A) : preserves (prints_samples (D := D)) (on_world m).
Proof. apply same_out_prints, on_world_same_out. Qed.

(** The line of a decoded record. *)
Lemma print_sample_prints data smp :
  unpack data = Some smp -> preserves (prints_samples (D := D) (W := W)) (print (sample_line smp)).
Proof.
  intros Hu s. exists [sample_line smp]. split; [done|].
  constructor; [|constructor]. exists smp. split; [by eapply unpack_in_range|done].
Qed.

#[local] Hint Resolve on_dev_prints on_world_prints print_sample_prints : py.

(** C21. Whatever the device and the channel do and however the command
    ends, [stream_command] only adds to the output, and what it adds are
    lines of decoded records: fields within the ranges of the format, and an
    alert digit that is 1 exactly when the alert flag of the record is
    set. *)
Theorem stream_command_prints fuel args :
  preserves (prints_samples (D := D) (W := W)) (stream_command fuel args).
Proof.
  unfold stream_command, stream_session, stream_loop, stream_body, stream_configure,
    stream_deadline, deadline_passed.
  preserve.
Qed.

(** The steps before the loop print nothing. *)
Lemma stream_configure_same_out args :
  preserves (same_out (D := D) (W := W)) (stream_configure args).
Proof. unfold stream_configure. preserve. Qed.

Lemma stream_deadline_same_out args :
  preserves (same_out (D := D) (W := W)) (stream_deadline args).
Proof. unfold stream_deadline. preserve. Qed.

Lemma deadline_passed_same_out deadline :
  preserves (same_out (D := D) (W := W)) (deadline_passed deadline).
Proof. unfold deadline_passed. preserve. Qed.

#[local] Hint Resolve stream_configure_same_out stream_deadline_same_out
  deadline_passed_same_out : py.

(** The [try] statement leaves the output the loop left. *)
Lemma stream_loop_out fuel f count_limit deadline s :
  st_out (stream_loop fuel f count_limit deadline s).2 =
    st_out (iter fuel (stream_body f count_limit deadline) 0 s).2.
Proof.
  unfold stream_loop, try_finally, try_except.
  destruct (iter _ _ _ _) as [[[]|e|] sb]; simpl; [| |done].
  - rewrite on_world_run. by destruct (os_close f _).1 as [[]|?|].
  - destruct (is_KeyboardInterrupt e); simpl; rewrite on_world_run;
      by destruct (os_close f _).1 as [[]|?|].
Qed.

(** One iteration under a count limit: a line is printed only when fewer
    than [n] were, and counted. *)
Lemma stream_body_count f n deadline (base : nat) samples s :
  length (st_out s) = (base + Z.to_nat samples)%nat -> 0 <= samples <= n ->
  match stream_body f (Some n) deadline samples s with
  | (Ok (Continue samples'), s') =>
      length (st_out s') = (base + Z.to_nat samples')%nat /\ 0 <= samples' <= n
  | (_, s') => (length (st_out s') <= base + Z.to_nat n)%nat
  end.
Proof.
  intros Hlen Hn. unfold stream_body.
  ostep; [|out_done..]. destruct a as [|]; [out_done|].
  unfold count_reached. destruct (Z.leb_spec n samples); [out_done|].
  ostep; [|out_done..]. destruct a as [|ev events]; [out_done|].
  ostep; [|out_done..]. destruct a as [data|]; [|out_done].
  destruct (_ <? _)%nat; [out_done|]. destruct (unpack _); [|out_done].
  simpl. rewrite length_app. out_done.
Qed.

(** C14. With [--count n] the command prints at most [n] lines, however it
    ends: by the count, the deadline, an interrupt, an exception, or the
    exhaustion of the fuel. *)
Theorem stream_command_count fuel args s n :
  args_count args = Some n -> 0 <= n ->
  (length (st_out (stream_command fuel args s).2) <= length (st_out s) + Z.to_nat n)%nat.
Proof.
  intros Hc Hn. unfold stream_command, stream_session. rewrite Hc.
  ostep; [|out_done..]. ostep; [|out_done..].
  rewrite bind_run with (r := Ok s1) (s' := s1) by done.
  ostep; [|out_done..]. ostep; [|out_done..].
  assert (length (st_out (stream_loop fuel a1 (Some n) a0 s3).2) <=
            length (st_out s) + Z.to_nat n)%nat as Hloop.
  { rewrite stream_loop_out.
    apply (iter_always _ (fun samples s' =>
             length (st_out s') = (length (st_out s) + Z.to_nat samples)%nat /\ 0 <= samples <= n));
      [intros samples s' [Hl ?]; rewrite Hl; lia| |out_done].
    intros samples s' [Hl ?]. by apply stream_body_count. }
  unfold bind. by destruct (stream_loop _ _ _ _ _) as [[[]|?|] s4].
Qed.

End Output.

Lemma stream_command_count_witness :
  (length (st_out (stream_command 10 (count_args 2) three_records).2)
   <= length (st_out three_records) + Z.to_nat 2)%nat.
Proof. by apply (stream_command_count 10 (count_args 2) three_records 2). Defined.

(** ** The order of the calls *)

Section Trace.
Context {D W : Type} `{Device D} `{Channel W}.
Implicit Types (s : St D (Traced W)).

#[export] Instance st_extends_preorder P : PreOrder (st_extends (D := D) (W := W) P).
Proof.
  split.
  - intros s. unfold st_extends. reflexivity.
  - intros s1 s2 s3. unfold st_extends. apply transitivity.
Qed.

Lemma on_dev_extends {A} P (m : M D A) : preserves (st_extends (W := W) P) (on_dev m).
Proof. intros s. rewrite on_dev_run. unfold st_extends. simpl. reflexivity. Qed.

Lemma print_extends P l : preserves (st_extends (D := D) (W := W) P) (print l).
Proof. intros s. unfold st_extends. simpl. reflexivity. Qed.

Lemma on_world_extends {A} P (m : M (Traced W) A) :
  preserves (extends P) m -> preserves (st_extends (D := D) P) (on_world m).
Proof. intros Hm s. rewrite on_world_run. apply Hm. Qed.

Lemma monotonic_stream f : preserves (extends (stream_call f)) (monotonic (W := Traced W)).
Proof. by apply traced_extends. Qed.

Lemma poll_stream f :
  preserves (extends (stream_call f)) (poll_poll (W := Traced W) DEFAULT_POLL_TIMEOUT_MS).
Proof. by apply traced_extends. Qed.

Lemma read_record_stream f : preserves (extends (stream_call f)) (read_record (W := Traced W) f).
Proof. unfold read_record. preserve. by apply traced_extends. Qed.

#[local] Hint Resolve on_dev_extends print_extends on_world_extends monotonic_stream
  poll_stream read_record_stream : py.

(** The loop only reads the clock, polls with the default time-out and
    reads records of [f]. *)
Lemma stream_iter_extends fuel f count_limit deadline n :
  preserves (st_extends (stream_call f))
    (iter fuel (stream_body (D := D) (W := Traced W) f count_limit deadline) n).
Proof. unfold stream_body, deadline_passed. preserve. Qed.

(** A call on the traced world adds itself to the trace. *)
Lemma on_world_traced_inv {A} (m : M W A) (c : outcome A -> call) s r s' :
  on_world (traced m c) s = (r, s') -> calls (st_world s') = (calls (st_world s) ++ [c r])%list.
Proof.
  rewrite on_world_run. intros [= <- <-]. simpl. by rewrite traced_calls.
Qed.

(** The [try] statement: calls of the loop, then the close; an interrupt
    does not leave it unless [os.close] raised. *)
Lemma stream_loop_trace fuel f count_limit deadline s :
  terminated (stream_loop fuel f count_limit deadline s).1 ->
  exists l rc,
    calls (st_world (stream_loop fuel f count_limit deadline s).2) =
      (calls (st_world s) ++ l ++ [CClose f rc])%list /\
    Forall (stream_call f) l /\ terminated rc /\
    ((stream_loop fuel f count_limit deadline s).1 = Ok tt \/
     exists e, (stream_loop fuel f count_limit deadline s).1 = Raise e /\
       (rc = Ok tt -> e <> KeyboardInterrupt)).
Proof.
  unfold stream_loop. destruct (try_finally _ _ s) as [r s'] eqn:Hf. simpl. intros Hr.
  apply try_finally_inv in Hf as (rb & sb & rc & Hb & Htb & Hc & Htc & ->); [|done].
  apply on_world_traced_inv in Hc.
  assert (preserves (st_extends (stream_call f))
    (try_except (iter fuel (stream_body (D := D) (W := Traced W) f count_limit deadline) 0)
       is_KeyboardInterrupt (fun _ => ret tt))) as Hp
    by (unfold stream_body, deadline_passed; preserve).
  destruct (Hp s) as (l & El & Hl). rewrite Hb in El. simpl in El.
  exists l, rc. rewrite Hc, El, <- app_assoc. split; [done|]. split; [done|]. split; [done|].
  destruct rc as [[]|e'|]; [|right; by exists e'|done].
  destruct rb as [[]|e|]; [by left| |done]. right. exists e. split; [done|]. intros _ ->.
  pose proof (try_except_pass_escapes _ _ _ s KeyboardInterrupt ltac:(by rewrite Hb)). done.
Qed.

Lemma stream_session_trace fuel count_limit deadline s :
  terminated (stream_session fuel count_limit deadline s).1 ->
  exists l, calls (st_world (stream_session fuel count_limit deadline s).2) =
      (calls (st_world s) ++ l)%list /\
    session_trace l (stream_session fuel count_limit deadline s).1.
Proof.
  unfold stream_session. rewrite bind_run with (r := Ok s) (s' := s) by done.
  mstep; apply on_world_traced_inv in E;
    [|intros _; eexists; split; [done|constructor]|done].
  mstep; apply on_world_traced_inv in E0;
    [|intros _; eexists; split; [by rewrite E0, E, <- app_assoc|constructor]|done].
  destruct a0. intros Ht.
  destruct (stream_loop_trace fuel a count_limit deadline s1) as (l & rc & El & Hl & Hrc & Hr).
  { unfold bind in Ht. by destruct (stream_loop _ _ _ _ _) as [[?|?|] ?]. }
  exists ([COpen (dev_char_device (st_dev s)) (Z.lor O_RDONLY O_NONBLOCK) (Ok a);
           CRegister a (Z.lor POLLIN POLLPRI) (Ok tt)] ++ l ++ [CClose a rc])%list.
  unfold bind. destruct (stream_loop _ _ _ _ _) as [r s2]. simpl in *.
  split; [destruct r; simpl; by rewrite El, E0, E, <- !app_assoc|].
  destruct Hr as [->|(e & -> & He)]; constructor; eauto.
Qed.

(** The steps before the session: no call of the channel by the writes,
    at most one reading of the clock for the deadline. *)
Lemma stream_configure_same_world args :
  preserves (same_world (D := D) (W := Traced W)) (stream_configure args).
Proof. unfold stream_configure. preserve. Qed.

#[local] Hint Resolve stream_configure_same_world : py.

Lemma stream_deadline_trace args s :
  exists pre, calls (st_world (stream_deadline args s).2) = (calls (st_world s) ++ pre)%list /\
    (pre = [] /\ terminated (stream_deadline args s).1 /\
       (forall e, (stream_deadline args s).1 <> Raise e) \/
     exists r, pre = [CMonotonic r] /\
       (forall e, (stream_deadline args s).1 = Raise e -> r = Raise e)).
Proof.
  unfold stream_deadline.
  destruct (args_duration args) as [d|]; [destruct (d =? 0)|];
    try (exists []; rewrite app_nil_r; split; [done|]; left; by repeat split).
  mstep; apply on_world_traced_inv in E; eexists; (split; [done|]); right; eexists;
    (split; [done|]); by intros ? [= <-].
Qed.

(** C7. The calls of a run of [stream_command] that ended, on any device
    and in any world: no call of the channel by the configuration writes,
    one reading of the clock when a duration is given, then the session:
    open and register, and once both succeeded only readings of the clock,
    polls of one second and reads of one record from the opened
    descriptor, with the close of that descriptor as the last call.  The
    command then returns 0, except when an exception other than
    [KeyboardInterrupt] left the loop or [os.close] raised: an interrupt
    during the loop is a normal end, and the descriptor is closed. *)
Theorem stream_command_trace fuel args s :
  terminated (stream_command fuel args s).1 ->
  exists pre l,
    calls (st_world (stream_command fuel args s).2) = (calls (st_world s) ++ pre ++ l)%list /\
    (pre = [] \/ exists r, pre = [CMonotonic r]) /\
    (l = [] /\ (exists e, (stream_command fuel args s).1 = Raise e) \/
     session_trace l (stream_command fuel args s).1).
Proof.
  unfold stream_command.
  pstep same_world; unfold same_world in Ho;
    [|intros _; exists [], []; rewrite !app_nil_r, Ho; by eauto 8|done].
  rewrite <- Ho.
  destruct (stream_deadline_trace args s0) as (pre & Epre & Hpre).
  mstep; simpl in Epre.
  - intros Ht. destruct (stream_session_trace fuel (args_count args) a0 s1 Ht) as (l & El & Hl).
    exists pre, l. rewrite El, Epre, app_assoc. split; [done|]. split; [|by right].
    destruct Hpre as [[-> _]|(r & -> & _)]; eauto.
  - intros _. exists pre, []. rewrite app_nil_r. split; [done|].
    split; [destruct Hpre as [[-> _]|(r & -> & _)]; eauto|eauto].
  - done.
Qed.

End Trace.

Lemma stream_command_trace_witness :
  let s := State dev_both (Trace (IdleW 0) []) [] in
  exists pre l,
    calls (st_world (stream_command 4 (duration_args 1000000000) s).2) =
      (calls (st_world s) ++ pre ++ l)%list /\
    (pre = [] \/ exists r, pre = [CMonotonic r]) /\
    (l = [] /\ (exists e, (stream_command 4 (duration_args 1000000000) s).1 = Raise e) \/
     session_trace l (stream_command 4 (duration_args 1000000000) s).1).
Proof. intros s. apply stream_command_trace. by vm_compute. Defined.

(** ** Termination *)

Section Termination.
Context {D W : Type} `{DeviceLaws D} `{ClockLaws W}.
Implicit Types (s : St D W).

#[export] Instance st_clock_le_preorder : PreOrder (st_clock_le (D := D) (W := W)).
Proof.
  split.
  - intros s. unfold st_clock_le. reflexivity.
  - intros s1 s2 s3. unfold st_clock_le. apply transitivity.
Qed.

Lemma on_dev_clock_le {A} (m : M D A) : preserves (st_clock_le (W := W)) (on_dev m).
Proof. intros s. rewrite on_dev_run. unfold st_clock_le. simpl. reflexivity. Qed.

Lemma on_world_clock_le {A} (m : M W A) :
  preserves clock_le m -> preserves (st_clock_le (D := D)) (on_world m).
Proof. intros Hm s. rewrite on_world_run. apply Hm. Qed.

#[local] Hint Resolve on_dev_clock_le on_world_clock_le : py.

Lemma stream_configure_total args : total (stream_configure (D := D) (W := W) args).
Proof. unfold stream_configure. totality. Qed.

Lemma stream_configure_clock_le args :
  preserves (st_clock_le (D := D) (W := W)) (stream_configure args).
Proof. unfold stream_configure. preserve. Qed.

#[local] Hint Resolve stream_configure_clock_le : py.

(** Under the contract of the clock an iteration with a deadline returns
    or raises, and one that asks for another started before the deadline
    and took at least a tick. *)
Lemma stream_body_clock f count_limit deadline samples s :
  match stream_body f count_limit (Some deadline) samples s with
  | (Ok (Continue _), s') =>
      clock (st_world s) < deadline /\ clock (st_world s) + tick <= clock (st_world s')
  | (OutOfFuel, _) => False
  | _ => True
  end.
Proof.
  pose proof tick_pos.
  unfold stream_body, deadline_passed, read_record, on_world, lift, print, modify, bind, ret,
    raise, try_except.
  repeat case_match; simplify_eq; simpl; clock_facts;
    rewrite ?Z.leb_le, ?Z.leb_gt in *; try done; try lia.
Qed.

(** The loop ends within [d / tick] iterations and one. *)
Lemma stream_iter_terminates fuel f count_limit t0 d samples s :
  t0 + tick <= clock (st_world s) -> (Z.to_nat (d / tick) < fuel)%nat ->
  terminated (iter fuel (stream_body f count_limit (Some (t0 + d))) samples s).1.
Proof.
  intros Hw Hfuel.
  apply (iter_terminates _ (fun _ _ => True)
           (fun _ s => ticks_left tick (t0 + d) (clock (st_world s)))); [|done|].
  - intros n s' _. pose proof (stream_body_clock f count_limit (t0 + d) n s') as Hb.
    destruct (stream_body f count_limit (Some (t0 + d)) n s') as [[[n'|r]|e|] s'']; try done.
    split; [done|]. apply ticks_left_decreases; [apply tick_pos|lia..].
  - pose proof (ticks_left_span tick t0 d (clock (st_world s)) tick_pos Hw). lia.
Qed.

Lemma stream_session_terminates fuel count_limit t0 d s :
  t0 + tick <= clock (st_world s) -> (Z.to_nat (d / tick) < fuel)%nat ->
  terminated (stream_session fuel count_limit (Some (t0 + d)) s).1.
Proof.
  intros Hw Hfuel. unfold stream_session. rewrite bind_run with (r := Ok s) (s' := s) by done.
  mstep; apply on_world_inv in E as (E & _ & _); clock_facts; [|done|tauto].
  mstep; apply on_world_inv in E as (E & _ & _); clock_facts; [|done|tauto].
  apply bind_terminated; [|intros; apply total_ret].
  apply try_finally_terminated; [|intros s'; by apply on_world_total, os_close_total].
  apply try_except_terminated; [|intros; apply total_ret].
  apply stream_iter_terminates; [lia|done].
Qed.

(** C13. With [--duration d], [d] not 0, on a device that implements the
    store and in a world whose clock keeps its contract, [stream_command]
    returns or raises as soon as the fuel exceeds [d / tick]: the loop
    ends with the deadline whatever the channel delivers. *)
Theorem stream_command_terminates fuel args d s :
  args_duration args = Some d -> d <> 0 -> (Z.to_nat (d / tick) < fuel)%nat ->
  terminated (stream_command fuel args s).1.
Proof.
  intros Hd Hnz Hfuel. unfold stream_command, stream_deadline.
  rewrite Hd, (proj2 (Z.eqb_neq d 0)) by done.
  pose proof (stream_configure_total args s) as Ht.
  pstep st_clock_le; [|done..].
  rewrite bind_assoc. mstep; apply on_world_inv in E0 as (E0 & _ & _); clock_facts; [|done|done].
  rewrite bind_ret_l. apply stream_session_terminates; [lia|done].
Qed.

End Termination.

Lemma stream_command_terminates_witness :
  terminated (stream_command 4 (duration_args 1000000000)
                (State dev_both (IdleW 0) [])).1.
Proof. apply (stream_command_terminates 4 _ 1000000000); [done|done|by vm_compute]. Defined.

(** ** A stream without a bound *)

Section Unbounded.
Context {D W : Type} `{Device D} `{Quiet W}.
Implicit Types (s : St D W).

(** Without a count and without a deadline, an iteration in a quiet world
    asks for the next one. *)
Lemma stream_body_quiet f samples s :
  exists s', stream_body f None None samples s = (Ok (Continue samples), s').
Proof.
  unfold stream_body, deadline_passed. rewrite bind_ret_l. simpl.
  mstep; apply on_world_inv in E as (E & _ & _); quiet_facts; simplify_eq. eauto.
Qed.

Lemma stream_iter_quiet fuel f samples s :
  (iter fuel (stream_body f None None) samples s).1 = OutOfFuel.
Proof.
  revert s. induction fuel as [|n IH]; intros s; [done|].
  rewrite iter_S. destruct (stream_body_quiet f samples s) as (s' & ->). apply IH.
Qed.

(** C24. Without [--count], and without [--duration] or with a duration of
    0, which the command takes for no duration, [stream_command] does not
    return in a world where the channel never becomes readable: whatever
    the fuel, the run is still in its loop when the fuel is exhausted, or a
    write of the configuration raised. *)
Theorem stream_command_unbounded fuel args s :
  args_count args = None -> args_duration args = None \/ args_duration args = Some 0 ->
  match (stream_command fuel args s).1 with
  | Ok _ => False
  | _ => True
  end.
Proof.
  intros Hc Hd. unfold stream_command. rewrite Hc. mstep; [|done..].
  rewrite bind_run with (r := Ok None) (s' := s0)
    by (unfold stream_deadline; by destruct Hd as [-> | ->]).
  unfold stream_session. rewrite bind_run with (r := Ok s0) (s' := s0) by done.
  mstep; apply on_world_inv in E0 as (E0 & _ & _); quiet_facts; [|quiet_done..].
  destruct Hq as (f & [= <-] & Hreg).
  mstep; [|done..]. unfold bind, stream_loop, try_finally, try_except.
  pose proof (stream_iter_quiet fuel a0 0 s2) as Hi.
  by destruct (iter _ _ _ _) as [[?|?|] ?]; simplify_eq.
Qed.

End Unbounded.

Lemma stream_command_unbounded_witness :
  match (stream_command 50 (duration_args 0) (State dev_both (IdleW 0) [])).1 with
  | Ok _ => False
  | _ => True
  end.
Proof. apply stream_command_unbounded; [done|by right]. Defined.
