(* ===== verification/Cli.v ===== *)
(** * Cli: argument validators and the entry point

    [positive_int] and [non_negative_int] (main.py, lines 226-237) are the
    [type=] functions of the options: [int(value)] and a bound.
    [main] (lines 299-308) parses the command line, calls the function of
    the subcommand and maps exceptions to exit codes: [FileNotFoundError],
    [PermissionError] and [IndexError] go to [parser.error], which exits
    with code 2; any other [OSError] is printed and gives 1; every other
    exception leaves [main].

    [argparse] is a library and is not modelled: the model starts from
    what [parse_args] returned, the subcommand (if one was given) and the
    [Namespace].  [dispatch] is [args.func(args)], including the
    construction of the device each command starts with; [main] is the
    [try] statement around it. *)

From stdpp Require Import base strings list gmap.
From Stdlib Require Import ZArith Lia.
From S2P Require Import Prelude PyInt Sample Device Discovery Channel Fakes Args.
From S2P Require Import WaitAlert SelfTest Stream.

#[local] Open Scope string_scope.
#[local] Open Scope Z_scope.

(** ** Definitions *)

Definition positive_int (value : string) : outcome Z :=
  match py_int value with
  | None => Raise ValueError
  | Some ivalue => if ivalue <=? 0 then Raise ArgumentTypeError else Ok ivalue
  end.

Definition non_negative_int (value : string) : outcome Z :=
  match py_int value with
  | None => Raise ValueError
  | Some ivalue => if ivalue <? 0 then Raise ArgumentTypeError else Ok ivalue
  end.

(** The subparsers of [build_parser]. *)
Inductive subcommand : Type := CmdStream | CmdTest.

#[export] Instance subcommand_eq_dec : EqDecision subcommand.
Proof. solve_decision. Defined.

(** How the process ends: [return rc] from [main], [SystemExit(code)] from
    [parser.error], an exception that leaves [main], or a run that is still
    going when the fuel is exhausted. *)
Inductive exit : Type :=
| Return (rc : Z)
| SystemExit (code : Z)
| Uncaught (e : exn)
| Running.

(** [except (FileNotFoundError, PermissionError, IndexError)]. *)
Definition is_usage_error (e : exn) : bool :=
  match e with
  | FileNotFoundError | PermissionError | IndexError => true
  | _ => false
  end.

(** What is left after the command: the device if it was constructed, the
    world and the lines printed. *)
Record final (W : Type) : Type := Final {
  fin_dev : option SimtempDevice;
  fin_world : W;
  fin_out : list line
}.

Arguments Final {W} fin_dev fin_world fin_out.
Arguments fin_dev {W} f.
Arguments fin_world {W} f.
Arguments fin_out {W} f.

Section Main.
Context {W : Type} `{Channel W}.

(** [args.func(args)].  Without a subcommand the parser's default
    [func=stream_command] is called on a namespace that has none of the
    options of [stream]: the first of them the function reads, after the
    device is constructed, raises [AttributeError]. *)
Definition dispatch (fuel : nat) (command : option subcommand) (args : Namespace)
    (root : sysfs) (index : Z) (device_path : option string) (w : W)
    : outcome Z * final W :=
  match init root index device_path with
  | Ok device =>
      let s := State device w [] in
      let (r, s') :=
        match command with
        | Some CmdStream => stream_command fuel args s
        | Some CmdTest => test_command fuel args s
        | None => (Raise AttributeError, s)
        end in
      (r, Final (Some (st_dev s')) (st_world s') (st_out s'))
  | Raise e => (Raise e, Final None w [])
  | OutOfFuel => (OutOfFuel, Final None w [])
  end.

(** The [try] statement of [main]. *)
Definition main (fuel : nat) (command : option subcommand) (args : Namespace)
    (root : sysfs) (index : Z) (device_path : option string) (w : W) : exit * final W :=
  let (r, fin) := dispatch fuel command args root index device_path w in
  (match r with
   | Ok rc => Return rc
   | Raise e =>
       if is_usage_error e then SystemExit 2
       else if is_OSError e then Return 1
       else Uncaught e
   | OutOfFuel => Running
   end, fin).

End Main.

(** The root of the tests: one device directory in a temporary
    directory. *)
Definition tmp_root : sysfs := Sysfs (Some [simtemp_dir "simtemp0" 100 45000 "normal"]) true.

(** A world in which the first record read has the alert flag. *)
Definition alert_world : FakeWorld :=
  fake_world [default [] (pack (Sample 1234567890 42000 SIMTEMP_FLAG_ALERT))].

(** A root that does not exist. *)
Definition no_root : sysfs := Sysfs None false.

(** ** The validators *)



(** The validators read back what [str] writes. *)
Lemma positive_int_py_str i : 0 < i -> positive_int (py_str i) = Ok i.
Proof.
  intros Hi. unfold positive_int. rewrite py_int_py_str.
  by destruct (Z.leb_spec i 0); [lia|].
Qed.

Lemma non_negative_int_py_str i : 0 <= i -> non_negative_int (py_str i) = Ok i.
Proof.
  intros Hi. unfold non_negative_int. rewrite py_int_py_str.
  by destruct (Z.ltb_spec i 0); [lia|].
Qed.

(** ** The entry point *)

Section MainLaws.
Context {W : Type} `{Channel W}.

(** The constructor raises usage errors only. *)
Lemma init_usage_error root index device_path e :
  init root index device_path = Raise e -> is_usage_error e = true.
Proof. unfold init. repeat case_match; by intros [= <-]. Qed.

(** C22. When the device cannot be constructed (no root, no device
    directory, index out of range) [main] exits with code 2, for every
    command, before anything is written, opened or printed: the world is
    the world it started in. *)
Theorem main_discovery_error fuel command args root index device_path (w : W) e :
  init root index device_path = Raise e ->
  main fuel command args root index device_path w = (SystemExit 2, Final None w []).
Proof.
  intros Hi. unfold main, dispatch. rewrite Hi. by rewrite (init_usage_error _ _ _ _ Hi).
Qed.


(** C12. [main] returns 0 from the [test] command only after a record with
    the alert flag was read: the output is then one PASS line, with the
    count of records read, at least 1, and the fields of that record. *)
Theorem main_test_pass fuel args root index device_path (w : W) fin :
  main fuel (Some CmdTest) args root index device_path w = (Return 0, fin) ->
  exists count ts temp fl,
    fin_out fin = [PassLine count ts temp fl] /\ 1 <= count /\ has_alert fl = true /\
    in_range (Sample ts temp fl).
Proof.
  unfold main, dispatch. destruct (init _ _ _) as [d|e|] eqn:Hi;
    [|by rewrite (init_usage_error _ _ _ _ Hi)|done].
  pose proof (test_command_verdict fuel args (State d w [])) as Hv.
  destruct (test_command _ _ _) as [[rc|e|] s']; [| |done].
  - intros [= -> <-]. destruct Hv as (l & Hl & Hv). simpl in *.
    destruct l as [| |]; try by destruct Hv. destruct Hv as (_ & ? & ? & ?). eauto 10.
  - by destruct (is_usage_error e), (is_OSError e).
Qed.

End MainLaws.

Lemma main_discovery_error_witness :
  main 1 (Some CmdStream) (count_args 1) no_root 0 None (IdleW 0) =
    (SystemExit 2, Final None (IdleW 0) []).
Proof. by apply (main_discovery_error _ _ _ _ _ _ _ FileNotFoundError). Defined.


Lemma main_test_pass_witness :
  exists count ts temp fl,
    fin_out (main 10 (Some CmdTest) no_args tmp_root 0 None alert_world).2 =
      [PassLine count ts temp fl] /\ 1 <= count /\ has_alert fl = true /\
    in_range (Sample ts temp fl).
Proof.
  apply (main_test_pass 10 no_args tmp_root 0 None alert_world). by vm_compute.
Defined.
