(* ===== verification/Tests.v ===== *)
(** * Tests: the scenarios of the test-suite, as theorems

    Each test of [src/tests/test_cli.py] that exercises a modelled component
    is stated here on the doubles of [Fakes], with the values its [assert]
    statements expect, and proved by evaluation of the model.  They tie the
    model to the behaviour the test-suite observes of the code. *)

From stdpp Require Import base strings list gmap.
From Stdlib Require Import ZArith Lia.
From coqutil Require Import Byte.
From S2P Require Import Prelude PyInt Sample Device Discovery Channel Fakes Args.
From S2P Require Import WaitAlert SelfTest Stream Cli.

#[local] Open Scope string_scope.
#[local] Open Scope Z_scope.

(** ** Definitions *)

(** The text of an attribute file, stripped, as the tests read it back. *)
Definition file_text (name : string) (d : SimtempDevice) : option string :=
  strip <$> attrs d !! name.

(** The record [test_wait_for_alert_success] packs and the one
    [test_main_test_command_success] has [wait_for_alert] return. *)
Definition sample_bytes : list byte :=
  default [] (pack (Sample 1234567890 42000 SIMTEMP_FLAG_ALERT)).



(** A world for the runs outside the test-suite: the channel delivers one
    record at the first poll and the user interrupts the second poll.  The
    state is the number of polls so far. *)
Definition interrupting_Channel : Channel nat := {|
  os_open := fun _ _ => ret 7;
  poll_register := fun _ _ => ret tt;
  poll_poll := fun _ n =>
    match n with
    | O => (Ok [(7, POLLIN)], S n)
    | S _ => (Raise KeyboardInterrupt, S n)
    end;
  os_read := fun _ _ => ret sample_bytes;
  os_close := fun _ => ret tt;
  monotonic := ret 0
|}.



(** ** Boundary-value tests of the validators *)

Example test_positive_int_boundary_valid :
  positive_int "1" = Ok 1 /\ positive_int "32768" = Ok 32768.
Proof. by vm_compute. Qed.

Example test_positive_int_boundary_invalid :
  positive_int "0" = Raise ArgumentTypeError /\ positive_int "-5" = Raise ArgumentTypeError.
Proof. by vm_compute. Qed.

Example test_non_negative_int_boundary_valid :
  non_negative_int "0" = Ok 0 /\ non_negative_int "1024" = Ok 1024.
Proof. by vm_compute. Qed.

Example test_non_negative_int_boundary_invalid :
  non_negative_int "-1" = Raise ArgumentTypeError /\
  non_negative_int "-100" = Raise ArgumentTypeError.
Proof. by vm_compute. Qed.

(** ** White-box tests of the device helpers *)

Example test_simtemp_device_snapshot_and_write :
  let device := tmp_device 100 45000 "normal" in
  (snapshot device).1 = Ok (Config (100 * 1000) 45000 "normal") /\
  file_text "sampling_ms" (write "sampling_ms" "250" device).2 = Some "250".
Proof. by vm_compute. Qed.

Example test_simtemp_device_index_out_of_range :
  init (Sysfs (Some [Dirent "simtemp0" true ∅]) true) 1 None = Raise IndexError.
Proof. by vm_compute. Qed.


Example test_write_sampling_prefers_microseconds :
  let device := tmp_device 100 45000 "normal" in
  file_text "sampling_us" (write_sampling (Some 500) None device).2 = Some "500".
Proof. by vm_compute. Qed.


(** ** White-box tests of [wait_for_alert] *)


Example test_wait_for_alert_timeout :
  (wait_for_alert 10 "/dev/nxp_simtemp" 100000 1 (IdleW 0)).1 = Ok (false, None, 0).
Proof. by vm_compute. Qed.

(** ** Black-box test of the [test] command *)


(** ** Runs outside the test-suite *)


(** [stream --count 2] when three records can be read: two lines, and the
    command returns 0. *)
Example stream_count_two :
  let run := stream_command 10 (count_args 2) three_records in
  run.1 = Ok 0 /\ st_out run.2 = [SampleLine 7 25000 0 0; SampleLine 7 25000 0 0].
Proof. by vm_compute. Qed.

(** [stream] interrupted during the second poll: the record read before is
    printed, the descriptor is closed by the last call, and the command
    returns 0. *)
Example stream_interrupted :
  let run := @stream_command _ _ _ (@Traced_Channel nat interrupting_Channel) 10 no_args
               (State dev_both (Trace O []) []) in
  run.1 = Ok 0 /\
  st_out run.2 = [SampleLine 1234567890 42000 1 SIMTEMP_FLAG_ALERT] /\
  last (calls (st_world run.2)) = Some (CClose 7 (Ok tt)) /\
  opened (calls (st_world run.2)) = closed (calls (st_world run.2)).
Proof. by vm_compute. Qed.

(** [stream] when [register] refuses the descriptor: the exception leaves
    the command and no call closes the descriptor that was opened. *)
Example stream_register_refused :
  let run := @stream_command _ _ _ (@Traced_Channel unit refusing_Channel) 10 no_args
               (State dev_both (Trace tt []) []) in
  run.1 = Raise OSError /\
  opened (calls (st_world run.2)) = [3] /\ closed (calls (st_world run.2)) = [].
Proof. by vm_compute. Qed.

(** ** Black-box test of discovery errors *)

Example test_main_handles_device_errors :
  (main 10 (Some CmdStream) (count_args 1) no_root 0 None (IdleW 0)).1 = SystemExit 2.
Proof. by vm_compute. Qed.

(** ** Runs of [main] outside the test-suite *)


